(** * proton-docs-mcp: the tool handlers of [ProtonDocsServer]

    A shallow embedding of [src/index.ts].  The server owns one browser and
    one page and drives them through the automation driver; every handler is
    an asynchronous method that either returns a tool response or throws.

    The driver, the remote pages and their DOM are outside the program.  They
    are modelled by an environment of oracles that answers each driver call
    from the whole sequence of calls made so far, so that every deterministic
    behaviour of the outside world is covered.  The server is modelled by
    explicit state passing: the two fields of the class, together with the
    record of the driver calls it issued. *)

From Stdlib Require Import List String Ascii Bool Arith ZArith QArith Qminmax Lia.
Import ListNotations.
Close Scope Q_scope.
Open Scope string_scope.

Set Implicit Arguments.

(** ** Strings, as the handlers use them

    A string is held as the bytes of its UTF-8 encoding, the way a string
    literal is read; the operations that depend on the characters of the
    string, [length] and [trim], decode those bytes. *)

Module Js.

(** A double quote, for the selectors and template literals that contain one. *)
Definition quote : string := String (ascii_of_nat 34) EmptyString.
Definition quoted (s : string) : string := quote ++ s ++ quote.

(** [hay.includes(needle)] *)
Fixpoint includes (needle hay : string) : bool :=
  if prefix needle hay then true
  else match hay with
       | EmptyString => false
       | String _ rest => includes needle rest
       end.

(** [s.split(sep)] for a separator of one character. *)
Fixpoint split (sep : ascii) (s : string) : list string :=
  match s with
  | EmptyString => [EmptyString]
  | String c rest =>
      if Ascii.eqb c sep then EmptyString :: split sep rest
      else match split sep rest with
           | [] => [String c EmptyString]
           | w :: ws => String c w :: ws
           end
  end.

(** The characters [trim] strips, the white space and the line terminators
    of the language, as the bytes of their UTF-8 encoding: U+0009 to U+000D,
    U+0020, U+00A0, U+1680, U+2000 to U+200A, U+2028, U+2029, U+202F,
    U+205F, U+3000 and U+FEFF. *)
Definition white_space : list (list nat) :=
  [[9]; [10]; [11]; [12]; [13]; [32];
   [194; 160];
   [225; 154; 128];
   [226; 128; 128]; [226; 128; 129]; [226; 128; 130]; [226; 128; 131];
   [226; 128; 132]; [226; 128; 133]; [226; 128; 134]; [226; 128; 135];
   [226; 128; 136]; [226; 128; 137]; [226; 128; 138];
   [226; 128; 168]; [226; 128; 169]; [226; 128; 175];
   [226; 129; 159];
   [227; 128; 128];
   [239; 187; 191]].

(** The bytes left once the bytes [p] are taken off the front, if they are
    there. *)
Fixpoint without_prefix (p bytes : list nat) : option (list nat) :=
  match p, bytes with
  | [], _ => Some bytes
  | a :: p', b :: bytes' =>
      if Nat.eqb a b then without_prefix p' bytes' else None
  | _ :: _, [] => None
  end.

(** The bytes left once one character among [chars] is taken off the front. *)
Fixpoint without_one (chars : list (list nat)) (bytes : list nat)
  : option (list nat) :=
  match chars with
  | [] => None
  | c :: others =>
      match without_prefix c bytes with
      | Some rest => Some rest
      | None => without_one others bytes
      end
  end.

(** At most [n] leading characters among [chars] taken off. *)
Fixpoint without_leading (chars : list (list nat)) (n : nat)
    (bytes : list nat) : list nat :=
  match n with
  | O => bytes
  | S n' =>
      match without_one chars bytes with
      | Some rest => without_leading chars n' rest
      | None => bytes
      end
  end.

Definition bytes_of (s : string) : list nat :=
  map nat_of_ascii (list_ascii_of_string s).

Definition of_bytes (bytes : list nat) : string :=
  string_of_list_ascii (map ascii_of_nat bytes).

Definition trimStart (s : string) : string :=
  of_bytes (without_leading white_space (String.length s) (bytes_of s)).

(** The trailing white space is the leading white space of the bytes read
    backwards. *)
Definition trimEnd (s : string) : string :=
  of_bytes
    (rev (without_leading (map (@rev nat) white_space) (String.length s)
            (rev (bytes_of s)))).

(** [s.trim()] *)
Definition trim (s : string) : string := trimEnd (trimStart s).

(** The UTF-16 code units a byte stands for: one for a character of one
    byte and for the first byte of a character of two or three bytes, two
    (a surrogate pair) for the first byte of a character of four bytes, none
    for a continuation byte. *)
Definition units (c : ascii) : nat :=
  let n := nat_of_ascii c in
  if Nat.ltb n 128 then 1
  else if Nat.ltb n 192 then 0
  else if Nat.ltb n 240 then 1
  else 2.

(** [s.length], the number of UTF-16 code units of the string. *)
Fixpoint length (s : string) : nat :=
  match s with
  | EmptyString => 0
  | String c rest => units c + length rest
  end.

Definition upper (c : ascii) : ascii :=
  let n := nat_of_ascii c in
  if (Nat.leb 97 n && Nat.leb n 122)%bool then ascii_of_nat (n - 32) else c.

(** [s.toUpperCase()], on the letters of the ASCII range. *)
Fixpoint toUpperCase (s : string) : string :=
  match s with
  | EmptyString => EmptyString
  | String c rest => String (upper c) (toUpperCase rest)
  end.

(** A string is truthy when it is not empty. *)
Definition truthy (s : string) : bool :=
  match s with EmptyString => false | _ => true end.

(** [a || b] on strings. *)
Definition or_else (a b : string) : string := if truthy a then a else b.

(** [a?.trim() || b] where [a] may be undefined. *)
Definition trimmed_or (a : option string) (b : string) : string :=
  match a with
  | Some s => or_else (trim s) b
  | None => b
  end.

(** [a || b] where [a] may be null. *)
Definition opt_or (a : option string) (b : string) : string :=
  match a with
  | Some s => or_else s b
  | None => b
  end.

End Js.

(** ** JSON values

    Tool arguments arrive over the transport as JSON, and every success
    payload is an object handed to [JSON.stringify].  Numbers are the finite
    numbers JSON can carry, kept as rationals.  A property that is absent or
    [undefined] is [None] at lookup. *)

#[warnings="-register-all"]
Inductive json : Type :=
| JNull
| JBool (b : bool)
| JNum (n : Q)
| JStr (s : string)
| JArr (items : list json)
| JObj (members : list (string * json)).

Definition member (key : string) (o : list (string * json)) : option json :=
  match find (fun kv => String.eqb (fst kv) key) o with
  | Some kv => Some (snd kv)
  | None => None
  end.

Definition JNat (n : nat) : json := JNum (inject_Z (Z.of_nat n)).

(** An object literal whose optional properties are left out when undefined,
    as [JSON.stringify] leaves them out. *)
Definition optional_member (key : string) (v : option json)
  : list (string * json) :=
  match v with
  | Some x => [(key, x)]
  | None => []
  end.

(** ** Errors *)

Inductive ErrorCode : Type := MethodNotFound | InvalidRequest | InternalError.

(** What a handler can throw.  The message of an [McpError] built by the
    template literal [`Failed to X: ${error}`] is kept as its two parts. *)
Inductive jsError : Type :=
| McpError (code : ErrorCode) (message : mcpMessage)
| ZodError (issues : list string)
| DriverError (description : string)
| TypeError (description : string)
with mcpMessage : Type :=
| Text (s : string)
| FailedTo (what : string) (cause : jsError).

(** ** Schemas of the tool parameters *)

Module Zod.

Definition Validator (A : Type) : Type := option json -> option A.

Definition string_ : Validator string :=
  fun v => match v with Some (JStr s) => Some s | _ => None end.

Definition number : Validator Q :=
  fun v => match v with Some (JNum n) => Some n | _ => None end.

Definition boolean : Validator bool :=
  fun v => match v with Some (JBool b) => Some b | _ => None end.

Definition optional {A} (inner : Validator A) : Validator (option A) :=
  fun v => match v with
           | None => Some None
           | Some _ => option_map Some (inner v)
           end.

Definition default {A} (inner : Validator A) (d : A) : Validator A :=
  fun v => match v with
           | None => Some d
           | Some _ => inner v
           end.

Definition enum {A} (values : list (string * A)) : Validator A :=
  fun v => match v with
           | Some (JStr s) =>
               option_map snd (find (fun kv => String.eqb (fst kv) s) values)
           | _ => None
           end.

Fixpoint strings (items : list json) : option (list string) :=
  match items with
  | [] => Some []
  | JStr s :: rest => option_map (cons s) (strings rest)
  | _ :: _ => None
  end.

Definition array_of_strings : Validator (list string) :=
  fun v => match v with Some (JArr items) => strings items | _ => None end.

(** A string that must also pass a format check ([.email()], [.url()]). *)
Definition refined (check : string -> bool) : Validator string :=
  fun v => match string_ v with
           | Some s => if check s then Some s else None
           | None => None
           end.

(** The outcome of one property of an object schema: the parsed value, or
    the path of the issue. *)
Definition field {A} (o : list (string * json)) (key : string)
    (v : Validator A) : list string + A :=
  match v (member key o) with
  | Some a => inr a
  | None => inl [key]
  end.

Definition issues {A} (r : list string + A) : list string :=
  match r with inl l => l | inr _ => [] end.

End Zod.

(** ** The driver and the remote pages *)

Inductive ElementHandle : Type :=
| PageElement (selector : string)
| FrameElement (frame : nat) (selector : string).

(** The scripts the handlers evaluate in the page. *)
Inductive Script : Type :=
| ListRows (limit : Q)
| ReadEditor
| SearchRows
| VersionItems.

(** One call to the driver. *)
Inductive Event : Type :=
| Launch
| NewPage
| SetViewport (width height : Z)
| Goto (url : string)
| WaitForSelector (selector : string) (timeout : option Z)
| WaitForTimeout (ms : Z)
| Query (selector : string)
| Click (selector : string)
| TypeInto (selector text : string)
| Evaluate (script : Script)
| KeyDown (key : string)
| KeyUp (key : string)
| KeyPress (key : string)
| KeyType (text : string)
| FrameQuery (frame : nat) (selector : string)
| FrameClick (frame : nat) (selector : string)
| FrameType (frame : nat) (selector text : string)
| HandleClick (target : ElementHandle) (clickCount : nat)
| HandleType (target : ElementHandle) (text : string)
| Close.

Record Frame : Type := {
  frame_id : nat;
  frame_name : string;
  frame_url : string
}.

(** A row of the listing table, as the in-page scripts see it: the text of
    its first four cells where they exist, and its [data-url] attribute. *)
Record Row : Type := {
  titleCell : option string;
  viewedCell : option string;
  createdByCell : option string;
  locationCell : option string;
  data_url : option string
}.

Record Editor : Type := {
  textContent : string;
  innerHTML : string
}.

(** The editor iframe: its content document when reachable, holding the main
    editor element when mounted. *)
Record IFrame : Type := {
  contentDocument : option (option Editor)
}.

Record VersionItem : Type := {
  version_date : option string;
  version_author : option string
}.

Record Dom : Type := {
  tbody_rows : list Row;
  editor_iframe : option IFrame;
  version_items : list VersionItem
}.

(** The outside world.  Every oracle reads the calls made so far, the one it
    answers being the last. *)
Record Env : Type := {
  rejects : list Event -> option string;
  present : list Event -> bool;
  frames : list Event -> list Frame;
  page_url : list Event -> string;
  dom : list Event -> Dom;
  is_email : string -> bool;
  is_url : string -> bool;
  show_number : Q -> string
}.

(** ** The server state and asynchronous methods *)

Inductive Browser : Type := browser_handle (launch_no : nat).
Inductive Page : Type := page_handle (page_no : nat).

Record Server : Type := {
  browser : option Browser;
  page : option Page;
  calls : list Event
}.

(** [new ProtonDocsServer()] *)
Definition initial : Server :=
  {| browser := None; page := None; calls := [] |}.

Inductive Completion (A : Type) : Type :=
| Return (a : A)
| Throw (e : jsError).

Arguments Return {A} a.
Arguments Throw {A} e.

Definition Async (A : Type) : Type := Server -> Completion A * Server.

Definition ret {A} (a : A) : Async A := fun s => (Return a, s).

Definition throw {A} (e : jsError) : Async A := fun s => (Throw e, s).

Definition bind {A B} (m : Async A) (k : A -> Async B) : Async B :=
  fun s => match m s with
           | (Return a, s') => k a s'
           | (Throw e, s') => (Throw e, s')
           end.

(** [try { m } catch (error) { handler error }] *)
Definition try_catch {A} (m : Async A) (handler : jsError -> Async A) : Async A :=
  fun s => match m s with
           | (Return a, s') => (Return a, s')
           | (Throw e, s') => handler e s'
           end.

(** A synchronous result lifted into a method body. *)
Definition lift {A} (c : Completion A) : Async A := fun s => (c, s).

Declare Scope async_scope.
Delimit Scope async_scope with async.
Notation "'let*' x ':=' m 'in' k" := (bind m (fun x => k))
  (at level 10, x name, m at level 100, k at level 200) : async_scope.
Notation "m ';;' k" := (bind m (fun _ => k))
  (at level 100, k at level 200, right associativity) : async_scope.
Open Scope async_scope.

(** [for (const x of l) { await body x }] *)
Fixpoint for_of {A} (l : list A) (body : A -> Async unit) : Async unit :=
  match l with
  | [] => ret tt
  | x :: rest => body x ;; for_of rest body
  end.

Definition when (b : bool) (m : Async unit) : Async unit :=
  if b then m else ret tt.

(** ** The parameter schemas

    Each schema is an object schema; [parse] returns the typed parameters or
    throws a [ZodError] listing the paths of the properties refused. *)

Definition not_an_object {A} : Completion A := Throw (ZodError ["$"]).

Module ListDocumentsSchema.
Record t : Type := { searchQuery : option string; limit : Q }.
Definition parse (args : option json) : Completion t :=
  match args with
  | Some (JObj o) =>
      match Zod.field o "searchQuery" (Zod.optional Zod.string_),
            Zod.field o "limit" (Zod.default Zod.number (20 # 1)%Q) with
      | inr q, inr l => Return {| searchQuery := q; limit := l |}
      | r1, r2 => Throw (ZodError (Zod.issues r1 ++ Zod.issues r2))
      end
  | _ => not_an_object
  end.
End ListDocumentsSchema.

Module ReadDocumentSchema.
Record t : Type := { documentUrl : string }.
Definition parse (args : option json) : Completion t :=
  match args with
  | Some (JObj o) =>
      match Zod.field o "documentUrl" Zod.string_ with
      | inr u => Return {| documentUrl := u |}
      | r1 => Throw (ZodError (Zod.issues r1))
      end
  | _ => not_an_object
  end.
End ReadDocumentSchema.

Module CreateDocumentSchema.
Record t : Type := { title : string; content : option string }.
Definition parse (args : option json) : Completion t :=
  match args with
  | Some (JObj o) =>
      match Zod.field o "title" Zod.string_,
            Zod.field o "content" (Zod.optional Zod.string_) with
      | inr t, inr c => Return {| title := t; content := c |}
      | r1, r2 => Throw (ZodError (Zod.issues r1 ++ Zod.issues r2))
      end
  | _ => not_an_object
  end.
End CreateDocumentSchema.

Module SearchDocumentsSchema.
Record t : Type := { query : string }.
Definition parse (args : option json) : Completion t :=
  match args with
  | Some (JObj o) =>
      match Zod.field o "query" Zod.string_ with
      | inr q => Return {| query := q |}
      | r1 => Throw (ZodError (Zod.issues r1))
      end
  | _ => not_an_object
  end.
End SearchDocumentsSchema.

Module EditDocumentSchema.
Record t : Type := { documentUrl : string; content : string; append : bool }.
Definition parse (args : option json) : Completion t :=
  match args with
  | Some (JObj o) =>
      match Zod.field o "documentUrl" Zod.string_,
            Zod.field o "content" Zod.string_,
            Zod.field o "append" (Zod.default Zod.boolean false) with
      | inr u, inr c, inr a =>
          Return {| documentUrl := u; content := c; append := a |}
      | r1, r2, r3 =>
          Throw (ZodError (Zod.issues r1 ++ Zod.issues r2 ++ Zod.issues r3))
      end
  | _ => not_an_object
  end.
End EditDocumentSchema.

Module DeleteDocumentSchema.
Record t : Type := { documentUrl : string; permanent : bool }.
Definition parse (args : option json) : Completion t :=
  match args with
  | Some (JObj o) =>
      match Zod.field o "documentUrl" Zod.string_,
            Zod.field o "permanent" (Zod.default Zod.boolean false) with
      | inr u, inr p => Return {| documentUrl := u; permanent := p |}
      | r1, r2 => Throw (ZodError (Zod.issues r1 ++ Zod.issues r2))
      end
  | _ => not_an_object
  end.
End DeleteDocumentSchema.

Inductive Permission : Type := view | edit.

Definition permission_name (p : Permission) : string :=
  match p with view => "view" | edit => "edit" end.

Module ShareDocumentSchema.
Record t : Type := { documentUrl : string; email : string; permission : Permission }.
Definition parse (is_email : string -> bool) (args : option json) : Completion t :=
  match args with
  | Some (JObj o) =>
      match Zod.field o "documentUrl" Zod.string_,
            Zod.field o "email" (Zod.refined is_email),
            Zod.field o "permission"
              (Zod.default (Zod.enum [("view", view); ("edit", edit)]) view) with
      | inr u, inr e, inr p =>
          Return {| documentUrl := u; email := e; permission := p |}
      | r1, r2, r3 =>
          Throw (ZodError (Zod.issues r1 ++ Zod.issues r2 ++ Zod.issues r3))
      end
  | _ => not_an_object
  end.
End ShareDocumentSchema.

Inductive Format : Type := bold | italic | underline | strikethrough.

Definition format_name (f : Format) : string :=
  match f with
  | bold => "bold"
  | italic => "italic"
  | underline => "underline"
  | strikethrough => "strikethrough"
  end.

Module FormatTextSchema.
Record t : Type := { documentUrl : string; format : Format; selection : option string }.
Definition parse (args : option json) : Completion t :=
  match args with
  | Some (JObj o) =>
      match Zod.field o "documentUrl" Zod.string_,
            Zod.field o "format"
              (Zod.enum [("bold", bold); ("italic", italic);
                         ("underline", underline);
                         ("strikethrough", strikethrough)]),
            Zod.field o "selection" (Zod.optional Zod.string_) with
      | inr u, inr f, inr sel =>
          Return {| documentUrl := u; format := f; selection := sel |}
      | r1, r2, r3 =>
          Throw (ZodError (Zod.issues r1 ++ Zod.issues r2 ++ Zod.issues r3))
      end
  | _ => not_an_object
  end.
End FormatTextSchema.

Inductive ListType : Type := bullet | numbered.

Definition listType_name (l : ListType) : string :=
  match l with bullet => "bullet" | numbered => "numbered" end.

Module CreateListSchema.
Record t : Type := { documentUrl : string; listType : ListType; items : list string }.
Definition parse (args : option json) : Completion t :=
  match args with
  | Some (JObj o) =>
      match Zod.field o "documentUrl" Zod.string_,
            Zod.field o "listType"
              (Zod.enum [("bullet", bullet); ("numbered", numbered)]),
            Zod.field o "items" Zod.array_of_strings with
      | inr u, inr l, inr i =>
          Return {| documentUrl := u; listType := l; items := i |}
      | r1, r2, r3 =>
          Throw (ZodError (Zod.issues r1 ++ Zod.issues r2 ++ Zod.issues r3))
      end
  | _ => not_an_object
  end.
End CreateListSchema.

Module InsertLinkSchema.
Record t : Type := { documentUrl : string; text : string; url : string }.
Definition parse (is_url : string -> bool) (args : option json) : Completion t :=
  match args with
  | Some (JObj o) =>
      match Zod.field o "documentUrl" Zod.string_,
            Zod.field o "text" Zod.string_,
            Zod.field o "url" (Zod.refined is_url) with
      | inr u, inr t, inr l =>
          Return {| documentUrl := u; text := t; url := l |}
      | r1, r2, r3 =>
          Throw (ZodError (Zod.issues r1 ++ Zod.issues r2 ++ Zod.issues r3))
      end
  | _ => not_an_object
  end.
End InsertLinkSchema.

Module ChangeFontSchema.
Record t : Type := {
  documentUrl : string;
  fontFamily : option string;
  fontSize : option Q
}.
Definition parse (args : option json) : Completion t :=
  match args with
  | Some (JObj o) =>
      match Zod.field o "documentUrl" Zod.string_,
            Zod.field o "fontFamily" (Zod.optional Zod.string_),
            Zod.field o "fontSize" (Zod.optional Zod.number) with
      | inr u, inr f, inr z =>
          Return {| documentUrl := u; fontFamily := f; fontSize := z |}
      | r1, r2, r3 =>
          Throw (ZodError (Zod.issues r1 ++ Zod.issues r2 ++ Zod.issues r3))
      end
  | _ => not_an_object
  end.
End ChangeFontSchema.

Inductive DownloadFormat : Type := docx | pdf | txt | markdown.

Definition downloadFormat_name (f : DownloadFormat) : string :=
  match f with
  | docx => "docx"
  | pdf => "pdf"
  | txt => "txt"
  | markdown => "markdown"
  end.

Module DownloadDocumentSchema.
Record t : Type := { documentUrl : string; format : DownloadFormat }.
Definition parse (args : option json) : Completion t :=
  match args with
  | Some (JObj o) =>
      match Zod.field o "documentUrl" Zod.string_,
            Zod.field o "format"
              (Zod.default
                 (Zod.enum [("docx", docx); ("pdf", pdf); ("txt", txt);
                            ("markdown", markdown)]) docx) with
      | inr u, inr f => Return {| documentUrl := u; format := f |}
      | r1, r2 => Throw (ZodError (Zod.issues r1 ++ Zod.issues r2))
      end
  | _ => not_an_object
  end.
End DownloadDocumentSchema.

Module CopyDocumentSchema.
Record t : Type := { documentUrl : string; newTitle : string }.
Definition parse (args : option json) : Completion t :=
  match args with
  | Some (JObj o) =>
      match Zod.field o "documentUrl" Zod.string_,
            Zod.field o "newTitle" Zod.string_ with
      | inr u, inr n => Return {| documentUrl := u; newTitle := n |}
      | r1, r2 => Throw (ZodError (Zod.issues r1 ++ Zod.issues r2))
      end
  | _ => not_an_object
  end.
End CopyDocumentSchema.

Module GetVersionHistorySchema.
Record t : Type := { documentUrl : string }.
Definition parse (args : option json) : Completion t :=
  match args with
  | Some (JObj o) =>
      match Zod.field o "documentUrl" Zod.string_ with
      | inr u => Return {| documentUrl := u |}
      | r1 => Throw (ZodError (Zod.issues r1))
      end
  | _ => not_an_object
  end.
End GetVersionHistorySchema.

Module Alignment.
Inductive t : Type := left | center | right | justify.
Definition name (a : t) : string :=
  match a with
  | left => "left"
  | center => "center"
  | right => "right"
  | justify => "justify"
  end.
End Alignment.

Module SetAlignmentSchema.
Record t : Type := { documentUrl : string; alignment : Alignment.t }.
Definition parse (args : option json) : Completion t :=
  match args with
  | Some (JObj o) =>
      match Zod.field o "documentUrl" Zod.string_,
            Zod.field o "alignment"
              (Zod.enum [("left", Alignment.left);
                         ("center", Alignment.center);
                         ("right", Alignment.right);
                         ("justify", Alignment.justify)]) with
      | inr u, inr a => Return {| documentUrl := u; alignment := a |}
      | r1, r2 => Throw (ZodError (Zod.issues r1 ++ Zod.issues r2))
      end
  | _ => not_an_object
  end.
End SetAlignmentSchema.

(** ** Selectors and addresses *)

Definition testid (name : string) : string :=
  "[data-testid=" ++ Js.quoted name ++ "]".
Definition has_text (label : string) : string :=
  "button:has-text(" ++ Js.quoted label ++ ")".
Definition title_contains (label : string) : string :=
  "button[title*=" ++ Js.quoted label ++ "]".
Definition aria_label_contains (label : string) : string :=
  "button[aria-label*=" ++ Js.quoted label ++ "]".

Definition editor_frame_edit : string := "iframe" ++ testid "editor-frame-edit".
Definition main_editor : string := testid "main-editor".
Definition input_element : string := testid "input-input-element".
Definition document_name_dropdown : string := testid "document-name-dropdown".
Definition search_input : string := "input[placeholder*=" ++ Js.quoted "Search" ++ "]".
Definition email_input : string := "input[type=" ++ Js.quoted "email" ++ "]".

Definition recents_url : string := "https://docs.proton.me/u/1/recents".
Definition new_doc_url : string := "https://docs.proton.me/u/1/doc".
Definition trash_url : string := "https://docs.proton.me/u/1/trash".

(** ** Tool responses *)

Record ContentItem : Type := {
  type_ : string;
  text : json  (* the value given to [JSON.stringify] *)
}.

Record ToolResponse : Type := { content : list ContentItem }.

Definition text_response (payload : json) : ToolResponse :=
  {| content := [ {| type_ := "text"; text := payload |} ] |}.

(** ** The functions evaluated in the page *)

Module InPage.

Definition document_entry (row : Row) : list json :=
  match titleCell row with
  | Some title =>
      [JObj [("title", JStr (Js.or_else (Js.trim title) "Untitled"));
             ("viewed", JStr (Js.trimmed_or (viewedCell row) EmptyString));
             ("createdBy", JStr (Js.trimmed_or (createdByCell row) EmptyString));
             ("location", JStr (Js.trimmed_or (locationCell row) EmptyString));
             ("url", JStr (Js.opt_or (data_url row) EmptyString))]]
  | None => []
  end.

(** [i < bound] on numbers. *)
Definition below (i : nat) (bound : Q) : bool :=
  negb (Qle_bool bound (inject_Z (Z.of_nat i))).

(** The loop [for (let i = 0; i < bound; i++)] over [rows], from row [i] on. *)
Fixpoint rows_from (i : nat) (rows : list Row) (bound : Q) : list json :=
  match rows with
  | [] => []
  | row :: rest =>
      if below i bound then document_entry row ++ rows_from (S i) rest bound
      else []
  end.

Definition list_rows (limit : Q) (d : Dom) : list json :=
  let rows := tbody_rows d in
  rows_from 0 rows (Qmin (inject_Z (Z.of_nat (List.length rows))) limit).

Definition search_entry (row : Row) : list json :=
  match titleCell row with
  | Some title =>
      [JObj [("title", JStr (Js.trimmed_or (Some title) EmptyString));
             ("url", JStr (Js.opt_or (data_url row) EmptyString))]]
  | None => []
  end.

Definition search_rows (d : Dom) : list json :=
  flat_map search_entry (tbody_rows d).

Definition empty_content : json :=
  JObj [("text", JStr EmptyString); ("html", JStr EmptyString)].

Definition read_editor (d : Dom) : json :=
  match editor_iframe d with
  | Some iframe =>
      match contentDocument iframe with
      | Some (Some editor) =>
          JObj [("text", JStr (Js.or_else (textContent editor) EmptyString));
                ("html", JStr (Js.or_else (innerHTML editor) EmptyString))]
      | _ => empty_content
      end
  | None => empty_content
  end.

Definition version_entry (el : VersionItem) : list json :=
  match version_date el with
  | Some date =>
      if Js.truthy date
      then [JObj (("date", JStr date)
                  :: optional_member "author"
                       (option_map JStr (version_author el)))]
      else []
  | None => []
  end.

Definition version_list (d : Dom) : list json :=
  flat_map version_entry (version_items d).

End InPage.

(** ** The formatting and alignment tables *)

Definition formatMap (f : Format) : string * string :=
  match f with
  | bold => (title_contains "Bold", "Control+b")
  | italic => (title_contains "Italic", "Control+i")
  | underline => (title_contains "Underline", "Control+u")
  | strikethrough => (title_contains "Strike", "Control+Shift+x")
  end.

Definition alignmentMap (a : Alignment.t) : string :=
  match a with
  | Alignment.left => title_contains "Align left"
  | Alignment.center => title_contains "Align center"
  | Alignment.right => title_contains "Align right"
  | Alignment.justify => title_contains "Justify"
  end.

Definition plus : ascii := ascii_of_nat 43.

(** The frame the editing handlers look for among [page.frames()]. *)
Definition is_editor_frame (f : Frame) : bool :=
  Js.includes "editor" (frame_name f) || Js.includes "editor" (frame_url f).

Definition truthy_number (n : Q) : bool := negb (Qeq_bool n 0).

(** ** The server *)

Section ProtonDocsServer.

Variable env : Env.

(** *** Driver calls *)

Definition record (ev : Event) (s : Server) : Server :=
  {| browser := browser s; page := page s; calls := calls s ++ [ev] |}.

(** One awaited driver call: it is recorded, and rejects when the outside
    world says so. *)
Definition driver (ev : Event) : Async unit :=
  fun s =>
    let s' := record ev s in
    match rejects env (calls s') with
    | Some why => (Throw (DriverError why), s')
    | None => (Return tt, s')
    end.

Definition null_page {A} : Async A :=
  throw (TypeError "Cannot read properties of null").

(** A call through [this.page!]. *)
Definition on_page (ev : Event) : Async unit :=
  fun s => match page s with
           | Some _ => driver ev s
           | None => null_page s
           end.

(** What the outside world shows right after the last call. *)
Definition observe {A} (oracle : Env -> list Event -> A) : Async A :=
  fun s => (Return (oracle env (calls s)), s).

Definition goto (url : string) : Async unit := on_page (Goto url).

Definition waitForSelector (selector : string) (timeout : option Z)
  : Async ElementHandle :=
  on_page (WaitForSelector selector timeout) ;; ret (PageElement selector).

Definition waitForTimeout (ms : Z) : Async unit := on_page (WaitForTimeout ms).

(** [this.page!.$(selector)] *)
Definition query (selector : string) : Async (option ElementHandle) :=
  on_page (Query selector) ;;
  let* found := observe present in
  ret (if found then Some (PageElement selector) else None).

Definition click (selector : string) : Async unit := on_page (Click selector).

Definition type (selector text : string) : Async unit :=
  on_page (TypeInto selector text).

Definition evaluate {A} (script : Script) (fn : Dom -> A) : Async A :=
  on_page (Evaluate script) ;;
  let* d := observe dom in
  ret (fn d).

Definition keyboard_down (key : string) : Async unit := on_page (KeyDown key).
Definition keyboard_up (key : string) : Async unit := on_page (KeyUp key).
Definition keyboard_press (key : string) : Async unit := on_page (KeyPress key).
Definition keyboard_type (text : string) : Async unit := on_page (KeyType text).

(** [this.page!.frames().find(...)] *)
Definition find_editor_frame : Async (option Frame) :=
  fun s => match page s with
           | Some _ => (Return (find is_editor_frame (frames env (calls s))), s)
           | None => null_page s
           end.

(** [this.page!.url()] *)
Definition url : Async string :=
  fun s => match page s with
           | Some _ => (Return (page_url env (calls s)), s)
           | None => null_page s
           end.

Definition frame_click (f : Frame) (selector : string) : Async unit :=
  driver (FrameClick (frame_id f) selector).

Definition frame_type (f : Frame) (selector text : string) : Async unit :=
  driver (FrameType (frame_id f) selector text).

(** [frame.$(selector)] *)
Definition frame_query (f : Frame) (selector : string)
  : Async (option ElementHandle) :=
  driver (FrameQuery (frame_id f) selector) ;;
  let* found := observe present in
  ret (if found then Some (FrameElement (frame_id f) selector) else None).

Definition handle_click (h : ElementHandle) (clickCount : nat) : Async unit :=
  driver (HandleClick h clickCount).

Definition handle_type (h : ElementHandle) (text : string) : Async unit :=
  driver (HandleType h text).

(** [h!], then a method call on it. *)
Definition non_null (h : option ElementHandle) : Async ElementHandle :=
  match h with
  | Some e => ret e
  | None => throw (TypeError "Cannot read properties of null")
  end.

(** *** The session *)

Definition set_browser : Async unit :=
  fun s => (Return tt,
            {| browser := Some (browser_handle (List.length (calls s)));
               page := page s; calls := calls s |}).

Definition set_page : Async unit :=
  fun s => (Return tt,
            {| browser := browser s;
               page := Some (page_handle (List.length (calls s)));
               calls := calls s |}).

Definition ensureBrowser : Async unit :=
  (fun s => match browser s with
            | None => (driver Launch ;; set_browser) s
            | Some _ => ret tt s
            end) ;;
  (fun s => match page s with
            | None =>
                (driver NewPage ;; set_page ;;
                 driver (SetViewport 1280 800)) s
            | Some _ => ret tt s
            end).

Definition stop : Async unit :=
  fun s => match browser s with
           | Some _ => driver Close s
           | None => ret tt s
           end.

(** The [catch] clause every handler ends with. *)
Definition failed_to {A} (what : string) (error : jsError) : Async A :=
  throw (McpError InternalError (FailedTo what error)).

(** *** The tool handlers *)

Definition listDocuments (args : option json) : Async ToolResponse :=
  let* params := lift (ListDocumentsSchema.parse args) in
  (ensureBrowser ;;
   try_catch
     (goto recents_url ;;
      waitForSelector "table" (Some 10000%Z) ;;
      match ListDocumentsSchema.searchQuery params with
      | Some q =>
          when (Js.truthy q)
            (type search_input q ;;
             keyboard_press "Enter" ;;
             waitForTimeout 1000)
      | None => ret tt
      end ;;
      let* documents :=
        evaluate (ListRows (ListDocumentsSchema.limit params))
          (InPage.list_rows (ListDocumentsSchema.limit params)) in
      ret (text_response (JObj [("documents", JArr documents)])))
     (failed_to "list documents")).

Definition readDocument (args : option json) : Async ToolResponse :=
  let* params := lift (ReadDocumentSchema.parse args) in
  (ensureBrowser ;;
   try_catch
     (goto (ReadDocumentSchema.documentUrl params) ;;
      waitForSelector editor_frame_edit (Some 15000%Z) ;;
      let* content := evaluate ReadEditor InPage.read_editor in
      ret (text_response content))
     (failed_to "read document")).

Definition createDocument (args : option json) : Async ToolResponse :=
  let* params := lift (CreateDocumentSchema.parse args) in
  (ensureBrowser ;;
   try_catch
     (goto new_doc_url ;;
      waitForTimeout 3000 ;;
      let* renameInput := query input_element in
      (match renameInput with
       | Some input =>
           handle_click input 3 ;;
           handle_type input (CreateDocumentSchema.title params) ;;
           keyboard_press "Enter"
       | None =>
           click document_name_dropdown ;;
           waitForSelector (testid "dropdown-rename") None ;;
           click (testid "dropdown-rename") ;;
           waitForSelector input_element None ;;
           let* titleInput := query input_element in
           let* input := non_null titleInput in
           (handle_click input 3 ;;
            handle_type input (CreateDocumentSchema.title params) ;;
            keyboard_press "Enter")
       end ;;
       match CreateDocumentSchema.content params with
       | Some text =>
           when (Js.truthy text)
             (waitForSelector editor_frame_edit None ;;
              let* frame := find_editor_frame in
              match frame with
              | Some f =>
                  frame_click f main_editor ;;
                  frame_type f main_editor text
              | None => ret tt
              end)
       | None => ret tt
       end ;;
       waitForTimeout 2000 ;;
       let* documentUrl := url in
       ret (text_response
              (JObj [("success", JBool true);
                     ("documentUrl", JStr documentUrl);
                     ("title", JStr (CreateDocumentSchema.title params))]))))
     (failed_to "create document")).

Definition searchDocuments (args : option json) : Async ToolResponse :=
  let* params := lift (SearchDocumentsSchema.parse args) in
  (ensureBrowser ;;
   try_catch
     (goto recents_url ;;
      let* searchInput := waitForSelector search_input None in
      (handle_type searchInput (SearchDocumentsSchema.query params) ;;
       keyboard_press "Enter" ;;
       waitForTimeout 2000 ;;
       let* results := evaluate SearchRows InPage.search_rows in
       ret (text_response
              (JObj [("query", JStr (SearchDocumentsSchema.query params));
                     ("results", JArr results);
                     ("count", JNat (List.length results))]))))
     (failed_to "search documents")).

Definition editDocument (args : option json) : Async ToolResponse :=
  let* params := lift (EditDocumentSchema.parse args) in
  (ensureBrowser ;;
   try_catch
     (goto (EditDocumentSchema.documentUrl params) ;;
      waitForSelector editor_frame_edit None ;;
      let* frame := find_editor_frame in
      (match frame with
       | Some f =>
           frame_click f main_editor ;;
           (if EditDocumentSchema.append params
            then keyboard_down "Control" ;;
                 keyboard_press "End" ;;
                 keyboard_up "Control" ;;
                 keyboard_press "Enter"
            else keyboard_down "Control" ;;
                 keyboard_press "a" ;;
                 keyboard_up "Control") ;;
           frame_type f main_editor (EditDocumentSchema.content params)
       | None => ret tt
       end ;;
       waitForTimeout 2000 ;;
       ret (text_response
              (JObj [("success", JBool true);
                     ("documentUrl", JStr (EditDocumentSchema.documentUrl params));
                     ("action",
                      JStr (if EditDocumentSchema.append params
                            then "appended" else "replaced"))]))))
     (failed_to "edit document")).

Definition deleteDocument (args : option json) : Async ToolResponse :=
  let* params := lift (DeleteDocumentSchema.parse args) in
  (ensureBrowser ;;
   try_catch
     (if DeleteDocumentSchema.permanent params
      then
        goto trash_url ;;
        throw (McpError InvalidRequest
                 (Text "Permanent deletion from trash not yet implemented"))
      else
        goto (DeleteDocumentSchema.documentUrl params) ;;
        click document_name_dropdown ;;
        waitForSelector (testid "dropdown-move-to-trash") None ;;
        click (testid "dropdown-move-to-trash") ;;
        let* confirmButton := query (has_text "Move to trash") in
        (match confirmButton with
         | Some button => handle_click button 1
         | None => ret tt
         end ;;
         waitForTimeout 2000 ;;
         ret (text_response
                (JObj [("success", JBool true);
                       ("action", JStr "moved_to_trash");
                       ("documentUrl",
                        JStr (DeleteDocumentSchema.documentUrl params))]))))
     (failed_to "delete document")).

Definition shareDocument (args : option json) : Async ToolResponse :=
  let* params := lift (ShareDocumentSchema.parse (is_email env) args) in
  (ensureBrowser ;;
   try_catch
     (goto (ShareDocumentSchema.documentUrl params) ;;
      click (has_text "Share") ;;
      waitForTimeout 1000 ;;
      let* emailInput := waitForSelector email_input None in
      (handle_type emailInput (ShareDocumentSchema.email params) ;;
       match ShareDocumentSchema.permission params with
       | edit =>
           let* permissionDropdown := query (testid "permission-dropdown") in
           match permissionDropdown with
           | Some dropdown =>
               handle_click dropdown 1 ;;
               click (has_text "Can edit")
           | None => ret tt
           end
       | view => ret tt
       end ;;
       click (has_text "Send") ;;
       waitForTimeout 2000 ;;
       ret (text_response
              (JObj [("success", JBool true);
                     ("documentUrl", JStr (ShareDocumentSchema.documentUrl params));
                     ("sharedWith", JStr (ShareDocumentSchema.email params));
                     ("permission",
                      JStr (permission_name
                              (ShareDocumentSchema.permission params)))]))))
     (failed_to "share document")).

(** The keyboard shortcut of [formatText], from the string of its table
    entry: every key that differs from the last one is pressed down, the last
    one is pressed, and every key but the last is released. *)
Definition press_shortcut (shortcut : string) : Async unit :=
  let keys := Js.split plus shortcut in
  let final := last keys EmptyString in
  for_of keys
    (fun key => when (negb (String.eqb key final)) (keyboard_down key)) ;;
  keyboard_press final ;;
  for_of (removelast keys) keyboard_up.

Definition formatText (args : option json) : Async ToolResponse :=
  let* params := lift (FormatTextSchema.parse args) in
  (ensureBrowser ;;
   try_catch
     (goto (FormatTextSchema.documentUrl params) ;;
      waitForSelector editor_frame_edit None ;;
      let* frame := find_editor_frame in
      (match frame with
       | Some f =>
           match FormatTextSchema.selection params with
           | Some sel =>
               when (Js.truthy sel)
                 (frame_click f main_editor ;;
                  keyboard_down "Control" ;;
                  keyboard_press "f" ;;
                  keyboard_up "Control" ;;
                  keyboard_type sel ;;
                  keyboard_press "Escape")
           | None => ret tt
           end ;;
           let format := formatMap (FormatTextSchema.format params) in
           let* button := frame_query f (fst format) in
           match button with
           | Some b => handle_click b 1
           | None => press_shortcut (snd format)
           end
       | None => ret tt
       end ;;
       ret (text_response
              (JObj [("success", JBool true);
                     ("format",
                      JStr (format_name (FormatTextSchema.format params)));
                     ("applied", JBool true)]))))
     (failed_to "format text")).

Definition createList (args : option json) : Async ToolResponse :=
  let* params := lift (CreateListSchema.parse args) in
  (ensureBrowser ;;
   try_catch
     (goto (CreateListSchema.documentUrl params) ;;
      waitForSelector editor_frame_edit None ;;
      let* frame := find_editor_frame in
      (match frame with
       | Some f =>
           frame_click f main_editor ;;
           let listSelector :=
             match CreateListSchema.listType params with
             | bullet => title_contains "Bullet list"
             | numbered => title_contains "Numbered list"
             end in
           let* listButton := frame_query f listSelector in
           (match listButton with
            | Some b => handle_click b 1
            | None => ret tt
            end ;;
            let items := CreateListSchema.items params in
            for_of (seq 0 (List.length items))
              (fun i =>
                 frame_type f main_editor (nth i items EmptyString) ;;
                 when (Nat.ltb i (List.length items - 1))
                   (keyboard_press "Enter")) ;;
            keyboard_press "Enter" ;;
            keyboard_press "Enter")
       | None => ret tt
       end ;;
       ret (text_response
              (JObj [("success", JBool true);
                     ("listType",
                      JStr (listType_name (CreateListSchema.listType params)));
                     ("itemCount",
                      JNat (List.length (CreateListSchema.items params)))]))))
     (failed_to "create list")).

Definition insertLink (args : option json) : Async ToolResponse :=
  let* params := lift (InsertLinkSchema.parse (is_url env) args) in
  (ensureBrowser ;;
   try_catch
     (goto (InsertLinkSchema.documentUrl params) ;;
      waitForSelector editor_frame_edit None ;;
      let* frame := find_editor_frame in
      (match frame with
       | Some f =>
           frame_click f main_editor ;;
           frame_type f main_editor (InsertLinkSchema.text params) ;;
           for_of (seq 0 (Js.length (InsertLinkSchema.text params)))
             (fun _ =>
                keyboard_down "Shift" ;;
                keyboard_press "ArrowLeft" ;;
                keyboard_up "Shift") ;;
           keyboard_down "Control" ;;
           keyboard_press "k" ;;
           keyboard_up "Control" ;;
           waitForTimeout 500 ;;
           keyboard_type (InsertLinkSchema.url params) ;;
           keyboard_press "Enter"
       | None => ret tt
       end ;;
       ret (text_response
              (JObj [("success", JBool true);
                     ("text", JStr (InsertLinkSchema.text params));
                     ("url", JStr (InsertLinkSchema.url params))]))))
     (failed_to "insert link")).

Definition changeFont (args : option json) : Async ToolResponse :=
  let* params := lift (ChangeFontSchema.parse args) in
  (ensureBrowser ;;
   try_catch
     (goto (ChangeFontSchema.documentUrl params) ;;
      waitForSelector editor_frame_edit None ;;
      let* frame := find_editor_frame in
      (match frame with
       | Some f =>
           frame_click f main_editor ;;
           keyboard_down "Control" ;;
           keyboard_press "a" ;;
           keyboard_up "Control" ;;
           match ChangeFontSchema.fontFamily params with
           | Some family =>
               when (Js.truthy family)
                 (let* fontButton := frame_query f (aria_label_contains "Font") in
                  match fontButton with
                  | Some b =>
                      handle_click b 1 ;;
                      waitForTimeout 500 ;;
                      click (has_text family)
                  | None => ret tt
                  end)
           | None => ret tt
           end ;;
           match ChangeFontSchema.fontSize params with
           | Some size =>
               when (truthy_number size)
                 (let* sizeButton :=
                    frame_query f (aria_label_contains "Font size") in
                  match sizeButton with
                  | Some b =>
                      handle_click b 1 ;;
                      waitForTimeout 500 ;;
                      click (has_text (show_number env size ++ "px"))
                  | None => ret tt
                  end)
           | None => ret tt
           end
       | None => ret tt
       end ;;
       ret (text_response
              (JObj ([("success", JBool true)]
                     ++ optional_member "fontFamily"
                          (option_map JStr (ChangeFontSchema.fontFamily params))
                     ++ optional_member "fontSize"
                          (option_map JNum (ChangeFontSchema.fontSize params)))))))
     (failed_to "change font")).

Definition downloadDocument (args : option json) : Async ToolResponse :=
  let* params := lift (DownloadDocumentSchema.parse args) in
  (ensureBrowser ;;
   try_catch
     (goto (DownloadDocumentSchema.documentUrl params) ;;
      click document_name_dropdown ;;
      waitForSelector (testid "dropdown-download") None ;;
      click (testid "dropdown-download") ;;
      match DownloadDocumentSchema.format params with
      | docx => ret tt
      | other =>
          waitForTimeout 500 ;;
          let* formatButton :=
            query (has_text (Js.toUpperCase (downloadFormat_name other))) in
          match formatButton with
          | Some b => handle_click b 1
          | None => ret tt
          end
      end ;;
      waitForTimeout 3000 ;;
      ret (text_response
             (JObj [("success", JBool true);
                    ("format",
                     JStr (downloadFormat_name
                             (DownloadDocumentSchema.format params)));
                    ("message", JStr "Download initiated")])))
     (failed_to "download document")).

Definition copyDocument (args : option json) : Async ToolResponse :=
  let* params := lift (CopyDocumentSchema.parse args) in
  (ensureBrowser ;;
   try_catch
     (goto (CopyDocumentSchema.documentUrl params) ;;
      click document_name_dropdown ;;
      waitForSelector (testid "dropdown-make-copy") None ;;
      click (testid "dropdown-make-copy") ;;
      waitForSelector input_element None ;;
      let* nameInput := query input_element in
      let* input := non_null nameInput in
      (handle_click input 3 ;;
       handle_type input (CopyDocumentSchema.newTitle params) ;;
       click (has_text "Copy") ;;
       waitForTimeout 3000 ;;
       ret (text_response
              (JObj [("success", JBool true);
                     ("originalUrl", JStr (CopyDocumentSchema.documentUrl params));
                     ("newTitle", JStr (CopyDocumentSchema.newTitle params))]))))
     (failed_to "copy document")).

Definition getVersionHistory (args : option json) : Async ToolResponse :=
  let* params := lift (GetVersionHistorySchema.parse args) in
  (ensureBrowser ;;
   try_catch
     (goto (GetVersionHistorySchema.documentUrl params) ;;
      click document_name_dropdown ;;
      waitForSelector (testid "dropdown-version-history") None ;;
      click (testid "dropdown-version-history") ;;
      waitForTimeout 2000 ;;
      let* versions := evaluate VersionItems InPage.version_list in
      ret (text_response
             (JObj [("documentUrl",
                     JStr (GetVersionHistorySchema.documentUrl params));
                    ("versions", JArr versions);
                    ("count", JNat (List.length versions))])))
     (failed_to "get version history")).

Definition setAlignment (args : option json) : Async ToolResponse :=
  let* params := lift (SetAlignmentSchema.parse args) in
  (ensureBrowser ;;
   try_catch
     (goto (SetAlignmentSchema.documentUrl params) ;;
      waitForSelector editor_frame_edit None ;;
      let* frame := find_editor_frame in
      (match frame with
       | Some f =>
           frame_click f main_editor ;;
           keyboard_down "Control" ;;
           keyboard_press "a" ;;
           keyboard_up "Control" ;;
           let* alignButton :=
             frame_query f (alignmentMap (SetAlignmentSchema.alignment params)) in
           match alignButton with
           | Some b => handle_click b 1
           | None => ret tt
           end
       | None => ret tt
       end ;;
       ret (text_response
              (JObj [("success", JBool true);
                     ("alignment",
                      JStr (Alignment.name
                              (SetAlignmentSchema.alignment params)))]))))
     (failed_to "set alignment")).

(** *** The request handler *)

Record CallToolRequest : Type := {
  name : string;
  arguments : option json
}.

Definition callTool (request : CallToolRequest) : Async ToolResponse :=
  let tool := name request in
  let args := arguments request in
  if String.eqb tool "list_documents" then listDocuments args
  else if String.eqb tool "read_document" then readDocument args
  else if String.eqb tool "create_document" then createDocument args
  else if String.eqb tool "search_documents" then searchDocuments args
  else if String.eqb tool "edit_document" then editDocument args
  else if String.eqb tool "delete_document" then deleteDocument args
  else if String.eqb tool "share_document" then shareDocument args
  else if String.eqb tool "format_text" then formatText args
  else if String.eqb tool "create_list" then createList args
  else if String.eqb tool "insert_link" then insertLink args
  else if String.eqb tool "change_font" then changeFont args
  else if String.eqb tool "download_document" then downloadDocument args
  else if String.eqb tool "copy_document" then copyDocument args
  else if String.eqb tool "get_version_history" then getVersionHistory args
  else if String.eqb tool "set_alignment" then setAlignment args
  else throw (McpError MethodNotFound (Text ("Unknown tool: " ++ tool))).

(** Requests served one after the other by the same server; the completions
    come back in the order of the requests. *)
Fixpoint serve (requests : list CallToolRequest) (s : Server)
  : list (Completion ToolResponse) * Server :=
  match requests with
  | [] => ([], s)
  | r :: rest =>
      let (c, s') := callTool r s in
      let (cs, s'') := serve rest s' in
      (c :: cs, s'')
  end.

End ProtonDocsServer.

(** * Vocabulary of the statements *)

(** ** Calls and runs *)

Definition is_navigation (ev : Event) : bool :=
  match ev with Goto _ => true | _ => false end.

Definition is_element_interaction (ev : Event) : bool :=
  match ev with
  | WaitForSelector _ _ | Query _ | Click _ | TypeInto _ _ | Evaluate _
  | KeyDown _ | KeyUp _ | KeyPress _ | KeyType _
  | FrameQuery _ _ | FrameClick _ _ | FrameType _ _ _
  | HandleClick _ _ | HandleType _ _ => true
  | _ => false
  end.

(** No navigation and no element interaction among the calls. *)
Definition no_ui_interaction (evs : list Event) : bool :=
  forallb (fun ev => negb (is_navigation ev || is_element_interaction ev)) evs.

Definition is_launch (ev : Event) : bool :=
  match ev with Launch => true | _ => false end.

(** The number of browser launches among the calls. *)
Definition launches (evs : list Event) : nat :=
  List.length (filter is_launch evs).

(** The server after it issued the calls [evs], all of them accepted. *)
Definition after (s : Server) (evs : list Event) : Server :=
  {| browser := browser s; page := page s; calls := calls s ++ evs |}.

(** The driver accepts each call of [run], issued in turn after [before]. *)
Fixpoint accepted (env : Env) (before run : list Event) : Prop :=
  match run with
  | [] => True
  | ev :: rest =>
      rejects env (before ++ [ev]) = None /\ accepted env (before ++ [ev]) rest
  end.

(** Run on [s], the method returns [a] after issuing exactly the calls
    [evs], all accepted. *)
Definition yields {A} (m : Async A) (s : Server) (evs : list Event) (a : A)
  : Prop :=
  m s = (Return a, after s evs).

(** The two calls that open every editing handler. *)
Definition opening (address : string) : list Event :=
  [Goto address; WaitForSelector editor_frame_edit None].

(** ** Properties of asynchronous methods *)

(** A method run on a server that holds a browser keeps that browser and
    launches no other. *)
Definition keeps_session {A} (m : Async A) : Prop :=
  forall s b,
    browser s = Some b ->
    browser (snd (m s)) = Some b /\
    launches (calls (snd (m s))) = launches (calls s).

(** Whenever the method returns, it returns one text item carrying one
    payload. *)
Definition answers (m : Async ToolResponse) : Prop :=
  forall s response s',
    m s = (Return response, s') ->
    exists payload, response = text_response payload.

(** Whenever the method returns, the value returned and the server it
    leaves satisfy [Q]. *)
Definition ensures {A} (m : Async A) (Q : A -> Server -> Prop) : Prop :=
  forall s a s', m s = (Return a, s') -> Q a s'.

(** The second conditional of [ensureBrowser], on its own. *)
Definition page_part (env : Env) : Async unit :=
  fun s => match page s with
           | None =>
               (driver env NewPage ;; set_page ;;
                driver env (SetViewport 1280 800)) s
           | Some _ => ret tt s
           end.

(** The server right after an accepted launch. *)
Definition launched (s : Server) : Server :=
  {| browser := Some (browser_handle (List.length (calls s ++ [Launch])));
     page := page s;
     calls := calls s ++ [Launch] |}.

(** ** Requests and failures *)

Definition parses {A} (c : Completion A) : bool :=
  match c with Return _ => true | Throw _ => false end.

(** The request names a tool of the catalog and its arguments pass the
    schema of that tool. *)
Definition accepts (env : Env) (request : CallToolRequest) : bool :=
  let tool := name request in
  let args := arguments request in
  if String.eqb tool "list_documents" then parses (ListDocumentsSchema.parse args)
  else if String.eqb tool "read_document" then parses (ReadDocumentSchema.parse args)
  else if String.eqb tool "create_document" then parses (CreateDocumentSchema.parse args)
  else if String.eqb tool "search_documents" then parses (SearchDocumentsSchema.parse args)
  else if String.eqb tool "edit_document" then parses (EditDocumentSchema.parse args)
  else if String.eqb tool "delete_document" then parses (DeleteDocumentSchema.parse args)
  else if String.eqb tool "share_document"
       then parses (ShareDocumentSchema.parse (is_email env) args)
  else if String.eqb tool "format_text" then parses (FormatTextSchema.parse args)
  else if String.eqb tool "create_list" then parses (CreateListSchema.parse args)
  else if String.eqb tool "insert_link"
       then parses (InsertLinkSchema.parse (is_url env) args)
  else if String.eqb tool "change_font" then parses (ChangeFontSchema.parse args)
  else if String.eqb tool "download_document"
       then parses (DownloadDocumentSchema.parse args)
  else if String.eqb tool "copy_document" then parses (CopyDocumentSchema.parse args)
  else if String.eqb tool "get_version_history"
       then parses (GetVersionHistorySchema.parse args)
  else if String.eqb tool "set_alignment" then parses (SetAlignmentSchema.parse args)
  else false.

(** The operation name a handler puts in the failures it wraps. *)
Definition operation (tool : string) : option string :=
  if String.eqb tool "list_documents" then Some "list documents"
  else if String.eqb tool "read_document" then Some "read document"
  else if String.eqb tool "create_document" then Some "create document"
  else if String.eqb tool "search_documents" then Some "search documents"
  else if String.eqb tool "edit_document" then Some "edit document"
  else if String.eqb tool "delete_document" then Some "delete document"
  else if String.eqb tool "share_document" then Some "share document"
  else if String.eqb tool "format_text" then Some "format text"
  else if String.eqb tool "create_list" then Some "create list"
  else if String.eqb tool "insert_link" then Some "insert link"
  else if String.eqb tool "change_font" then Some "change font"
  else if String.eqb tool "download_document" then Some "download document"
  else if String.eqb tool "copy_document" then Some "copy document"
  else if String.eqb tool "get_version_history" then Some "get version history"
  else if String.eqb tool "set_alignment" then Some "set alignment"
  else None.

(** A failure that carries the name of the operation it stopped. *)
Definition wrapped_with (what : string) (e : jsError) : Prop :=
  exists cause, e = McpError InternalError (FailedTo what cause).

(** ** The pages *)

Definition has_title (row : Row) : Prop := titleCell row <> None.

(** The editor cannot be read: the iframe, its content document or the
    main editor element is absent. *)
Definition editor_missing (d : Dom) : Prop :=
  forall iframe editor,
    editor_iframe d = Some iframe ->
    contentDocument iframe <> Some (Some editor).

(** ** The keyboard shortcuts of [formatText], as sequences of calls *)

Definition modifiers (f : Format) : list string :=
  match f with
  | strikethrough => ["Control"; "Shift"]
  | _ => ["Control"]
  end.

Definition final_key (f : Format) : string :=
  match f with
  | bold => "b"
  | italic => "i"
  | underline => "u"
  | strikethrough => "x"
  end.

(** The modifiers go down in order, the final key is pressed, and the
    modifiers go up in the order they went down. *)
Definition shortcut_calls (f : Format) : list Event :=
  map KeyDown (modifiers f) ++ [KeyPress (final_key f)]
  ++ map KeyUp (modifiers f).

(** The calls that select text before formatting, when a selection is given. *)
Definition selection_calls (f : Frame) (selection : option string)
  : list Event :=
  match selection with
  | Some sel =>
      if Js.truthy sel
      then [FrameClick (frame_id f) main_editor; KeyDown "Control";
            KeyPress "f"; KeyUp "Control"; KeyType sel; KeyPress "Escape"]
      else []
  | None => []
  end.

Definition key_downs (evs : list Event) : list string :=
  flat_map (fun ev => match ev with KeyDown k => [k] | _ => [] end) evs.

Definition key_ups (evs : list Event) : list string :=
  flat_map (fun ev => match ev with KeyUp k => [k] | _ => [] end) evs.

(** The keys were released in the reverse of the order they went down. *)
Definition released_in_reverse (evs : list Event) : bool :=
  if list_eq_dec string_dec (key_ups evs) (rev (key_downs evs))
  then true else false.

(** ** The list of [createList], as a sequence of calls *)

(** The calls that type the items of a list, a press of Enter between two
    items. *)
Fixpoint item_calls (f : Frame) (items : list string) : list Event :=
  match items with
  | [] => []
  | item :: rest =>
      FrameType (frame_id f) main_editor item
      :: match rest with
         | [] => []
         | _ :: _ => KeyPress "Enter" :: item_calls f rest
         end
  end.

Definition list_button (l : ListType) : string :=
  match l with
  | bullet => title_contains "Bullet list"
  | numbered => title_contains "Numbered list"
  end.

(** The body of the loop of [createList] over the indices of [items]. *)
Definition type_item (env : Env) (f : Frame) (items : list string) (i : nat)
  : Async unit :=
  frame_type env f main_editor (nth i items EmptyString) ;;
  when (Nat.ltb i (List.length items - 1)) (keyboard_press env "Enter").

(** * Scripted worlds and requests *)

Definition last_call (h : list Event) : Event := last h Close.

(** A world whose driver accepts every call, where the elements named in
    [missing] are absent and every other queried element is present. *)
Definition scripted (missing : list string) (fs : list Frame) (d : Dom)
    (address : string) : Env :=
  {| rejects := fun _ => None;
     present := fun h =>
       match last_call h with
       | Query sel | FrameQuery _ sel =>
           negb (existsb (String.eqb sel) missing)
       | _ => false
       end;
     frames := fun _ => fs;
     page_url := fun _ => address;
     dom := fun _ => d;
     is_email := Js.includes "@";
     is_url := Js.includes "://";
     show_number := fun _ => "12" |}.

Definition empty_dom : Dom :=
  {| tbody_rows := []; editor_iframe := None; version_items := [] |}.

(** A world where no browser can be launched. *)
Definition no_browser : Env :=
  {| rejects := fun h =>
       match last_call h with
       | Launch => Some "Failed to launch the browser process"
       | _ => None
       end;
     present := fun _ => false;
     frames := fun _ => [];
     page_url := fun _ => "about:blank";
     dom := fun _ => empty_dom;
     is_email := Js.includes "@";
     is_url := Js.includes "://";
     show_number := fun _ => "12" |}.

Definition editor_frame : Frame :=
  {| frame_id := 1; frame_name := "editor-frame"; frame_url := "about:blank" |}.

Definition a_document : string := "https://docs.proton.me/u/1/doc/abc".

Definition titled (label address : string) : Row :=
  {| titleCell := Some label;
     viewedCell := Some "yesterday";
     createdByCell := Some "me";
     locationCell := None;
     data_url := Some address |}.

Definition three_rows : list Row :=
  [titled "Alpha" "/doc/1"; titled "Beta" "/doc/2"; titled "Gamma" "/doc/3"].

Definition eight_rows : list Row :=
  three_rows ++
  [titled "Delta" "/doc/4"; titled "Epsilon" "/doc/5"; titled "Zeta" "/doc/6";
   titled "Eta" "/doc/7"; titled "Theta" "/doc/8"].

Definition listing (rows : list Row) : Dom :=
  {| tbody_rows := rows; editor_iframe := None; version_items := [] |}.

(** A page whose editor iframe is there but has not mounted the editor. *)
Definition unmounted : Dom :=
  {| tbody_rows := [];
     editor_iframe := Some {| contentDocument := Some None |};
     version_items := [] |}.

(** A page without any frame. *)
Definition frameless : Env := scripted [] [] empty_dom a_document.

(** A page with the editor frame, where the elements named are absent. *)
Definition with_editor (missing : list string) : Env :=
  scripted missing [editor_frame] empty_dom a_document.

(** The listing page with the given rows. *)
Definition listing_world (rows : list Row) : Env :=
  scripted [] [] (listing rows) recents_url.

(** A document page whose editor has not mounted. *)
Definition unmounted_world : Env := scripted [] [] unmounted a_document.

(** The server once a first session is acquired in a scripted world. *)
Definition ready : Server :=
  {| browser := Some (browser_handle 1);
     page := Some (page_handle 2);
     calls := [Launch; NewPage; SetViewport 1280 800] |}.

Definition object (members : list (string * json)) : option json :=
  Some (JObj members).

Definition permanent_delete : option json :=
  object [("documentUrl", JStr a_document); ("permanent", JBool true)].

Definition read_request : option json :=
  object [("documentUrl", JStr a_document)].

Definition edit_request : option json :=
  object [("documentUrl", JStr a_document); ("content", JStr "Hello")].

Definition strike_request : option json :=
  object [("documentUrl", JStr a_document); ("format", JStr "strikethrough")].

Definition list_request : option json :=
  object [("documentUrl", JStr a_document); ("listType", JStr "bullet");
          ("items", JArr [JStr "milk"; JStr "eggs"])].

Definition create_request : option json :=
  object [("title", JStr "MCP Test Document")].

Definition search_request : option json :=
  object [("query", JStr "MCP")].

Definition limit_request (limit : Q) : option json :=
  object [("limit", JNum limit)].

Definition list_five : CallToolRequest :=
  {| name := "list_documents"; arguments := limit_request (5 # 1)%Q |}.

Definition read_it : CallToolRequest :=
  {| name := "read_document"; arguments := read_request |}.

(** * Further vocabulary *)

(** ** The session *)

(** The calls that make or end a session. *)
Definition is_session_call (ev : Event) : bool :=
  match ev with
  | Launch | NewPage | SetViewport _ _ | Close => true
  | _ => false
  end.

Definition session_calls (evs : list Event) : list Event :=
  filter is_session_call evs.

(** A method run on a server that holds a browser and a page keeps both and
    issues no session call. *)
Definition settled {A} (m : Async A) : Prop :=
  forall s b p,
    browser s = Some b ->
    page s = Some p ->
    browser (snd (m s)) = Some b /\
    page (snd (m s)) = Some p /\
    session_calls (calls (snd (m s))) = session_calls (calls s).

(** The server [s'] holds the browser and the page of [s] and has issued
    the session calls of [s] and no other. *)
Definition settled_from (s s' : Server) : Prop :=
  browser s' = browser s /\
  page s' = page s /\
  session_calls (calls s') = session_calls (calls s).

(** A world whose driver rejects the calls equal to [refused] and accepts
    the others. *)
Definition refusing (refused : Event -> bool) (fs : list Frame) (d : Dom)
    (address : string) : Env :=
  {| rejects := fun h =>
       if refused (last_call h) then Some "Protocol error" else None;
     present := fun h =>
       match last_call h with
       | Query _ | FrameQuery _ _ => true
       | _ => false
       end;
     frames := fun _ => fs;
     page_url := fun _ => address;
     dom := fun _ => d;
     is_email := Js.includes "@";
     is_url := Js.includes "://";
     show_number := fun _ => "12" |}.

Definition is_viewport (ev : Event) : bool :=
  match ev with SetViewport _ _ => true | _ => false end.

(** A server that holds a browser but no page yet. *)
Definition pageless : Server :=
  {| browser := Some (browser_handle 1); page := None; calls := [Launch] |}.

(** ** The tool catalog *)

(** One entry of the catalog the server declares: the name of the tool and
    the properties its input schema lists as required. *)
Record Tool : Type := {
  tool_name : string;
  required : list string
}.

Definition tools : list Tool :=
  [ {| tool_name := "list_documents"; required := [] |};
    {| tool_name := "read_document"; required := ["documentUrl"] |};
    {| tool_name := "create_document"; required := ["title"] |};
    {| tool_name := "search_documents"; required := ["query"] |};
    {| tool_name := "edit_document"; required := ["documentUrl"; "content"] |};
    {| tool_name := "delete_document"; required := ["documentUrl"] |};
    {| tool_name := "share_document"; required := ["documentUrl"; "email"] |};
    {| tool_name := "format_text"; required := ["documentUrl"; "format"] |};
    {| tool_name := "create_list";
       required := ["documentUrl"; "listType"; "items"] |};
    {| tool_name := "insert_link"; required := ["documentUrl"; "text"; "url"] |};
    {| tool_name := "change_font"; required := ["documentUrl"] |};
    {| tool_name := "download_document"; required := ["documentUrl"] |};
    {| tool_name := "copy_document"; required := ["documentUrl"; "newTitle"] |};
    {| tool_name := "get_version_history"; required := ["documentUrl"] |};
    {| tool_name := "set_alignment"; required := ["documentUrl"; "alignment"] |} ].

Definition call (tool : string) (members : list (string * json))
  : CallToolRequest :=
  {| name := tool; arguments := Some (JObj members) |}.

(** ** Runs of the handlers *)

(** The keys [editDocument] presses before typing: to the end of the
    document and a new line when appending, select all when replacing. *)
Definition caret_calls (append : bool) : list Event :=
  if append
  then [KeyDown "Control"; KeyPress "End"; KeyUp "Control"; KeyPress "Enter"]
  else [KeyDown "Control"; KeyPress "a"; KeyUp "Control"].

Definition select_all : list Event :=
  [KeyDown "Control"; KeyPress "a"; KeyUp "Control"].

(** The calls that open the document menu and pick one of its entries. *)
Definition menu_calls (address entry : string) : list Event :=
  [Goto address; Click document_name_dropdown;
   WaitForSelector (testid entry) None; Click (testid entry)].

(** A click on an optional element: issued when the element was found. *)
Definition optional_click (selector : string) (found : bool) : list Event :=
  if found then [HandleClick (PageElement selector) 1] else [].

(** The calls of [downloadDocument] that choose the format. *)
Definition format_calls (f : DownloadFormat) (found : bool) : list Event :=
  match f with
  | docx => []
  | other =>
      let button := has_text (Js.toUpperCase (downloadFormat_name other)) in
      [WaitForTimeout 500; Query button] ++ optional_click button found
  end.

(** The calls of [shareDocument] that set the permission. *)
Definition permission_calls (p : Permission) (found : bool) : list Event :=
  match p with
  | view => []
  | edit =>
      Query (testid "permission-dropdown")
      :: (if found
          then [HandleClick (PageElement (testid "permission-dropdown")) 1;
                Click (has_text "Can edit")]
          else [])
  end.

(** The calls that put a name in the input of a dialog. *)
Definition naming_calls (title : string) : list Event :=
  [HandleClick (PageElement input_element) 3;
   HandleType (PageElement input_element) title].

(** The calls of [createDocument] that rename the new document: through
    the rename dialog when its input is there, else through the menu. *)
Definition rename_calls (title : string) (found : bool) : list Event :=
  (if found then []
   else [Click document_name_dropdown;
         WaitForSelector (testid "dropdown-rename") None;
         Click (testid "dropdown-rename");
         WaitForSelector input_element None;
         Query input_element])
  ++ naming_calls title ++ [KeyPress "Enter"].

(** The calls of [listDocuments] that filter the listing. *)
Definition filter_calls (searchQuery : option string) : list Event :=
  match searchQuery with
  | Some q =>
      if Js.truthy q
      then [TypeInto search_input q; KeyPress "Enter"; WaitForTimeout 1000]
      else []
  | None => []
  end.

(** A value that counts as absent in a condition. *)
Definition falsy_string (o : option string) : Prop :=
  forall s, o = Some s -> s = EmptyString.

Definition falsy_number (o : option Q) : Prop :=
  forall n, o = Some n -> (n == 0)%Q.

(** An entry of a listing whose title is not empty. *)
Definition entitled (entry : json) : Prop :=
  exists title rest,
    entry = JObj (("title", JStr title) :: rest) /\ title <> EmptyString.

(** An entry of the version history whose date is not empty. *)
Definition dated (entry : json) : Prop :=
  exists date rest,
    entry = JObj (("date", JStr date) :: rest) /\ date <> EmptyString.

(** The title of an entry of a listing. *)
Definition title_of (entry : json) : option string :=
  match entry with
  | JObj members =>
      match member "title" members with
      | Some (JStr title) => Some title
      | _ => None
      end
  | _ => None
  end.

(** The texts of the title cells of the rows that have one, in row order. *)
Definition title_cells (rows : list Row) : list string :=
  flat_map (fun row =>
              match titleCell row with
              | Some cell => [cell]
              | None => []
              end) rows.

(** The entry lists the title cell: its title is the text of the cell
    without the white space around it, or Untitled when nothing is left. *)
Definition lists_as (cell : string) (entry : json) : Prop :=
  exists title,
    title_of entry = Some title /\
    (Js.trim cell = EmptyString -> title = "Untitled") /\
    (Js.trim cell <> EmptyString -> title = Js.trim cell).

(** The item of the version panel shows a date that is not empty. *)
Definition shows_date (el : VersionItem) : bool :=
  match version_date el with
  | Some date => Js.truthy date
  | None => false
  end.

(** The calls that extend the selection back [n] times. *)
Fixpoint select_back (n : nat) : list Event :=
  match n with
  | O => []
  | S n' =>
      KeyDown "Shift" :: KeyPress "ArrowLeft" :: KeyUp "Shift"
      :: select_back n'
  end.

(** ** Where a handler navigates *)

Definition string_property (key : string) (args : option json) : string :=
  match args with
  | Some (JObj o) =>
      match member key o with
      | Some (JStr s) => s
      | _ => EmptyString
      end
  | _ => EmptyString
  end.

Definition flag (key : string) (args : option json) : bool :=
  match args with
  | Some (JObj o) =>
      match member key o with
      | Some (JBool b) => b
      | _ => false
      end
  | _ => false
  end.

(** The address a handler navigates to first. *)
Definition destination (request : CallToolRequest) : string :=
  let tool := name request in
  let args := arguments request in
  if String.eqb tool "list_documents" then recents_url
  else if String.eqb tool "create_document" then new_doc_url
  else if String.eqb tool "search_documents" then recents_url
  else if String.eqb tool "delete_document" && flag "permanent" args
       then trash_url
  else string_property "documentUrl" args.

(** ** More worlds and requests *)

Definition an_editor : Editor :=
  {| textContent := "Hello world"; innerHTML := "<p>Hello world</p>" |}.

Definition mounted : Dom :=
  {| tbody_rows := [];
     editor_iframe := Some {| contentDocument := Some (Some an_editor) |};
     version_items := [] |}.

Definition versioned : Dom :=
  {| tbody_rows := [];
     editor_iframe := None;
     version_items :=
       [ {| version_date := Some "2025-07-03"; version_author := Some "me" |};
         {| version_date := None; version_author := Some "you" |};
         {| version_date := Some "2025-07-01"; version_author := None |} ] |}.

Definition document_request (more : list (string * json)) : option json :=
  object (("documentUrl", JStr a_document) :: more).

Definition is_new_page (ev : Event) : bool :=
  match ev with NewPage => true | _ => false end.

(** Worlds whose driver rejects one kind of call. *)
Definition no_viewport : Env := refusing is_viewport [] empty_dom a_document.
Definition no_page : Env := refusing is_new_page [] empty_dom a_document.
Definition offline : Env := refusing is_navigation [] empty_dom a_document.

Definition mounted_world : Env := scripted [] [] mounted a_document.
Definition versioned_world : Env := scripted [] [] versioned a_document.

Definition pdf_request : option json :=
  document_request [("format", JStr "pdf")].

Definition share_request : option json :=
  document_request [("email", JStr "ann@example.org");
                    ("permission", JStr "edit")].

Definition copy_request : option json :=
  document_request [("newTitle", JStr "Copy of plan")].

Definition filtered_request : option json :=
  object [("searchQuery", JStr "plan")].

Definition font_request : option json :=
  document_request [("fontFamily", JStr EmptyString);
                    ("fontSize", JNum (0 # 1)%Q)].

(** The euro sign, U+20AC: three bytes, one UTF-16 code unit. *)
Definition euro : string := Js.of_bytes [226; 130; 172].

Definition link_request : option json :=
  document_request [("text", JStr ("a" ++ euro));
                    ("url", JStr "https://proton.me")].

(** The no-break space, U+00A0. *)
Definition nbsp : string := Js.of_bytes [194; 160].

(** A row with a title, a row without a title cell and a row whose title
    cell holds a no-break space only. *)
Definition mixed_rows : list Row :=
  [titled "Alpha" "/doc/1";
   {| titleCell := None;
      viewedCell := Some "yesterday";
      createdByCell := Some "me";
      locationCell := None;
      data_url := Some "/doc/2" |};
   titled nbsp "/doc/3"].

Definition center_request : option json :=
  document_request [("alignment", JStr "center")].

Definition unknown_request : CallToolRequest :=
  {| name := "print_document"; arguments := read_request |}.

(** * Proof tools *)

Arguments testid : simpl never.
Arguments has_text : simpl never.
Arguments title_contains : simpl never.
Arguments aria_label_contains : simpl never.
Arguments editor_frame_edit : simpl never.
Arguments main_editor : simpl never.
Arguments input_element : simpl never.
Arguments document_name_dropdown : simpl never.
Arguments search_input : simpl never.
Arguments email_input : simpl never.
Arguments trash_url : simpl never.
Arguments recents_url : simpl never.
Arguments new_doc_url : simpl never.

(** Case analysis on the scrutinee of a match of the goal. *)
Ltac case_match :=
  match goal with
  | |- context [match ?x with _ => _ end] => destruct x eqn:?
  end.

(** The record of calls in flat form. *)
Ltac flat := simpl; repeat (rewrite <- app_assoc; simpl).

Ltac flat_in H := simpl in H; repeat (rewrite <- app_assoc in H; simpl in H).

(** One step of a run: the goal is reduced and a fact about the session or
    the outside world is used. *)
Ltac step :=
  flat;
  match goal with
  | H : page ?s = _ |- context [page ?s] => rewrite H
  | H : rejects ?e ?h = _ |- context [rejects ?e ?h] => rewrite H
  | H : present ?e ?h = _ |- context [present ?e ?h] => rewrite H
  | H : find is_editor_frame ?fs = _ |- context [find is_editor_frame ?fs] =>
      rewrite H
  end.

Ltac unfold_run :=
  unfold failed_to, goto, waitForSelector, waitForTimeout,
    query, click, type, evaluate, keyboard_down, keyboard_up, keyboard_press,
    keyboard_type, find_editor_frame, url, frame_click, frame_type,
    frame_query, handle_click, handle_type, non_null, null_page, when;
  unfold try_catch, bind, on_page, driver, observe, ret, throw, record, after.

(** The facts of an [accepted] run, one per call, in flat form. *)
Ltac split_accepted H :=
  simpl in H;
  repeat match type of H with
         | _ /\ _ =>
             let H' := fresh "Hacc" in
             destruct H as [H' H]; flat_in H'
         end.

(** * Properties *)

Section Properties.

Variable env : Env.

(** ** The session *)

Lemma ensureBrowser_page (s s1 : Server) :
  ensureBrowser env s = (Return tt, s1) ->
  exists p, page s1 = Some p.
Proof.
  unfold ensureBrowser, bind, driver, set_browser, set_page, ret, record.
  repeat (simpl; case_match); simpl;
    intros H; try discriminate; inversion H; subst; simpl;
    eexists; solve [eassumption | reflexivity].
Qed.

(** ** delete_document *)

(** C1 (amended).  A [delete_document] invocation with [permanent = true]
    never succeeds.  When the session cannot be acquired it fails with that
    error; otherwise it issues exactly one driver call, the navigation to
    the trash listing, and no element interaction, and then fails with the
    error wrapped as a failure to delete the document: the navigation error
    if the navigation was rejected, else the invalid-request error saying
    that permanent deletion is not implemented. *)
Theorem deleteDocument_permanent (args : option json)
    (params : DeleteDocumentSchema.t) (s : Server) :
  DeleteDocumentSchema.parse args = Return params ->
  DeleteDocumentSchema.permanent params = true ->
  deleteDocument env args s =
    match ensureBrowser env s with
    | (Throw e, s1) => (Throw e, s1)
    | (Return _, s1) =>
        (Throw (McpError InternalError
                  (FailedTo "delete document"
                     match rejects env (calls s1 ++ [Goto trash_url]) with
                     | Some why => DriverError why
                     | None =>
                         McpError InvalidRequest
                           (Text "Permanent deletion from trash not yet implemented")
                     end)),
         after s1 [Goto trash_url])
    end.
Proof.
  intros Hparse Hperm.
  unfold deleteDocument. rewrite Hparse.
  unfold lift at 1. unfold bind at 1 2.
  destruct (ensureBrowser env s) as [[[]|e] s1] eqn:Hsession; [|reflexivity].
  destruct (ensureBrowser_page _ Hsession) as [p Hp].
  rewrite Hperm.
  unfold try_catch, bind, goto, on_page, driver, failed_to, throw.
  rewrite Hp. simpl.
  destruct (rejects env (calls s1 ++ [Goto trash_url])); reflexivity.
Qed.

(** ** Sessions are kept *)

Lemma launches_snoc (evs : list Event) (ev : Event) :
  launches (evs ++ [ev]) = launches evs + (if is_launch ev then 1 else 0).
Proof.
  unfold launches. rewrite filter_app, length_app. simpl.
  destruct (is_launch ev); reflexivity.
Qed.

Lemma keeps_ret A (a : A) : keeps_session (ret a).
Proof. intros s b Hb. simpl. auto. Qed.

Lemma keeps_throw A (e : jsError) : keeps_session (@throw A e).
Proof. intros s b Hb. simpl. auto. Qed.

Lemma keeps_lift A (c : Completion A) : keeps_session (lift c).
Proof. intros s b Hb. simpl. auto. Qed.

Lemma keeps_bind A B (m : Async A) (k : A -> Async B) :
  keeps_session m -> (forall a, keeps_session (k a)) -> keeps_session (bind m k).
Proof.
  intros Hm Hk s b Hb. unfold bind.
  destruct (Hm s b Hb) as [H1 H2].
  destruct (m s) as [[a|e] s']; simpl in *.
  - destruct (Hk a s' b H1) as [H3 H4]. split; congruence.
  - auto.
Qed.

Lemma keeps_try_catch A (m : Async A) (h : jsError -> Async A) :
  keeps_session m -> (forall e, keeps_session (h e)) ->
  keeps_session (try_catch m h).
Proof.
  intros Hm Hh s b Hb. unfold try_catch.
  destruct (Hm s b Hb) as [H1 H2].
  destruct (m s) as [[a|e] s']; simpl in *.
  - auto.
  - destruct (Hh e s' b H1) as [H3 H4]. split; congruence.
Qed.

Lemma keeps_driver (ev : Event) :
  is_launch ev = false -> keeps_session (driver env ev).
Proof.
  intros Hev s b Hb. unfold driver.
  destruct (rejects env (calls (record ev s))); simpl;
    rewrite launches_snoc, Hev; auto.
Qed.

Lemma keeps_on_page (ev : Event) :
  is_launch ev = false -> keeps_session (on_page env ev).
Proof.
  intros Hev s b Hb. unfold on_page.
  destruct (page s); [apply keeps_driver; assumption | simpl; auto].
Qed.

Lemma keeps_observe A (oracle : Env -> list Event -> A) :
  keeps_session (observe env oracle).
Proof. intros s b Hb. simpl. auto. Qed.

Lemma keeps_find_editor_frame : keeps_session (find_editor_frame env).
Proof. intros s b Hb. unfold find_editor_frame. destruct (page s); simpl; auto. Qed.

Lemma keeps_url : keeps_session (url env).
Proof. intros s b Hb. unfold url. destruct (page s); simpl; auto. Qed.

Lemma keeps_for_of A (l : list A) (body : A -> Async unit) :
  (forall a, keeps_session (body a)) -> keeps_session (for_of l body).
Proof.
  intros Hbody. induction l as [|a l IH]; simpl.
  - apply keeps_ret.
  - apply keeps_bind; auto.
Qed.

Lemma keeps_set_page : keeps_session set_page.
Proof. intros s b Hb. simpl. auto. Qed.

Lemma keeps_page_part : keeps_session (page_part env).
Proof.
  assert (K : keeps_session
                (driver env NewPage ;; set_page ;;
                 driver env (SetViewport 1280 800))).
  { apply keeps_bind; [apply keeps_driver; reflexivity | intros _].
    apply keeps_bind; [apply keeps_set_page | intros _].
    apply keeps_driver; reflexivity. }
  intros s b Hb. unfold page_part. destruct (page s).
  - simpl. auto.
  - exact (K s b Hb).
Qed.

Lemma keeps_ensureBrowser : keeps_session (ensureBrowser env).
Proof.
  unfold ensureBrowser. apply keeps_bind.
  - intros s b Hb. cbv beta. rewrite Hb. simpl. auto.
  - intros _. exact keeps_page_part.
Qed.

(** Decomposition of a method body along its syntax. *)
Ltac unfold_calls :=
  unfold failed_to, goto, waitForSelector, waitForTimeout, query, click, type,
    evaluate, keyboard_down, keyboard_up, keyboard_press, keyboard_type,
    frame_click, frame_type, frame_query, handle_click, handle_type,
    non_null, null_page, when, press_shortcut;
  cbv zeta.

Ltac keeps :=
  repeat first
    [ apply keeps_ret
    | apply keeps_throw
    | apply keeps_lift
    | apply keeps_ensureBrowser
    | apply keeps_observe
    | apply keeps_find_editor_frame
    | apply keeps_url
    | apply keeps_driver; reflexivity
    | apply keeps_on_page; reflexivity
    | apply keeps_bind; [ | intros ? ]
    | apply keeps_try_catch; [ | intros ? ]
    | apply keeps_for_of; intros ?
    | match goal with
      | |- keeps_session (match ?x with _ => _ end) => destruct x
      end
    | progress unfold_calls ].

Ltac unfold_handlers :=
  unfold listDocuments, readDocument, createDocument, searchDocuments,
    editDocument, deleteDocument, shareDocument, formatText, createList,
    insertLink, changeFont, downloadDocument, copyDocument,
    getVersionHistory, setAlignment.

Lemma callTool_keeps_session (request : CallToolRequest) :
  keeps_session (callTool env request).
Proof.
  unfold callTool. cbv zeta.
  repeat match goal with
         | |- keeps_session (if ?b then _ else _) => destruct b
         end;
    unfold_handlers; keeps.
Qed.

Lemma bind_returned A B (m : Async A) (k : A -> Async B) (s s' : Server)
    (a : A) :
  m s = (Return a, s') -> bind m k s = k a s'.
Proof. intros H. unfold bind. rewrite H. reflexivity. Qed.

Lemma ensureBrowser_launch (s : Server) :
  browser s = None ->
  rejects env (calls s ++ [Launch]) = None ->
  ensureBrowser env s = page_part env (launched s).
Proof.
  intros Hb Hl. unfold ensureBrowser, bind at 1. rewrite Hb.
  unfold bind, driver, set_browser. simpl. rewrite Hl. reflexivity.
Qed.

Lemma ensureBrowser_complete (s : Server) (b : Browser) (p : Page) :
  browser s = Some b -> page s = Some p ->
  ensureBrowser env s = (Return tt, s).
Proof.
  intros Hb Hp. unfold ensureBrowser, bind. rewrite Hb. simpl.
  rewrite Hp. reflexivity.
Qed.

(** ** Handlers on a complete session *)

Lemma session_calls_snoc (evs : list Event) (ev : Event) :
  is_session_call ev = false ->
  session_calls (evs ++ [ev]) = session_calls evs.
Proof.
  intros H. unfold session_calls. rewrite filter_app. simpl. rewrite H.
  apply app_nil_r.
Qed.

Lemma settled_ret A (a : A) : settled (ret a).
Proof. intros s b p Hb Hp. simpl. auto. Qed.

Lemma settled_throw A (e : jsError) : settled (@throw A e).
Proof. intros s b p Hb Hp. simpl. auto. Qed.

Lemma settled_lift A (c : Completion A) : settled (lift c).
Proof. intros s b p Hb Hp. simpl. auto. Qed.

Lemma settled_bind A B (m : Async A) (k : A -> Async B) :
  settled m -> (forall a, settled (k a)) -> settled (bind m k).
Proof.
  intros Hm Hk s b p Hb Hp. unfold bind.
  destruct (Hm s b p Hb Hp) as (H1 & H2 & H3).
  destruct (m s) as [[a|e] s']; simpl in *.
  - destruct (Hk a s' b p H1 H2) as (H4 & H5 & H6).
    repeat split; congruence.
  - auto.
Qed.

Lemma settled_try_catch A (m : Async A) (h : jsError -> Async A) :
  settled m -> (forall e, settled (h e)) -> settled (try_catch m h).
Proof.
  intros Hm Hh s b p Hb Hp. unfold try_catch.
  destruct (Hm s b p Hb Hp) as (H1 & H2 & H3).
  destruct (m s) as [[a|e] s']; simpl in *.
  - auto.
  - destruct (Hh e s' b p H1 H2) as (H4 & H5 & H6).
    repeat split; congruence.
Qed.

Lemma settled_driver (ev : Event) :
  is_session_call ev = false -> settled (driver env ev).
Proof.
  intros Hev s b p Hb Hp. unfold driver.
  destruct (rejects env (calls (record ev s))); simpl;
    rewrite session_calls_snoc by exact Hev; auto.
Qed.

Lemma settled_on_page (ev : Event) :
  is_session_call ev = false -> settled (on_page env ev).
Proof.
  intros Hev s b p Hb Hp. unfold on_page. rewrite Hp.
  apply settled_driver; assumption.
Qed.

Lemma settled_observe A (oracle : Env -> list Event -> A) :
  settled (observe env oracle).
Proof. intros s b p Hb Hp. simpl. auto. Qed.

Lemma settled_find_editor_frame : settled (find_editor_frame env).
Proof.
  intros s b p Hb Hp. unfold find_editor_frame. rewrite Hp. simpl. auto.
Qed.

Lemma settled_url : settled (url env).
Proof. intros s b p Hb Hp. unfold url. rewrite Hp. simpl. auto. Qed.

Lemma settled_for_of A (l : list A) (body : A -> Async unit) :
  (forall a, settled (body a)) -> settled (for_of l body).
Proof.
  intros Hbody. induction l as [|a l IH]; simpl.
  - apply settled_ret.
  - apply settled_bind; auto.
Qed.

Lemma settled_ensureBrowser : settled (ensureBrowser env).
Proof.
  intros s b p Hb Hp. erewrite ensureBrowser_complete by eassumption.
  simpl. auto.
Qed.

Ltac settle :=
  repeat first
    [ apply settled_ret
    | apply settled_throw
    | apply settled_lift
    | apply settled_ensureBrowser
    | apply settled_observe
    | apply settled_find_editor_frame
    | apply settled_url
    | apply settled_driver; reflexivity
    | apply settled_on_page; reflexivity
    | apply settled_bind; [ | intros ? ]
    | apply settled_try_catch; [ | intros ? ]
    | apply settled_for_of; intros ?
    | match goal with
      | |- settled (match ?x with _ => _ end) => destruct x
      end
    | progress unfold_calls ].

Lemma callTool_settled (request : CallToolRequest) :
  settled (callTool env request).
Proof.
  unfold callTool. cbv zeta.
  repeat match goal with
         | |- settled (if ?b then _ else _) => destruct b
         end;
    unfold_handlers; settle.
Qed.

(** The session calls of a run are its launches and more. *)
Lemma launches_session_calls (evs : list Event) :
  launches (session_calls evs) = launches evs.
Proof.
  unfold launches, session_calls.
  induction evs as [|ev evs IH]; simpl; [reflexivity|].
  destruct ev; simpl; rewrite ?IH; reflexivity.
Qed.

Lemma serve_settled (requests : list CallToolRequest) (s : Server)
    (b : Browser) (p : Page) :
  browser s = Some b ->
  page s = Some p ->
  browser (snd (serve env requests s)) = Some b /\
  page (snd (serve env requests s)) = Some p /\
  session_calls (calls (snd (serve env requests s))) = session_calls (calls s).
Proof.
  revert s. induction requests as [|r rest IH]; intros s Hb Hp; simpl.
  - auto.
  - destruct (@callTool_settled r s b p Hb Hp) as (H1 & H2 & H3).
    destruct (callTool env r s) as [c s']. simpl in H1, H2, H3.
    destruct (IH s' H1 H2) as (H4 & H5 & H6).
    destruct (serve env rest s') as [cs s'']. simpl in *.
    repeat split; congruence.
Qed.

(** On a fresh server, when the driver accepts the three calls,
    [ensureBrowser] stores the browser and the page it created. *)
Lemma ensureBrowser_fresh :
  accepted env [] [Launch; NewPage; SetViewport 1280 800] ->
  ensureBrowser env initial = (Return tt, ready).
Proof.
  simpl. intros (Hlaunch & Hpage & Hview & _).
  unfold ensureBrowser, bind, driver, set_browser, set_page, record, initial.
  simpl. rewrite Hlaunch. simpl. rewrite Hpage. simpl. rewrite Hview.
  reflexivity.
Qed.

Lemma handler_fresh A P (parse : Completion P) (rest : P -> Async A) :
  parses parse = true ->
  (forall p, settled (rest p)) ->
  accepted env [] [Launch; NewPage; SetViewport 1280 800] ->
  settled_from ready
    (snd ((let* p := lift parse in (ensureBrowser env ;; rest p)) initial)).
Proof.
  intros Hparse Hrest Hfresh.
  destruct parse as [p|]; [|discriminate].
  unfold lift, bind at 1.
  erewrite bind_returned by exact (ensureBrowser_fresh Hfresh).
  exact (Hrest p ready _ _ eq_refl eq_refl).
Qed.

Lemma callTool_fresh (request : CallToolRequest) :
  accepts env request = true ->
  accepted env [] [Launch; NewPage; SetViewport 1280 800] ->
  settled_from ready (snd (callTool env request initial)).
Proof.
  unfold accepts, callTool. cbv zeta.
  repeat match goal with
         | |- (if ?b then _ else _) = true -> _ => destruct b
         end;
    intros H Hfresh; try discriminate;
    unfold_handlers;
    (apply handler_fresh; [exact H | intros ?; settle | exact Hfresh]).
Qed.

(** C6 (amended).  When the driver accepts the launch, the page creation
    and the viewport call, the first operation of a fresh server, if its
    arguments pass its schema, creates the browser and one page, and every
    later operation served in turn reuses them: after the first operation
    and after all of them the server holds that same browser and that same
    page, and the session calls issued over the whole sequence are exactly
    one launch, one page creation and one viewport call, in this order, so
    exactly one launch occurs. *)
Theorem session_launched_once (first : CallToolRequest)
    (others : list CallToolRequest) :
  accepts env first = true ->
  accepted env [] [Launch; NewPage; SetViewport 1280 800] ->
  let after_first := snd (callTool env first initial) in
  let after_all := snd (serve env (first :: others) initial) in
  (exists b p,
      browser after_first = Some b /\ page after_first = Some p /\
      browser after_all = Some b /\ page after_all = Some p) /\
  session_calls (calls after_first) = [Launch; NewPage; SetViewport 1280 800] /\
  session_calls (calls after_all) = [Launch; NewPage; SetViewport 1280 800] /\
  launches (calls after_all) = 1.
Proof.
  intros Hfirst Hfresh. simpl.
  destruct (callTool_fresh first Hfirst Hfresh) as (Hb & Hp & Hcalls).
  destruct (callTool env first initial) as [c s1]. simpl in Hb, Hp, Hcalls.
  destruct (serve_settled others s1 Hb Hp) as (Hb' & Hp' & Hcalls').
  destruct (serve env others s1) as [cs s2]. simpl in *.
  assert (Hall : session_calls (calls s2)
                 = [Launch; NewPage; SetViewport 1280 800]).
  { rewrite Hcalls'. exact Hcalls. }
  split; [eexists; eexists; repeat split; eassumption|].
  split; [exact Hcalls|]. split; [exact Hall|].
  rewrite <- launches_session_calls, Hall. reflexivity.
Qed.

(** ** One result per invocation *)

Lemma answers_ret (payload : json) : answers (ret (text_response payload)).
Proof.
  intros s response s' H. inversion H. eexists. reflexivity.
Qed.

Lemma answers_throw (e : jsError) : answers (throw e).
Proof. intros s response s' H. discriminate. Qed.

Lemma answers_bind A (m : Async A) (k : A -> Async ToolResponse) :
  (forall a, answers (k a)) -> answers (bind m k).
Proof.
  intros Hk s response s' H. unfold bind in H.
  destruct (m s) as [[a|e] s1]; [|discriminate].
  eapply Hk. eassumption.
Qed.

Lemma answers_try_catch (m : Async ToolResponse)
    (h : jsError -> Async ToolResponse) :
  answers m -> (forall e, answers (h e)) -> answers (try_catch m h).
Proof.
  intros Hm Hh s response s' H. unfold try_catch in H.
  destruct (m s) as [[a|e] s1] eqn:E.
  - inversion H; subst. eapply Hm. eassumption.
  - eapply Hh. eassumption.
Qed.

Ltac answers_tac :=
  repeat first
    [ apply answers_ret
    | apply answers_throw
    | apply answers_bind; intros ?
    | match goal with
      | |- answers (match ?x with _ => _ end) => destruct x
      end ].

(** The failures of a handler: a refusal by its schema, a failure to acquire
    the session, or a failure of its body wrapped with the operation name. *)
Lemma handler_outcome P (parse : Completion P)
    (body : P -> Async ToolResponse) (what : string) (s : Server) :
  (forall e, parse = Throw e -> exists issues, e = ZodError issues) ->
  (forall p, answers (body p)) ->
  match fst ((let* p := lift parse in
              (ensureBrowser env ;; try_catch (body p) (failed_to what))) s) with
  | Return response => exists payload, response = text_response payload
  | Throw e =>
      (exists issues, e = ZodError issues) \/
      fst (ensureBrowser env s) = Throw e \/
      wrapped_with what e
  end.
Proof.
  intros Hparse Hbody. unfold bind at 1, lift.
  destruct parse as [p|e].
  - unfold bind. destruct (ensureBrowser env s) as [[[]|e] s1]; simpl.
    + unfold try_catch. destruct (body p s1) as [[r|e] s2] eqn:E; simpl.
      * eapply Hbody. eassumption.
      * right. right. eexists. reflexivity.
    + right. left. reflexivity.
  - simpl. left. apply Hparse. reflexivity.
Qed.

Ltac zod_failure :=
  let H := fresh in
  intros ? H; unfold not_an_object in H;
  repeat match type of H with
         | context [match ?x with _ => _ end] => destruct x
         end;
  first [discriminate H | inversion H; eexists; reflexivity].

(** The outcome of a handler, stage by stage: the schema, the acquisition
    of the session, the body inside the try block. *)
Lemma handler_stages P (parse : Completion P)
    (body : P -> Async ToolResponse) (what : string) (s : Server) :
  (forall e, parse = Throw e -> exists issues, e = ZodError issues) ->
  (forall p, answers (body p)) ->
  let run :=
    (let* p := lift parse in
     (ensureBrowser env ;; try_catch (body p) (failed_to what))) in
  if parses parse then
    match ensureBrowser env s with
    | (Throw e, s1) => run s = (Throw e, s1)
    | (Return _, s1) =>
        match fst (run s) with
        | Return response => exists payload, response = text_response payload
        | Throw e => wrapped_with what e
        end
    end
  else exists issues, run s = (Throw (ZodError issues), s).
Proof.
  intros Hparse Hbody. cbv zeta. unfold bind at 1 3 4, lift.
  destruct parse as [p|e]; simpl.
  - unfold bind. destruct (ensureBrowser env s) as [[[]|e] s1]; simpl.
    + unfold try_catch. destruct (body p s1) as [[r|e] s2] eqn:E; simpl.
      * eapply Hbody. eassumption.
      * eexists. reflexivity.
    + reflexivity.
  - destruct (Hparse e eq_refl) as [issues Hissues]. subst e.
    exists issues. reflexivity.
Qed.

(** C5 (amended).  Every tool invocation ends in one outcome, fixed by the
    stage it reaches.  A tool name outside the catalog throws the
    method-not-found error naming the tool and leaves the server untouched.
    For a tool of the catalog, arguments refused by the schema throw the
    validation error as it is and leave the server untouched; a failure to
    acquire the session is thrown as [ensureBrowser] threw it, not wrapped,
    and leaves the server as [ensureBrowser] left it; and once the session
    is acquired the invocation either returns one response, made of a
    single text item that carries one payload, or throws an internal error
    wrapped with the name of the operation, and nothing else. *)
Theorem callTool_one_result (request : CallToolRequest) (s : Server) :
  match operation (name request) with
  | None =>
      callTool env request s =
        (Throw (McpError MethodNotFound
                  (Text ("Unknown tool: " ++ name request))), s)
  | Some what =>
      if accepts env request then
        match ensureBrowser env s with
        | (Throw e, s1) => callTool env request s = (Throw e, s1)
        | (Return _, s1) =>
            match fst (callTool env request s) with
            | Return response =>
                exists payload, response = text_response payload
            | Throw e => wrapped_with what e
            end
        end
      else exists issues, callTool env request s = (Throw (ZodError issues), s)
  end.
Proof.
  unfold callTool, operation, accepts. cbv zeta.
  repeat match goal with
         | |- context [if String.eqb ?a ?b then _ else _] =>
             destruct (String.eqb a b)
         end;
    try reflexivity;
    unfold_handlers;
    (apply handler_stages;
     [ unfold ListDocumentsSchema.parse, ReadDocumentSchema.parse,
         CreateDocumentSchema.parse, SearchDocumentsSchema.parse,
         EditDocumentSchema.parse, DeleteDocumentSchema.parse,
         ShareDocumentSchema.parse, FormatTextSchema.parse,
         CreateListSchema.parse, InsertLinkSchema.parse,
         ChangeFontSchema.parse, DownloadDocumentSchema.parse,
         CopyDocumentSchema.parse, GetVersionHistorySchema.parse,
         SetAlignmentSchema.parse;
       zod_failure
     | intros ?; answers_tac ]).
Qed.

(** ** What a handler returns *)

Lemma ensures_ret A (a : A) (Q : A -> Server -> Prop) :
  (forall s, Q a s) -> ensures (ret a) Q.
Proof. intros H s a' s' E. inversion E; subst. apply H. Qed.

Lemma ensures_throw A (e : jsError) (Q : A -> Server -> Prop) :
  ensures (throw e) Q.
Proof. intros s a s' E. discriminate. Qed.

Lemma ensures_bind A B (m : Async A) (k : A -> Async B)
    (Q : B -> Server -> Prop) :
  (forall a, ensures (k a) Q) -> ensures (bind m k) Q.
Proof.
  intros Hk s b s' E. unfold bind in E.
  destruct (m s) as [[a|e] s1]; [|discriminate].
  eapply Hk. eassumption.
Qed.

Lemma ensures_try_catch A (m : Async A) (h : jsError -> Async A)
    (Q : A -> Server -> Prop) :
  ensures m Q -> (forall e, ensures (h e) Q) -> ensures (try_catch m h) Q.
Proof.
  intros Hm Hh s a s' E. unfold try_catch in E.
  destruct (m s) as [[a1|e] s1] eqn:E1.
  - inversion E; subst. eapply Hm. eassumption.
  - eapply Hh. eassumption.
Qed.

Lemma ensures_parsed A P (p : P) (k : P -> Async A) (Q : A -> Server -> Prop) :
  ensures (k p) Q -> ensures (bind (lift (Return p)) k) Q.
Proof. intros H s a s' E. eapply H. exact E. Qed.

(** The value of a script evaluated last is computed from the document as
    it stands after that call. *)
Lemma ensures_evaluate A B (script : Script) (fn : Dom -> A) (f : A -> B) :
  ensures (let* x := evaluate env script fn in ret (f x))
    (fun b s' => b = f (fn (dom env (calls s')))).
Proof.
  intros s b s' E.
  unfold evaluate, bind, on_page, driver, observe, ret, null_page, throw in E.
  destruct (page s); [|discriminate].
  destruct (rejects env (calls (record (Evaluate script) s))); [discriminate|].
  inversion E; subst. reflexivity.
Qed.


(** ** search_documents *)

(** C9.  Whenever [search_documents] returns, its payload echoes the query
    of the request, carries the entries read off the table after the last
    call, and its count is the number of those entries. *)
Theorem searchDocuments_payload (args : option json)
    (params : SearchDocumentsSchema.t) (s s' : Server)
    (response : ToolResponse) :
  SearchDocumentsSchema.parse args = Return params ->
  searchDocuments env args s = (Return response, s') ->
  exists results,
    results = InPage.search_rows (dom env (calls s')) /\
    response =
      text_response
        (JObj [("query", JStr (SearchDocumentsSchema.query params));
               ("results", JArr results);
               ("count", JNat (List.length results))]).
Proof.
  intros Hparse. revert s response s'.
  change (ensures (searchDocuments env args)
            (fun response s' =>
               exists results,
                 results = InPage.search_rows (dom env (calls s')) /\
                 response =
                   text_response
                     (JObj [("query", JStr (SearchDocumentsSchema.query params));
                            ("results", JArr results);
                            ("count", JNat (List.length results))]))).
  unfold searchDocuments. rewrite Hparse.
  apply ensures_parsed, ensures_bind. intros _.
  apply ensures_try_catch; [|intros e; apply ensures_throw].
  do 5 (apply ensures_bind; intros ?).
  intros s b s' E.
  apply (@ensures_evaluate _ _ SearchRows InPage.search_rows
           (fun results =>
              text_response
                (JObj [("query", JStr (SearchDocumentsSchema.query params));
                       ("results", JArr results);
                       ("count", JNat (List.length results))]))) in E.
  eexists. split; [reflexivity | exact E].
Qed.

(** ** create_document *)


(** ** list_documents *)

Lemma below_spec (i : nat) (bound : Q) :
  InPage.below i bound = true <-> (inject_Z (Z.of_nat i) < bound)%Q.
Proof.
  unfold InPage.below. rewrite negb_true_iff. split.
  - intros H. apply Qnot_le_lt. intros Hle.
    apply Qle_bool_iff in Hle. congruence.
  - intros H. destruct (Qle_bool bound (inject_Z (Z.of_nat i))) eqn:E; [|reflexivity].
    apply Qle_bool_iff in E. exfalso. exact (Qlt_not_le _ _ H E).
Qed.

Lemma document_entry_length (row : Row) :
  List.length (InPage.document_entry row) <= 1.
Proof. unfold InPage.document_entry. destruct (titleCell row); simpl; lia. Qed.

Lemma document_entry_titled (row : Row) :
  has_title row -> List.length (InPage.document_entry row) = 1.
Proof.
  unfold has_title, InPage.document_entry.
  destruct (titleCell row); [reflexivity | congruence].
Qed.

Lemma rows_from_le_rows (rows : list Row) (i : nat) (bound : Q) :
  List.length (InPage.rows_from i rows bound) <= List.length rows.
Proof.
  revert i. induction rows as [|row rest IH]; intros i; simpl.
  - lia.
  - destruct (InPage.below i bound); simpl; [|lia].
    rewrite length_app.
    pose proof (document_entry_length row). pose proof (IH (S i)). lia.
Qed.

Lemma rows_from_le_bound (rows : list Row) (i n : nat) (bound : Q) :
  (bound <= inject_Z (Z.of_nat n))%Q ->
  List.length (InPage.rows_from i rows bound) <= n - i.
Proof.
  intros Hn. revert i. induction rows as [|row rest IH]; intros i; simpl.
  - lia.
  - destruct (InPage.below i bound) eqn:E; simpl; [|lia].
    apply below_spec in E.
    assert (Hlt : (Z.of_nat i < Z.of_nat n)%Z).
    { rewrite Zlt_Qlt. eapply Qlt_le_trans; eassumption. }
    rewrite length_app.
    pose proof (document_entry_length row). pose proof (IH (S i)). lia.
Qed.

Lemma rows_from_firstn (rows : list Row) (k i : nat) (bound : Q) :
  (bound == inject_Z (Z.of_nat (i + k)))%Q ->
  InPage.rows_from i rows bound = flat_map InPage.document_entry (firstn k rows).
Proof.
  revert k i. induction rows as [|row rest IH]; intros k i Hb.
  - destruct k; reflexivity.
  - destruct k as [|k]; simpl.
    + destruct (InPage.below i bound) eqn:E; [|reflexivity].
      apply below_spec in E. rewrite Hb, Nat.add_0_r in E.
      exfalso. exact (Qlt_irrefl _ E).
    + assert (E : InPage.below i bound = true).
      { apply below_spec. rewrite Hb. rewrite <- Zlt_Qlt. lia. }
      rewrite E. f_equal. apply IH.
      rewrite Hb. replace (S i + k) with (i + S k) by lia. reflexivity.
Qed.

Lemma flat_map_titled (rows : list Row) :
  Forall has_title rows ->
  List.length (flat_map InPage.document_entry rows) = List.length rows.
Proof.
  induction 1 as [|row rest Hrow _ IH]; simpl.
  - reflexivity.
  - rewrite length_app, (document_entry_titled Hrow), IH. reflexivity.
Qed.

(** C7 (amended).  Whenever [list_documents] returns, its payload holds the
    entries of the leading rows of the table as it stands after the last
    call, in row order.  The number of entries never exceeds the number of
    rows, and never exceeds any natural number that the limit does not
    exceed, so it never exceeds the limit when the limit is a natural
    number.  With a limit of 5 against 8 rows that each have a title cell,
    the entries are those of the first 5 rows, exactly 5 of them. *)
Theorem listDocuments_limit (args : option json)
    (params : ListDocumentsSchema.t) (s s' : Server)
    (response : ToolResponse) :
  ListDocumentsSchema.parse args = Return params ->
  listDocuments env args s = (Return response, s') ->
  let limit := ListDocumentsSchema.limit params in
  let rows := tbody_rows (dom env (calls s')) in
  exists documents,
    response = text_response (JObj [("documents", JArr documents)]) /\
    List.length documents <= List.length rows /\
    (forall n : nat,
        (limit <= inject_Z (Z.of_nat n))%Q -> List.length documents <= n) /\
    ((limit == 5 # 1)%Q ->
     List.length rows = 8 ->
     Forall has_title rows ->
     documents = flat_map InPage.document_entry (firstn 5 rows) /\
     List.length documents = 5).
Proof.
  intros Hparse Hrun limit rows.
  assert (E : ensures (listDocuments env args)
                (fun response s' =>
                   response =
                     text_response
                       (JObj [("documents",
                               JArr (InPage.list_rows
                                       (ListDocumentsSchema.limit params)
                                       (dom env (calls s'))))]))).
  { unfold listDocuments. rewrite Hparse.
    apply ensures_parsed, ensures_bind. intros _.
    apply ensures_try_catch; [|intros e; apply ensures_throw].
    do 3 (apply ensures_bind; intros ?).
    apply (@ensures_evaluate _ _ _ _
             (fun documents =>
                text_response (JObj [("documents", JArr documents)]))). }
  apply E in Hrun. clear E.
  exists (InPage.list_rows limit (dom env (calls s'))).
  split; [exact Hrun|]. unfold InPage.list_rows. fold rows.
  split; [apply rows_from_le_rows|]. split.
  - intros n Hn.
    pose proof (@rows_from_le_bound rows 0 n
                  (Qmin (inject_Z (Z.of_nat (List.length rows))) limit)) as H.
    rewrite Nat.sub_0_r in H. apply H.
    eapply Qle_trans; [apply Q.le_min_r | exact Hn].
  - intros Hlimit Hrows Htitled.
    assert (Hfirst : InPage.rows_from 0 rows
                       (Qmin (inject_Z (Z.of_nat (List.length rows))) limit)
                     = flat_map InPage.document_entry (firstn 5 rows)).
    { apply rows_from_firstn. rewrite Hrows.
      rewrite Q.min_r; [exact Hlimit|].
      rewrite Hlimit. unfold Qle. simpl. lia. }
    rewrite Hfirst. split; [reflexivity|].
    rewrite flat_map_titled.
    + rewrite length_firstn. lia.
    + rewrite <- (firstn_skipn 5 rows) in Htitled.
      apply Forall_app in Htitled. apply Htitled.
Qed.

(** ** read_document *)

Lemma read_editor_missing (d : Dom) :
  editor_missing d -> InPage.read_editor d = InPage.empty_content.
Proof.
  unfold editor_missing, InPage.read_editor. intros H.
  destruct (editor_iframe d) as [iframe|]; [|reflexivity].
  destruct (contentDocument iframe) as [[editor|]|] eqn:E; try reflexivity.
  exfalso. exact (H iframe editor eq_refl E).
Qed.

(** C10.  Once the session is acquired, the navigation is accepted and the
    marker selector has appeared, [read_document] does not fail for want of
    an editor: when the script is evaluated on a document whose editor
    iframe, content document or main editor element is absent, the handler
    returns a success result with empty text and empty html. *)
Theorem readDocument_without_editor (args : option json)
    (params : ReadDocumentSchema.t) (s s1 : Server) :
  ReadDocumentSchema.parse args = Return params ->
  ensureBrowser env s = (Return tt, s1) ->
  let run := [Goto (ReadDocumentSchema.documentUrl params);
              WaitForSelector editor_frame_edit (Some 15000%Z);
              Evaluate ReadEditor] in
  accepted env (calls s1) run ->
  editor_missing (dom env (calls s1 ++ run)) ->
  readDocument env args s =
    (Return (text_response InPage.empty_content), after s1 run).
Proof.
  intros Hparse Hsession run Haccepted Hmissing. subst run.
  destruct (ensureBrowser_page _ Hsession) as [p Hp].
  simpl in Haccepted. destruct Haccepted as (H1 & H2 & H3 & _).
  flat_in H2. flat_in H3.
  unfold readDocument. rewrite Hparse. unfold lift, bind at 1.
  erewrite bind_returned by exact Hsession.
  unfold_run. repeat step. flat.
  rewrite (read_editor_missing Hmissing). reflexivity.
Qed.

(** ** Editing without an editor frame *)

Ltac run_handler Hparse Hsession :=
  rewrite Hparse; unfold lift, bind at 1;
  erewrite bind_returned by exact Hsession;
  unfold_run; repeat step; flat.

Section NoEditorFrame.

Variables (s s1 : Server) (address : string).

Hypothesis Hsession : ensureBrowser env s = (Return tt, s1).
Hypothesis Haccepted : accepted env (calls s1) (opening address).
Hypothesis Hnone :
  find is_editor_frame (frames env (calls s1 ++ opening address)) = None.

Ltac skip_frame handler Hparse :=
  let p := fresh "p" in
  let Hp := fresh "Hp" in
  let H1 := fresh "H1" in
  let H2 := fresh "H2" in
  destruct (ensureBrowser_page _ Hsession) as [p Hp];
  unfold opening in *; subst address;
  simpl in Haccepted; destruct Haccepted as (H1 & H2 & _); flat_in H2;
  unfold handler; run_handler Hparse Hsession.

(** C2 (amended).  Once the session is acquired, the navigation is accepted
    and the marker element has appeared, an editing handler that finds no
    frame whose name or address contains the editor fragment issues none of
    its editing actions and still reports success: [format_text],
    [create_list], [insert_link], [change_font] and [set_alignment] return
    their success payload at once, and [edit_document] returns it after its
    settling delay, failing only if the driver rejects that delay. *)
Theorem no_editor_frame_skips_actions :
  (forall args params,
      EditDocumentSchema.parse args = Return params ->
      EditDocumentSchema.documentUrl params = address ->
      editDocument env args s =
        (match rejects env
                 (calls s1 ++ opening address ++ [WaitForTimeout 2000]) with
         | Some why =>
             Throw (McpError InternalError
                      (FailedTo "edit document" (DriverError why)))
         | None =>
             Return (text_response
                       (JObj [("success", JBool true);
                              ("documentUrl", JStr address);
                              ("action",
                               JStr (if EditDocumentSchema.append params
                                     then "appended" else "replaced"))]))
         end,
         after s1 (opening address ++ [WaitForTimeout 2000]))) /\
  (forall args params,
      FormatTextSchema.parse args = Return params ->
      FormatTextSchema.documentUrl params = address ->
      formatText env args s =
        (Return (text_response
                   (JObj [("success", JBool true);
                          ("format",
                           JStr (format_name (FormatTextSchema.format params)));
                          ("applied", JBool true)])),
         after s1 (opening address))) /\
  (forall args params,
      CreateListSchema.parse args = Return params ->
      CreateListSchema.documentUrl params = address ->
      createList env args s =
        (Return (text_response
                   (JObj [("success", JBool true);
                          ("listType",
                           JStr (listType_name
                                   (CreateListSchema.listType params)));
                          ("itemCount",
                           JNat (List.length
                                   (CreateListSchema.items params)))])),
         after s1 (opening address))) /\
  (forall args params,
      InsertLinkSchema.parse (is_url env) args = Return params ->
      InsertLinkSchema.documentUrl params = address ->
      insertLink env args s =
        (Return (text_response
                   (JObj [("success", JBool true);
                          ("text", JStr (InsertLinkSchema.text params));
                          ("url", JStr (InsertLinkSchema.url params))])),
         after s1 (opening address))) /\
  (forall args params,
      ChangeFontSchema.parse args = Return params ->
      ChangeFontSchema.documentUrl params = address ->
      changeFont env args s =
        (Return (text_response
                   (JObj ([("success", JBool true)]
                          ++ optional_member "fontFamily"
                               (option_map JStr
                                  (ChangeFontSchema.fontFamily params))
                          ++ optional_member "fontSize"
                               (option_map JNum
                                  (ChangeFontSchema.fontSize params))))),
         after s1 (opening address))) /\
  (forall args params,
      SetAlignmentSchema.parse args = Return params ->
      SetAlignmentSchema.documentUrl params = address ->
      setAlignment env args s =
        (Return (text_response
                   (JObj [("success", JBool true);
                          ("alignment",
                           JStr (Alignment.name
                                   (SetAlignmentSchema.alignment params)))])),
         after s1 (opening address))).
Proof.
  repeat split; intros args params Hparse Haddress.
  - skip_frame editDocument Hparse.
    match goal with
    | |- context [rejects env ?h] => destruct (rejects env h)
    end; reflexivity.
  - skip_frame formatText Hparse. reflexivity.
  - skip_frame createList Hparse. reflexivity.
  - skip_frame insertLink Hparse. reflexivity.
  - skip_frame changeFont Hparse. reflexivity.
  - skip_frame setAlignment Hparse. reflexivity.
Qed.

End NoEditorFrame.

(** ** format_text *)

(** C3 (amended).  When [format_text] finds the editor frame but not the
    toolbar button of the format, and the driver accepts the calls, the
    handler clicks nothing: after the optional selection and the query for
    the button it issues exactly the keyboard shortcut of the format, every
    modifier key going down in order before the final key is pressed, and
    the modifier keys going up after it in the order they went down; it
    then reports success. *)
Theorem formatText_shortcut (args : option json)
    (params : FormatTextSchema.t) (s s1 : Server) (f : Frame) :
  FormatTextSchema.parse args = Return params ->
  ensureBrowser env s = (Return tt, s1) ->
  let format := FormatTextSchema.format params in
  let lookup :=
    (opening (FormatTextSchema.documentUrl params)
     ++ selection_calls f (FormatTextSchema.selection params)
     ++ [FrameQuery (frame_id f) (fst (formatMap format))])%list in
  find is_editor_frame
    (frames env (calls s1 ++ opening (FormatTextSchema.documentUrl params)))
    = Some f ->
  present env (calls s1 ++ lookup) = false ->
  accepted env (calls s1) (lookup ++ shortcut_calls format) ->
  formatText env args s =
    (Return (text_response
               (JObj [("success", JBool true);
                      ("format", JStr (format_name format));
                      ("applied", JBool true)])),
     after s1 (lookup ++ shortcut_calls format)).
Proof.
  intros Hparse Hsession.
  destruct (ensureBrowser_page _ Hsession) as [p Hp].
  unfold formatText. rewrite Hparse. clear Hparse.
  destruct params as [address format selection]. simpl.
  unfold opening, shortcut_calls.
  destruct selection as [sel|]; [destruct (Js.truthy sel) eqn:Hsel|];
    destruct format; simpl; rewrite ?Hsel;
    intros Hframe Hpresent Haccepted;
    flat_in Hframe; flat_in Hpresent; split_accepted Haccepted;
    unfold lift, bind at 1;
    (erewrite bind_returned by exact Hsession);
    unfold press_shortcut;
    repeat first [step | progress unfold_run | progress rewrite Hsel];
    flat; reflexivity.
Qed.

(** ** Runs of accepted calls *)

Lemma after_nil (s : Server) : after s [] = s.
Proof. destruct s. unfold after. simpl. rewrite app_nil_r. reflexivity. Qed.

Lemma after_after (s : Server) (evs1 evs2 : list Event) :
  after (after s evs1) evs2 = after s (evs1 ++ evs2).
Proof. unfold after. simpl. rewrite app_assoc. reflexivity. Qed.

Lemma accepted_app (before run1 run2 : list Event) :
  accepted env before (run1 ++ run2) <->
  accepted env before run1 /\ accepted env (before ++ run1) run2.
Proof.
  revert before. induction run1 as [|ev rest IH]; intros before; simpl.
  - rewrite app_nil_r. tauto.
  - rewrite IH. rewrite <- app_assoc. simpl. tauto.
Qed.

Lemma yields_ret A (a : A) (s : Server) : yields (ret a) s [] a.
Proof. unfold yields, ret. rewrite after_nil. reflexivity. Qed.

Lemma yields_bind A B (m : Async A) (k : A -> Async B) (s : Server)
    (evs1 evs2 : list Event) (a : A) (b : B) :
  yields m s evs1 a ->
  yields (k a) (after s evs1) evs2 b ->
  yields (bind m k) s (evs1 ++ evs2) b.
Proof.
  unfold yields, bind. intros Hm Hk. rewrite Hm, Hk, after_after. reflexivity.
Qed.

Lemma yields_driver (ev : Event) (s : Server) :
  rejects env (calls s ++ [ev]) = None ->
  yields (driver env ev) s [ev] tt.
Proof.
  intros H. unfold yields, driver, record. simpl. rewrite H. reflexivity.
Qed.

Lemma yields_on_page (ev : Event) (s : Server) (p : Page) :
  page s = Some p ->
  rejects env (calls s ++ [ev]) = None ->
  yields (on_page env ev) s [ev] tt.
Proof.
  intros Hp H. unfold yields, on_page. rewrite Hp. apply yields_driver, H.
Qed.

Lemma yields_observe A (oracle : Env -> list Event -> A) (s : Server) :
  yields (observe env oracle) s [] (oracle env (calls s)).
Proof. unfold yields, observe. rewrite after_nil. reflexivity. Qed.

Lemma yields_find_editor_frame (s : Server) (p : Page) :
  page s = Some p ->
  yields (find_editor_frame env) s []
    (find is_editor_frame (frames env (calls s))).
Proof.
  intros Hp. unfold yields, find_editor_frame. rewrite Hp, after_nil.
  reflexivity.
Qed.

(** The loop of [createList]: the items are typed in order, Enter being
    pressed after each item but the last. *)
Lemma yields_type_items (f : Frame) (p : Page) (items done : list string) :
  forall s,
    page s = Some p ->
    accepted env (calls s) (item_calls f items) ->
    yields
      (for_of (seq (List.length done) (List.length items))
         (type_item env f (done ++ items)))
      s (item_calls f items) tt.
Proof.
  revert done. induction items as [|item rest IH]; intros done s Hp Hacc.
  - simpl. apply yields_ret.
  - cbn [List.length seq for_of item_calls].
    cbn [item_calls accepted] in Hacc. destruct Hacc as [H1 Hrest].
    assert (Hnth : nth (List.length done) (done ++ item :: rest) EmptyString
                   = item) by apply nth_middle.
    assert (Hdone : ((done ++ [item]) ++ rest = done ++ item :: rest)%list).
    { rewrite <- app_assoc. reflexivity. }
    assert (Hlen : List.length (done ++ [item]) = S (List.length done)).
    { rewrite length_app. simpl. lia. }
    specialize (IH (done ++ [item])%list). rewrite Hdone, Hlen in IH.
    destruct rest as [|next rest'].
    + change (FrameType (frame_id f) main_editor item :: [])
        with ([FrameType (frame_id f) main_editor item] ++ [] ++ [])%list.
      eapply yields_bind.
      * unfold type_item. rewrite Hnth.
        change [FrameType (frame_id f) main_editor item]
          with ([FrameType (frame_id f) main_editor item] ++ [])%list.
        eapply yields_bind.
        -- apply yields_driver. exact H1.
        -- replace (Nat.ltb (List.length done)
                      (List.length (done ++ [item]) - 1)) with false.
           ++ apply yields_ret.
           ++ symmetry. apply Nat.ltb_ge. rewrite length_app. simpl. lia.
      * simpl. apply yields_ret.
    + cbn [accepted] in Hrest. destruct Hrest as [H2 Hrest].
      change (FrameType (frame_id f) main_editor item
              :: KeyPress "Enter" :: item_calls f (next :: rest'))
        with (([FrameType (frame_id f) main_editor item]
               ++ [KeyPress "Enter"])
              ++ item_calls f (next :: rest'))%list.
      eapply yields_bind.
      * unfold type_item. rewrite Hnth.
        eapply yields_bind.
        -- apply yields_driver. exact H1.
        -- replace (Nat.ltb (List.length done)
                      (List.length (done ++ item :: next :: rest') - 1))
             with true.
           ++ eapply yields_on_page; [exact Hp | exact H2].
           ++ symmetry. apply Nat.ltb_lt. rewrite length_app. simpl. lia.
      * apply IH.
        -- exact Hp.
        -- unfold after. cbn [calls].
           rewrite <- app_assoc in Hrest. exact Hrest.
Qed.

Lemma yields_eq A (m : Async A) (s : Server) (evs evs' : list Event) (a : A) :
  yields m s evs a -> evs = evs' -> yields m s evs' a.
Proof. intros H E. subst. exact H. Qed.

Lemma try_catch_yields A (m : Async A) (h : jsError -> Async A) (s : Server)
    (evs : list Event) (a : A) :
  yields m s evs a -> try_catch m h s = (Return a, after s evs).
Proof. unfold yields, try_catch. intros H. rewrite H. reflexivity. Qed.

Ltac tidy := rewrite ?after_nil, ?after_after; simpl app.

(** ** Buttons without a shortcut *)

(** C4 (amended).  When the list-type button of [create_list] or the
    alignment button of [set_alignment] is absent from the editor frame, and
    the driver accepts the calls, the handler does not fail: it skips the
    click and goes on.  [create_list] types the items, Enter between two
    items, then presses Enter twice, and [set_alignment] issues nothing
    more; both report success. *)
Theorem absent_button_is_skipped (s s1 : Server) (f : Frame) :
  ensureBrowser env s = (Return tt, s1) ->
  (forall args params,
      CreateListSchema.parse args = Return params ->
      let address := CreateListSchema.documentUrl params in
      let lookup :=
        (opening address
         ++ [FrameClick (frame_id f) main_editor;
             FrameQuery (frame_id f)
               (list_button (CreateListSchema.listType params))])%list in
      let run :=
        (lookup ++ item_calls f (CreateListSchema.items params)
         ++ [KeyPress "Enter"; KeyPress "Enter"])%list in
      find is_editor_frame (frames env (calls s1 ++ opening address))
        = Some f ->
      present env (calls s1 ++ lookup) = false ->
      accepted env (calls s1) run ->
      createList env args s =
        (Return (text_response
                   (JObj [("success", JBool true);
                          ("listType",
                           JStr (listType_name
                                   (CreateListSchema.listType params)));
                          ("itemCount",
                           JNat (List.length
                                   (CreateListSchema.items params)))])),
         after s1 run)) /\
  (forall args params,
      SetAlignmentSchema.parse args = Return params ->
      let address := SetAlignmentSchema.documentUrl params in
      let run :=
        (opening address
         ++ [FrameClick (frame_id f) main_editor; KeyDown "Control";
             KeyPress "a"; KeyUp "Control";
             FrameQuery (frame_id f)
               (alignmentMap (SetAlignmentSchema.alignment params))])%list in
      find is_editor_frame (frames env (calls s1 ++ opening address))
        = Some f ->
      present env (calls s1 ++ run) = false ->
      accepted env (calls s1) run ->
      setAlignment env args s =
        (Return (text_response
                   (JObj [("success", JBool true);
                          ("alignment",
                           JStr (Alignment.name
                                   (SetAlignmentSchema.alignment params)))])),
         after s1 run)).
Proof.
  intros Hsession.
  destruct (ensureBrowser_page _ Hsession) as [p Hp].
  split.
  - intros args params Hparse address lookup run Hframe Hpresent Haccepted.
    subst run lookup address. unfold opening, list_button in *.
    destruct params as [address listType items]. simpl in *.
    destruct Haccepted as (H1 & H2 & H3 & H4 & Hrest).
    apply accepted_app in Hrest. destruct Hrest as [Hitems Hexit].
    simpl in Hexit. destruct Hexit as (H5 & H6 & _).
    flat_in H2. flat_in H3. flat_in H4. flat_in H5. flat_in H6.
    repeat rewrite <- app_assoc in Hitems. simpl in Hitems.
    unfold createList. rewrite Hparse. unfold lift, bind at 1.
    erewrite bind_returned by exact Hsession.
    apply try_catch_yields. eapply yields_eq.
    + eapply yields_bind.
      { unfold goto. eapply yields_on_page; [exact Hp | exact H1]. }
      eapply yields_bind.
      { unfold waitForSelector. eapply yields_bind.
        - eapply yields_on_page; [exact Hp | flat; exact H2].
        - apply yields_ret. }
      eapply yields_bind.
      { eapply yields_find_editor_frame. exact Hp. }
      flat. rewrite Hframe.
      eapply yields_bind; [|apply yields_ret].
      tidy.
      eapply yields_bind.
      { unfold frame_click. apply yields_driver. flat. exact H3. }
      eapply yields_bind.
      { unfold frame_query. eapply yields_bind.
        - apply yields_driver. flat. exact H4.
        - eapply yields_bind; [apply yields_observe | apply yields_ret]. }
      flat. rewrite Hpresent. tidy.
      eapply yields_bind; [apply yields_ret|].
      tidy.
      eapply yields_bind.
      { apply (@yields_type_items f p items []); [exact Hp|].
        flat. exact Hitems. }
      tidy.
      eapply yields_bind.
      { unfold keyboard_press. eapply yields_on_page; [exact Hp|].
        flat. exact H5. }
      tidy.
      unfold keyboard_press. eapply yields_on_page; [exact Hp|].
      flat. exact H6.
    + simpl. rewrite app_nil_r. rewrite <- ?app_assoc. reflexivity.
  - intros args params Hparse address run Hframe Hpresent Haccepted.
    subst run address. unfold opening in *.
    destruct params as [address alignment]. simpl in *.
    flat_in Hframe. flat_in Hpresent. split_accepted Haccepted.
    unfold setAlignment. run_handler Hparse Hsession.
    reflexivity.
Qed.

End Properties.

(** * The handlers on scripted worlds *)

(** A permanent deletion requested from a fresh server. *)
Lemma deleteDocument_permanent_witness :
  deleteDocument frameless permanent_delete initial =
    (Throw (McpError InternalError
              (FailedTo "delete document"
                 (McpError InvalidRequest
                    (Text "Permanent deletion from trash not yet implemented")))),
     {| browser := Some (browser_handle 1);
        page := Some (page_handle 2);
        calls := [Launch; NewPage; SetViewport 1280 800; Goto trash_url] |}).
Proof.
  rewrite (@deleteDocument_permanent frameless
             permanent_delete
             {| DeleteDocumentSchema.documentUrl := a_document;
                DeleteDocumentSchema.permanent := true |} initial);
    reflexivity.
Defined.

(** C1, as stated, fails: with [permanent = true] the handler navigates to
    the trash listing before it fails. *)
Lemma deleteDocument_permanent_navigates :
  no_ui_interaction
    (calls (snd (deleteDocument frameless
                   permanent_delete initial))) = false.
Proof. reflexivity. Qed.

(** An edit requested on a page without any frame. *)
Lemma no_editor_frame_skips_actions_witness :
  editDocument frameless edit_request initial =
    (Return (text_response
               (JObj [("success", JBool true);
                      ("documentUrl", JStr a_document);
                      ("action", JStr "replaced")])),
     after ready (opening a_document ++ [WaitForTimeout 2000])).
Proof.
  destruct (@no_editor_frame_skips_actions frameless initial ready a_document)
    as [Hedit _].
  - reflexivity.
  - simpl. repeat split.
  - reflexivity.
  - rewrite (Hedit edit_request
               {| EditDocumentSchema.documentUrl := a_document;
                  EditDocumentSchema.content := "Hello";
                  EditDocumentSchema.append := false |});
      reflexivity.
Defined.

(** C2, as stated, fails: with the marker element present and no frame that
    matches, [edit_document] issues none of its editing actions and reports
    success. *)
Lemma editDocument_succeeds_without_frame :
  find is_editor_frame
    (frames frameless (calls ready ++ opening a_document)) = None /\
  editDocument frameless edit_request initial =
    (Return (text_response
               (JObj [("success", JBool true);
                      ("documentUrl", JStr a_document);
                      ("action", JStr "replaced")])),
     after ready (opening a_document ++ [WaitForTimeout 2000])).
Proof. split; reflexivity. Qed.

(** Strikethrough requested where the toolbar has no such button. *)
Lemma formatText_shortcut_witness :
  formatText (with_editor [title_contains "Strike"]) strike_request initial =
    (Return (text_response
               (JObj [("success", JBool true);
                      ("format", JStr "strikethrough");
                      ("applied", JBool true)])),
     after ready
       (opening a_document
        ++ [FrameQuery 1 (title_contains "Strike");
            KeyDown "Control"; KeyDown "Shift"; KeyPress "x";
            KeyUp "Control"; KeyUp "Shift"])).
Proof.
  rewrite (@formatText_shortcut (with_editor [title_contains "Strike"])
             strike_request
             {| FormatTextSchema.documentUrl := a_document;
                FormatTextSchema.format := strikethrough;
                FormatTextSchema.selection := None |}
             initial ready editor_frame).
  - reflexivity.
  - reflexivity.
  - reflexivity.
  - reflexivity.
  - reflexivity.
  - simpl. repeat split.
Defined.

(** C3, as stated, fails: the shortcut of the strikethrough format releases
    Control before Shift, the order in which they went down, not the
    reverse. *)
Lemma strikethrough_not_released_in_reverse :
  released_in_reverse
    (calls (snd (formatText (with_editor [title_contains "Strike"])
                   strike_request initial))) = false.
Proof. vm_compute. reflexivity. Qed.

(** A bullet list requested where the toolbar has no such button. *)
Lemma absent_button_is_skipped_witness :
  createList (with_editor [title_contains "Bullet list"]) list_request initial =
    (Return (text_response
               (JObj [("success", JBool true);
                      ("listType", JStr "bullet");
                      ("itemCount", JNat 2)])),
     after ready
       (opening a_document
        ++ [FrameClick 1 main_editor;
            FrameQuery 1 (title_contains "Bullet list");
            FrameType 1 main_editor "milk"; KeyPress "Enter";
            FrameType 1 main_editor "eggs";
            KeyPress "Enter"; KeyPress "Enter"])).
Proof.
  destruct (@absent_button_is_skipped (with_editor [title_contains "Bullet list"])
              initial ready editor_frame eq_refl) as [Hlist _].
  rewrite (Hlist list_request
             {| CreateListSchema.documentUrl := a_document;
                CreateListSchema.listType := bullet;
                CreateListSchema.items := ["milk"; "eggs"] |}).
  - reflexivity.
  - reflexivity.
  - reflexivity.
  - reflexivity.
  - simpl. repeat split.
Defined.

(** C4, as stated, fails: with the list-type button absent and no shortcut
    to fall back on, [create_list] goes on and reports success. *)
Lemma createList_succeeds_without_button :
  present (with_editor [title_contains "Bullet list"])
    (calls ready ++ opening a_document
     ++ [FrameClick 1 main_editor;
         FrameQuery 1 (title_contains "Bullet list")]) = false /\
  fst (createList (with_editor [title_contains "Bullet list"])
         list_request initial) =
    Return (text_response
              (JObj [("success", JBool true);
                     ("listType", JStr "bullet");
                     ("itemCount", JNat 2)])).
Proof. split; reflexivity. Qed.

(** C5, as stated, fails: when the browser cannot be launched the failure
    reaches the caller as the driver threw it, not wrapped with the name of
    the operation. *)
Lemma launch_failure_is_not_wrapped :
  exists e,
    fst (callTool no_browser list_five initial) = Throw e /\
    forall what, ~ wrapped_with what e.
Proof.
  exists (DriverError "Failed to launch the browser process").
  split; [reflexivity|].
  intros what [cause H]. discriminate H.
Qed.

(** Two requests served in turn by a fresh server. *)
Lemma session_launched_once_witness :
  (exists b p,
      browser (snd (callTool frameless list_five initial)) = Some b /\
      page (snd (callTool frameless list_five initial)) = Some p /\
      browser (snd (serve frameless [list_five; read_it] initial)) = Some b /\
      page (snd (serve frameless [list_five; read_it] initial)) = Some p) /\
  session_calls (calls (snd (callTool frameless list_five initial))) =
    [Launch; NewPage; SetViewport 1280 800] /\
  session_calls (calls (snd (serve frameless [list_five; read_it] initial))) =
    [Launch; NewPage; SetViewport 1280 800] /\
  launches (calls (snd (serve frameless [list_five; read_it] initial))) = 1.
Proof.
  apply (@session_launched_once frameless list_five [read_it]).
  - reflexivity.
  - simpl. repeat split.
Defined.

(** C6, as stated, fails: when the driver rejects the launch the first
    operation stores no browser, and the next operation launches again.
    Two operations then make two launches, and no browser is held at the
    end. *)
Lemma rejected_launch_is_repeated :
  launches (calls (snd (serve no_browser [list_five; read_it] initial))) = 2 /\
  browser (snd (callTool no_browser list_five initial)) = None /\
  browser (snd (serve no_browser [list_five; read_it] initial)) = None.
Proof. repeat split; reflexivity. Qed.

(** Five documents requested from a listing of eight rows. *)
Lemma listDocuments_limit_witness :
  exists documents,
    fst (listDocuments (listing_world eight_rows)
           (limit_request (5 # 1)%Q) initial) =
      Return (text_response (JObj [("documents", JArr documents)])) /\
    documents = flat_map InPage.document_entry (firstn 5 eight_rows) /\
    List.length documents = 5.
Proof.
  destruct (@listDocuments_limit (listing_world eight_rows)
              (limit_request (5 # 1)%Q)
              {| ListDocumentsSchema.searchQuery := None;
                 ListDocumentsSchema.limit := (5 # 1)%Q |}
              initial
              (after ready [Goto recents_url;
                            WaitForSelector "table" (Some 10000%Z);
                            Evaluate (ListRows (5 # 1)%Q)])
              (text_response
                 (JObj [("documents",
                         JArr (flat_map InPage.document_entry
                                 (firstn 5 eight_rows)))]))
              eq_refl eq_refl)
    as (documents & Hresponse & _ & _ & Hfive).
  destruct Hfive as [Hdocuments Hlength].
  - reflexivity.
  - reflexivity.
  - unfold has_title. simpl. repeat constructor; discriminate.
  - exists documents. split; [|split; assumption].
    rewrite <- Hresponse. reflexivity.
Defined.

(** C7, as stated, fails: a limit that is not a whole number lets one more
    row through.  With a limit of two and a half against three rows the
    handler returns three entries, more than the least of the limit and the
    number of rows. *)
Lemma listDocuments_exceeds_fractional_limit :
  exists documents,
    fst (listDocuments (listing_world three_rows)
           (limit_request (5 # 2)%Q) initial) =
      Return (text_response (JObj [("documents", JArr documents)])) /\
    ~ (inject_Z (Z.of_nat (List.length documents))
       <= Qmin (5 # 2) (inject_Z (Z.of_nat (List.length three_rows))))%Q.
Proof.
  eexists. split; [reflexivity|].
  vm_compute. intros H. apply H. reflexivity.
Qed.



(** A search against a listing of three rows. *)
Lemma searchDocuments_payload_witness :
  exists results,
    results = InPage.search_rows (listing three_rows) /\
    fst (searchDocuments (listing_world three_rows) search_request initial) =
      Return (text_response
                (JObj [("query", JStr "MCP");
                       ("results", JArr results);
                       ("count", JNat (List.length results))])).
Proof.
  destruct (@searchDocuments_payload (listing_world three_rows) search_request
              {| SearchDocumentsSchema.query := "MCP" |}
              initial
              (snd (searchDocuments (listing_world three_rows)
                      search_request initial))
              (text_response
                 (JObj [("query", JStr "MCP");
                        ("results",
                         JArr (InPage.search_rows (listing three_rows)));
                        ("count", JNat 3)]))
              eq_refl eq_refl)
    as (results & Hresults & Hresponse).
  exists results. split; [exact Hresults|].
  subst results. reflexivity.
Defined.

(** A document read before its editor has mounted. *)
Lemma readDocument_without_editor_witness :
  readDocument unmounted_world read_request initial =
    (Return (text_response InPage.empty_content),
     after ready
       [Goto a_document; WaitForSelector editor_frame_edit (Some 15000%Z);
        Evaluate ReadEditor]).
Proof.
  apply (@readDocument_without_editor unmounted_world read_request
           {| ReadDocumentSchema.documentUrl := a_document |} initial ready).
  - reflexivity.
  - reflexivity.
  - simpl. repeat split.
  - intros iframe editor H. inversion H. simpl. discriminate.
Defined.

(** * Further properties *)

Ltac unfold_handlers :=
  unfold listDocuments, readDocument, createDocument, searchDocuments,
    editDocument, deleteDocument, shareDocument, formatText, createList,
    insertLink, changeFont, downloadDocument, copyDocument,
    getVersionHistory, setAlignment.

Ltac unfold_calls :=
  unfold failed_to, goto, waitForSelector, waitForTimeout, query, click, type,
    evaluate, keyboard_down, keyboard_up, keyboard_press, keyboard_type,
    frame_click, frame_type, frame_query, handle_click, handle_type,
    non_null, null_page, when, press_shortcut;
  cbv zeta.

Ltac run_handler Hparse Hsession :=
  rewrite Hparse; unfold lift, bind at 1;
  erewrite bind_returned by exact Hsession;
  unfold_run; repeat step; flat.

Section Session.

Variable env : Env.

Lemma ensureBrowser_browser (s s1 : Server) :
  ensureBrowser env s = (Return tt, s1) ->
  exists b, browser s1 = Some b.
Proof.
  intros H. destruct (browser s) as [b|] eqn:Hb.
  - exists b. destruct (@keeps_ensureBrowser env s b Hb) as [Hkept _].
    rewrite H in Hkept. exact Hkept.
  - destruct (rejects env (calls s ++ [Launch])) as [why|] eqn:Hl.
    + exfalso. revert H.
      unfold ensureBrowser, bind, driver, record. rewrite Hb. simpl.
      rewrite Hl. discriminate.
    + rewrite (ensureBrowser_launch env s Hb Hl) in H.
      destruct (@keeps_page_part env (launched s) _ eq_refl) as [Hkept _].
      rewrite H in Hkept. eexists. exact Hkept.
Qed.

(** X1.  Acquiring the session is idempotent: on the server left by a
    successful [ensureBrowser], a second [ensureBrowser] returns at once,
    issues no call and leaves the server as it is. *)
Theorem ensureBrowser_twice (s s1 : Server) :
  ensureBrowser env s = (Return tt, s1) ->
  ensureBrowser env s1 = (Return tt, s1).
Proof.
  intros H.
  edestruct ensureBrowser_browser as [b Hb]; [exact H|].
  edestruct ensureBrowser_page as [p Hp]; [exact H|].
  eapply ensureBrowser_complete; eassumption.
Qed.

Lemma ensureBrowser_launches_once (s : Server) :
  browser s = None ->
  launches (calls (snd (ensureBrowser env s))) = launches (calls s) + 1.
Proof.
  intros Hb.
  destruct (rejects env (calls s ++ [Launch])) as [why|] eqn:Hl.
  - unfold ensureBrowser, bind, driver, record. rewrite Hb. simpl.
    rewrite Hl. simpl. apply launches_snoc.
  - rewrite (ensureBrowser_launch env s Hb Hl).
    destruct (@keeps_page_part env (launched s) _ eq_refl) as [_ H].
    rewrite H. simpl. apply launches_snoc.
Qed.

(** X2.  A rejected launch leaves no session behind: [ensureBrowser] throws
    the driver's error after the launch call alone and the server still
    holds no browser, so the next acquisition launches again, whatever the
    driver answers then. *)
Theorem ensureBrowser_launch_rejected (s : Server) (why : string) :
  browser s = None ->
  rejects env (calls s ++ [Launch]) = Some why ->
  ensureBrowser env s = (Throw (DriverError why), after s [Launch]) /\
  browser (after s [Launch]) = None /\
  launches (calls (snd (ensureBrowser env (after s [Launch])))) =
    launches (calls s) + 2.
Proof.
  intros Hb Hl. split; [|split; [exact Hb|]].
  - unfold ensureBrowser, bind, driver, record, after. rewrite Hb. simpl.
    rewrite Hl. rewrite ?Hb. reflexivity.
  - rewrite ensureBrowser_launches_once by exact Hb.
    simpl. rewrite launches_snoc. simpl. lia.
Qed.

(** X3.  The page is stored before its viewport is set.  When the driver
    creates the page but rejects the viewport call, [ensureBrowser] throws,
    yet the server keeps the new page; the next [ensureBrowser] then returns
    without any call, so the viewport is never set on that page. *)
Theorem ensureBrowser_viewport_rejected (s : Server) (b : Browser)
    (why : string) :
  browser s = Some b ->
  page s = None ->
  rejects env (calls s ++ [NewPage]) = None ->
  rejects env (calls s ++ [NewPage; SetViewport 1280 800]) = Some why ->
  exists s',
    ensureBrowser env s = (Throw (DriverError why), s') /\
    calls s' = (calls s ++ [NewPage; SetViewport 1280 800])%list /\
    page s' <> None /\
    ensureBrowser env s' = (Return tt, s').
Proof.
  intros Hb Hp Hnew Hview.
  eexists. split; [|split; [|split]].
  - unfold ensureBrowser, bind, driver, set_page, record. rewrite Hb. simpl.
    rewrite Hp. simpl. rewrite Hnew. simpl.
    rewrite <- app_assoc. simpl. rewrite Hview. reflexivity.
  - simpl. reflexivity.
  - simpl. discriminate.
  - eapply ensureBrowser_complete; simpl; [exact Hb | reflexivity].
Qed.

(** X4.  A rejected page creation leaves the browser without a page: the
    error is thrown after the call alone and the fields are unchanged, so
    the next acquisition asks for the page again without another launch. *)
Theorem ensureBrowser_page_rejected (s : Server) (b : Browser)
    (why : string) :
  browser s = Some b ->
  page s = None ->
  rejects env (calls s ++ [NewPage]) = Some why ->
  ensureBrowser env s = (Throw (DriverError why), after s [NewPage]) /\
  launches (calls (snd (ensureBrowser env (after s [NewPage])))) =
    launches (calls s).
Proof.
  intros Hb Hp Hnew.
  assert (E : ensureBrowser env s
              = (Throw (DriverError why), after s [NewPage])).
  { unfold ensureBrowser, bind, driver, record, after. rewrite Hb. simpl.
    rewrite Hp. simpl. rewrite Hnew. rewrite ?Hb, ?Hp. reflexivity. }
  split; [exact E|].
  destruct (@keeps_ensureBrowser env (after s [NewPage]) b Hb) as [_ H].
  rewrite H. simpl. rewrite launches_snoc. simpl. apply Nat.add_0_r.
Qed.

(** ** Requests on a complete session *)

(** X5.  Once the server holds a browser and a page, no request of any
    kind touches the session: whatever the tool, the arguments and the
    answers of the outside world, the handler keeps the same browser and the
    same page and issues no launch, no page creation, no viewport call and
    no close. *)
Theorem complete_session_is_left_alone (request : CallToolRequest)
    (s : Server) (b : Browser) (p : Page) :
  browser s = Some b ->
  page s = Some p ->
  browser (snd (callTool env request s)) = Some b /\
  page (snd (callTool env request s)) = Some p /\
  session_calls (calls (snd (callTool env request s))) =
    session_calls (calls s).
Proof. apply callTool_settled. Qed.

(** X6.  [stop] closes the browser when there is one and does nothing
    otherwise; it never clears the fields.  So a request served after
    [stop] launches no new browser: it runs against the closed one. *)
Theorem stop_keeps_the_fields (s : Server) :
  (browser s = None -> stop env s = (Return tt, s)) /\
  (forall b,
      browser s = Some b ->
      calls (snd (stop env s)) = (calls s ++ [Close])%list /\
      browser (snd (stop env s)) = Some b /\
      page (snd (stop env s)) = page s /\
      forall request,
        launches (calls (snd (callTool env request (snd (stop env s))))) =
          launches (calls s)).
Proof.
  split.
  - intros Hb. unfold stop. rewrite Hb. reflexivity.
  - intros b Hb.
    assert (E : snd (stop env s) = after s [Close]).
    { unfold stop, driver. rewrite Hb.
      destruct (rejects env (calls (record Close s))); reflexivity. }
    rewrite E. repeat split; try assumption.
    intros request.
    destruct (@callTool_keeps_session env request (after s [Close]) b Hb)
      as [_ H].
    rewrite H. simpl. rewrite launches_snoc. simpl. apply Nat.add_0_r.
Qed.

End Session.

(** ** The dispatcher and the schemas *)

Ltac unfold_parsers :=
  unfold ListDocumentsSchema.parse, ReadDocumentSchema.parse,
    CreateDocumentSchema.parse, SearchDocumentsSchema.parse,
    EditDocumentSchema.parse, DeleteDocumentSchema.parse,
    ShareDocumentSchema.parse, FormatTextSchema.parse,
    CreateListSchema.parse, InsertLinkSchema.parse,
    ChangeFontSchema.parse, DownloadDocumentSchema.parse,
    CopyDocumentSchema.parse, GetVersionHistorySchema.parse,
    SetAlignmentSchema.parse.

Ltac zod_failure :=
  let H := fresh in
  intros ? H; unfold not_an_object in H;
  repeat match type of H with
         | context [match ?x with _ => _ end] => destruct x
         end;
  first [discriminate H | inversion H; eexists; reflexivity].

Ltac answers_tac :=
  repeat first
    [ apply answers_ret
    | apply answers_throw
    | apply answers_bind; intros ?
    | match goal with
      | |- answers (match ?x with _ => _ end) => destruct x
      end ].

Section Dispatcher.

Variable env : Env.

Lemma ensureBrowser_throws_driver (s : Server) (e : jsError) :
  fst (ensureBrowser env s) = Throw e -> exists why, e = DriverError why.
Proof.
  unfold ensureBrowser, bind, driver, set_browser, set_page, ret, record.
  simpl.
  repeat match goal with
         | |- context [match browser ?x with _ => _ end] =>
             destruct (browser x); simpl
         | |- context [match page ?x with _ => _ end] =>
             destruct (page x); simpl
         | |- context [match rejects env ?h with _ => _ end] =>
             destruct (rejects env h); simpl
         end;
    intros H; try discriminate; inversion H; eexists; reflexivity.
Qed.

(** A handler never throws the method-not-found error. *)
Lemma handler_found P (parse : Completion P)
    (body : P -> Async ToolResponse) (what : string) (s : Server)
    (message : mcpMessage) :
  (forall e, parse = Throw e -> exists issues, e = ZodError issues) ->
  (forall p, answers (body p)) ->
  fst ((let* p := lift parse in
        (ensureBrowser env ;; try_catch (body p) (failed_to what))) s)
  <> Throw (McpError MethodNotFound message).
Proof.
  intros Hparse Hbody H.
  pose proof (@handler_outcome env P parse body what s Hparse Hbody) as Hout.
  rewrite H in Hout.
  destruct Hout as [[issues Hz] | [Hsession | [cause Hw]]];
    try discriminate.
  apply ensureBrowser_throws_driver in Hsession.
  destruct Hsession as [why Hwhy]. discriminate.
Qed.

(** X7.  The dispatcher and the catalog agree: a request is answered with
    the unknown-tool error exactly when its name is not one of the fifteen
    tools the server declares. *)
Theorem unknown_tool_iff_not_declared (request : CallToolRequest)
    (s : Server) :
  fst (callTool env request s) =
    Throw (McpError MethodNotFound (Text ("Unknown tool: " ++ name request)))
  <-> ~ In (name request) (map tool_name tools).
Proof.
  unfold callTool. cbv zeta.
  repeat match goal with
         | |- context [if String.eqb ?a ?b then _ else _] =>
             destruct (String.eqb a b) eqn:?
         end;
    try (match goal with
         | H : String.eqb _ _ = true |- _ =>
             apply String.eqb_eq in H; rewrite H
         end;
         split;
         [ intros Hthrow; exfalso; revert Hthrow; unfold_handlers;
           apply handler_found; [unfold_parsers; zod_failure
                                | intros ?; answers_tac]
         | intros Hnot; exfalso; apply Hnot; simpl;
           repeat first [left; reflexivity | right] ]).
  split; [|intros _; reflexivity].
  intros _ Hin. simpl in Hin.
  repeat match goal with
         | H : _ \/ _ |- _ => destruct H as [H|H]
         end;
    try contradiction;
    rewrite <- Hin in *; simpl in *; discriminate.
Qed.

(** X8.  A request that is refused, because its tool is unknown or because
    its arguments do not pass the schema of the tool, throws and leaves the
    server exactly as it was: no browser is launched and no call is made. *)
Theorem refused_request_leaves_server_untouched (request : CallToolRequest)
    (s : Server) :
  accepts env request = false ->
  exists e, callTool env request s = (Throw e, s).
Proof.
  unfold accepts, callTool. cbv zeta.
  repeat match goal with
         | |- (if ?b then _ else _) = false -> _ => destruct b
         end;
    intros H;
    try (unfold_handlers;
         match type of H with
         | parses ?c = false => destruct c; [discriminate|]
         end);
    eexists; reflexivity.
Qed.

Lemma refused_by_schema A P (parse : Completion P) (k : P -> Async A)
    (e : jsError) (s : Server) :
  parse = Throw e -> (let* p := lift parse in k p) s = (Throw e, s).
Proof. intros H. rewrite H. reflexivity. Qed.

(** X9.  The schemas enforce what the catalog declares as required: for
    every declared tool, an arguments object that lacks one of the
    properties listed as required is refused with a validation error whose
    issues name that property, and the server is left untouched. *)
Theorem missing_required_property_is_refused (tool : Tool) (key : string)
    (members : list (string * json)) (s : Server) :
  In tool tools ->
  In key (required tool) ->
  member key members = None ->
  exists issues,
    In key issues /\
    callTool env (call (tool_name tool) members) s = (Throw (ZodError issues), s).
Proof.
  intros Htool Hkey Hmember. simpl in Htool.
  repeat match goal with
         | H : _ \/ _ |- _ => destruct H as [H|H]
         end;
    try contradiction; subst tool; simpl in Hkey;
    repeat match goal with
           | H : _ \/ _ |- _ => destruct H as [H|H]
           end;
    try contradiction;
    unfold callTool, call; simpl; unfold_handlers;
    match goal with
    | |- exists issues, _ /\ bind (lift ?parse) _ _ = _ =>
        assert (Hparse : exists issues,
                   In key issues /\ parse = Throw (ZodError issues));
        [ subst key; unfold_parsers; unfold Zod.field; rewrite Hmember; simpl;
          repeat case_match; eexists;
          (split; [|reflexivity]);
          first [ solve [simpl; repeat first [left; reflexivity | right]]
                | apply in_or_app; right; simpl;
                  repeat first [left; reflexivity | right] ]
        | destruct Hparse as (issues & Hin & Hparse);
          exists issues; (split; [exact Hin|]);
          apply refused_by_schema; exact Hparse ]
    end.
Qed.

(** X10.  Every declared tool needs an arguments object, even
    [list_documents], whose properties are all optional: arguments that are
    absent or not an object are refused with a validation error at the root,
    and the server is left untouched. *)
Theorem arguments_must_be_an_object (tool : Tool) (args : option json)
    (s : Server) :
  In tool tools ->
  (forall members, args <> Some (JObj members)) ->
  callTool env {| name := tool_name tool; arguments := args |} s =
    (Throw (ZodError ["$"]), s).
Proof.
  intros Htool Hargs. simpl in Htool.
  repeat match goal with
         | H : _ \/ _ |- _ => destruct H as [H|H]
         end;
    try contradiction; subst tool;
    destruct args as [[| | | | |members]|];
    try (exfalso; exact (Hargs members eq_refl));
    reflexivity.
Qed.

End Dispatcher.

(** ** Runs of the handlers *)

Ltac run_through Hsession :=
  unfold lift, bind at 1;
  (erewrite bind_returned by exact Hsession);
  repeat first [step | progress unfold_run]; flat.

Section Runs.

Variable env : Env.

Lemma or_else_empty (s : string) : Js.or_else s EmptyString = s.
Proof. destruct s; reflexivity. Qed.

(** X11.  With the session acquired and the calls accepted, [read_document]
    navigates to the document, waits for the editor iframe up to 15000 ms
    and evaluates one script; when the main editor is mounted in the
    iframe, the payload holds its text content and its inner HTML. *)
Theorem readDocument_reads_editor (args : option json)
    (params : ReadDocumentSchema.t) (s s1 : Server) (iframe : IFrame)
    (editor : Editor) :
  ReadDocumentSchema.parse args = Return params ->
  ensureBrowser env s = (Return tt, s1) ->
  let run := [Goto (ReadDocumentSchema.documentUrl params);
              WaitForSelector editor_frame_edit (Some 15000%Z);
              Evaluate ReadEditor] in
  accepted env (calls s1) run ->
  editor_iframe (dom env (calls s1 ++ run)) = Some iframe ->
  contentDocument iframe = Some (Some editor) ->
  readDocument env args s =
    (Return (text_response
               (JObj [("text", JStr (textContent editor));
                      ("html", JStr (innerHTML editor))])),
     after s1 run).
Proof.
  intros Hparse Hsession run Haccepted Hiframe Hdocument. subst run.
  edestruct ensureBrowser_page as [p Hp]; [exact Hsession|].
  split_accepted Haccepted.
  unfold readDocument. rewrite Hparse. run_through Hsession.
  unfold InPage.read_editor. rewrite Hiframe, Hdocument.
  rewrite !or_else_empty. reflexivity.
Qed.

(** X12.  With the session acquired, the editor frame found and the calls
    accepted, [edit_document] clicks the main editor, moves the caret (to
    the end of the document and a new line when appending, a select-all
    when replacing), types the content into the editor, waits 2000 ms and
    reports the action it took. *)
Theorem editDocument_types_content (args : option json)
    (params : EditDocumentSchema.t) (s s1 : Server) (f : Frame) :
  EditDocumentSchema.parse args = Return params ->
  ensureBrowser env s = (Return tt, s1) ->
  let address := EditDocumentSchema.documentUrl params in
  let run :=
    (opening address
     ++ [FrameClick (frame_id f) main_editor]
     ++ caret_calls (EditDocumentSchema.append params)
     ++ [FrameType (frame_id f) main_editor (EditDocumentSchema.content params);
         WaitForTimeout 2000])%list in
  find is_editor_frame (frames env (calls s1 ++ opening address)) = Some f ->
  accepted env (calls s1) run ->
  editDocument env args s =
    (Return (text_response
               (JObj [("success", JBool true);
                      ("documentUrl", JStr address);
                      ("action",
                       JStr (if EditDocumentSchema.append params
                             then "appended" else "replaced"))])),
     after s1 run).
Proof.
  intros Hparse Hsession.
  edestruct ensureBrowser_page as [p Hp]; [exact Hsession|].
  unfold editDocument. rewrite Hparse. clear Hparse.
  destruct params as [address content append]. simpl.
  unfold opening, caret_calls.
  destruct append; simpl; intros Hframe Haccepted;
    flat_in Hframe; split_accepted Haccepted;
    run_through Hsession; reflexivity.
Qed.

(** X13.  With the session acquired and the calls accepted, a
    [delete_document] without [permanent] opens the document menu and
    clicks its move-to-trash entry, clicks the confirmation button only when
    there is one, waits 2000 ms and reports the document as moved to
    trash. *)
Theorem deleteDocument_moves_to_trash (args : option json)
    (params : DeleteDocumentSchema.t) (s s1 : Server) :
  DeleteDocumentSchema.parse args = Return params ->
  DeleteDocumentSchema.permanent params = false ->
  ensureBrowser env s = (Return tt, s1) ->
  let address := DeleteDocumentSchema.documentUrl params in
  let lookup :=
    (menu_calls address "dropdown-move-to-trash"
     ++ [Query (has_text "Move to trash")])%list in
  let run :=
    (lookup
     ++ optional_click (has_text "Move to trash")
          (present env (calls s1 ++ lookup))
     ++ [WaitForTimeout 2000])%list in
  accepted env (calls s1) run ->
  deleteDocument env args s =
    (Return (text_response
               (JObj [("success", JBool true);
                      ("action", JStr "moved_to_trash");
                      ("documentUrl", JStr address)])),
     after s1 run).
Proof.
  intros Hparse Hpermanent Hsession.
  edestruct ensureBrowser_page as [p Hp]; [exact Hsession|].
  unfold deleteDocument. rewrite Hparse. clear Hparse.
  destruct params as [address permanent]. simpl in *. subst permanent.
  unfold menu_calls, optional_click. flat.
  destruct (present env _) eqn:Hpresent; simpl; intros Haccepted;
    split_accepted Haccepted;
    run_through Hsession; reflexivity.
Qed.

(** X14.  With the session acquired and the calls accepted,
    [download_document] opens the document menu and clicks its download
    entry.  For the docx format it looks for no format button; for any
    other format it waits 500 ms and looks for the button labelled with the
    format in upper case, clicking it only when it is there.  Either way it
    waits 3000 ms and reports the download of the requested format as
    initiated, also when the format button was absent. *)
Theorem downloadDocument_reports_requested_format (args : option json)
    (params : DownloadDocumentSchema.t) (s s1 : Server) (found : bool) :
  DownloadDocumentSchema.parse args = Return params ->
  ensureBrowser env s = (Return tt, s1) ->
  let address := DownloadDocumentSchema.documentUrl params in
  let format := DownloadDocumentSchema.format params in
  let menu := menu_calls address "dropdown-download" in
  let run := (menu ++ format_calls format found ++ [WaitForTimeout 3000])%list in
  (format <> docx ->
   present env
     (calls s1 ++ menu
      ++ [WaitForTimeout 500;
          Query (has_text (Js.toUpperCase (downloadFormat_name format)))])
   = found) ->
  accepted env (calls s1) run ->
  downloadDocument env args s =
    (Return (text_response
               (JObj [("success", JBool true);
                      ("format", JStr (downloadFormat_name format));
                      ("message", JStr "Download initiated")])),
     after s1 run).
Proof.
  intros Hparse Hsession.
  edestruct ensureBrowser_page as [p Hp]; [exact Hsession|].
  unfold downloadDocument. rewrite Hparse. clear Hparse.
  destruct params as [address format]. simpl.
  unfold menu_calls, format_calls, optional_click.
  destruct format; simpl; intros Hpresent Haccepted;
    try (assert (Hfound := Hpresent ltac:(discriminate)); clear Hpresent;
         flat_in Hfound; destruct found);
    split_accepted Haccepted;
    run_through Hsession; reflexivity.
Qed.

(** X15.  With the session acquired and the calls accepted,
    [share_document] clicks the share button, waits 1000 ms, types the
    address into the email input it waited for, sets the permission, clicks
    send and waits 2000 ms.  The permission dropdown is looked for only for
    the edit permission, and when it is absent the invitation is sent all
    the same, the payload still reporting the edit permission. *)
Theorem shareDocument_sends_invitation (args : option json)
    (params : ShareDocumentSchema.t) (s s1 : Server) (found : bool) :
  ShareDocumentSchema.parse (is_email env) args = Return params ->
  ensureBrowser env s = (Return tt, s1) ->
  let address := ShareDocumentSchema.documentUrl params in
  let permission := ShareDocumentSchema.permission params in
  let invite :=
    [Goto address; Click (has_text "Share"); WaitForTimeout 1000;
     WaitForSelector email_input None;
     HandleType (PageElement email_input) (ShareDocumentSchema.email params)] in
  let run :=
    (invite ++ permission_calls permission found
     ++ [Click (has_text "Send"); WaitForTimeout 2000])%list in
  (permission = edit ->
   present env (calls s1 ++ invite ++ [Query (testid "permission-dropdown")])
   = found) ->
  accepted env (calls s1) run ->
  shareDocument env args s =
    (Return (text_response
               (JObj [("success", JBool true);
                      ("documentUrl", JStr address);
                      ("sharedWith", JStr (ShareDocumentSchema.email params));
                      ("permission", JStr (permission_name permission))])),
     after s1 run).
Proof.
  intros Hparse Hsession.
  edestruct ensureBrowser_page as [p Hp]; [exact Hsession|].
  unfold shareDocument. rewrite Hparse. clear Hparse.
  destruct params as [address email permission]. simpl.
  unfold permission_calls.
  destruct permission; simpl; intros Hpresent Haccepted;
    try (assert (Hfound := Hpresent eq_refl); clear Hpresent;
         flat_in Hfound; destruct found);
    split_accepted Haccepted;
    run_through Hsession; reflexivity.
Qed.

(** X16.  In [copy_document] the name input is waited for and then looked
    up again.  When that second lookup finds nothing, the handler fails
    with the null dereference wrapped as a failure to copy the document,
    having typed no name and clicked no copy button. *)
Theorem copyDocument_without_input (args : option json)
    (params : CopyDocumentSchema.t) (s s1 : Server) :
  CopyDocumentSchema.parse args = Return params ->
  ensureBrowser env s = (Return tt, s1) ->
  let run :=
    (menu_calls (CopyDocumentSchema.documentUrl params) "dropdown-make-copy"
     ++ [WaitForSelector input_element None; Query input_element])%list in
  accepted env (calls s1) run ->
  present env (calls s1 ++ run) = false ->
  copyDocument env args s =
    (Throw (McpError InternalError
              (FailedTo "copy document"
                 (TypeError "Cannot read properties of null"))),
     after s1 run).
Proof.
  intros Hparse Hsession run Haccepted Hpresent. subst run.
  edestruct ensureBrowser_page as [p Hp]; [exact Hsession|].
  unfold menu_calls in *. flat_in Hpresent. split_accepted Haccepted.
  unfold copyDocument. rewrite Hparse. run_through Hsession.
  reflexivity.
Qed.

(** X17.  With the session acquired and the calls accepted,
    [copy_document] opens the document menu, clicks its make-a-copy entry,
    selects the content of the name input with a triple click, types the
    new title, clicks the copy button, waits 3000 ms and reports the
    original address and the new title. *)
Theorem copyDocument_names_the_copy (args : option json)
    (params : CopyDocumentSchema.t) (s s1 : Server) :
  CopyDocumentSchema.parse args = Return params ->
  ensureBrowser env s = (Return tt, s1) ->
  let address := CopyDocumentSchema.documentUrl params in
  let lookup :=
    (menu_calls address "dropdown-make-copy"
     ++ [WaitForSelector input_element None; Query input_element])%list in
  let run :=
    (lookup ++ naming_calls (CopyDocumentSchema.newTitle params)
     ++ [Click (has_text "Copy"); WaitForTimeout 3000])%list in
  accepted env (calls s1) run ->
  present env (calls s1 ++ lookup) = true ->
  copyDocument env args s =
    (Return (text_response
               (JObj [("success", JBool true);
                      ("originalUrl", JStr address);
                      ("newTitle", JStr (CopyDocumentSchema.newTitle params))])),
     after s1 run).
Proof.
  intros Hparse Hsession address lookup run Haccepted Hpresent.
  subst run lookup address.
  edestruct ensureBrowser_page as [p Hp]; [exact Hsession|].
  unfold menu_calls, naming_calls in *. flat_in Hpresent.
  split_accepted Haccepted.
  unfold copyDocument. rewrite Hparse. run_through Hsession.
  reflexivity.
Qed.

End Runs.

Section MoreRuns.

Variable env : Env.

(** X18.  With the session acquired and the calls accepted,
    [create_document] opens the new-document address, waits 3000 ms and
    looks for the input of the rename dialog.  When the input is there it is
    used at once; when it is not, the handler opens the document menu,
    clicks its rename entry, waits for the input and looks it up again.  The
    name is selected with a triple click, the title typed and Enter
    pressed.  Without content (absent or empty) nothing is typed into the
    editor; after 2000 ms the payload reports the page address and the
    title. *)
Theorem createDocument_renames (args : option json)
    (params : CreateDocumentSchema.t) (s s1 : Server) (found : bool) :
  CreateDocumentSchema.parse args = Return params ->
  falsy_string (CreateDocumentSchema.content params) ->
  ensureBrowser env s = (Return tt, s1) ->
  let title := CreateDocumentSchema.title params in
  let lookup := [Goto new_doc_url; WaitForTimeout 3000; Query input_element] in
  let run :=
    (lookup ++ rename_calls title found ++ [WaitForTimeout 2000])%list in
  present env (calls s1 ++ lookup) = found ->
  (found = false ->
   present env
     (calls s1 ++ lookup
      ++ [Click document_name_dropdown;
          WaitForSelector (testid "dropdown-rename") None;
          Click (testid "dropdown-rename");
          WaitForSelector input_element None;
          Query input_element]) = true) ->
  accepted env (calls s1) run ->
  createDocument env args s =
    (Return (text_response
               (JObj [("success", JBool true);
                      ("documentUrl", JStr (page_url env (calls s1 ++ run)));
                      ("title", JStr title)])),
     after s1 run).
Proof.
  intros Hparse Hcontent Hsession.
  edestruct ensureBrowser_page as [p Hp]; [exact Hsession|].
  unfold createDocument. rewrite Hparse. clear Hparse.
  destruct params as [title content]. simpl in *.
  unfold rename_calls, naming_calls.
  destruct content as [text|];
    [pose proof (Hcontent text eq_refl); subst text|];
    clear Hcontent;
    destruct found; simpl; intros Hpresent Hagain Haccepted;
    try (assert (Hsecond := Hagain eq_refl); flat_in Hsecond);
    clear Hagain; flat_in Hpresent; split_accepted Haccepted;
    run_through Hsession; reflexivity.
Qed.

(** X19.  With the session acquired and the calls accepted,
    [list_documents] opens the recent documents, waits for the table up to
    10000 ms, and filters the listing only when a search query is given and
    not empty, by typing it into the search input, pressing Enter and
    waiting 1000 ms; it then reads the rows with one script, passing the
    limit. *)
Theorem listDocuments_filters_when_asked (args : option json)
    (params : ListDocumentsSchema.t) (s s1 : Server) :
  ListDocumentsSchema.parse args = Return params ->
  ensureBrowser env s = (Return tt, s1) ->
  let limit := ListDocumentsSchema.limit params in
  let run :=
    ([Goto recents_url; WaitForSelector "table" (Some 10000%Z)]
     ++ filter_calls (ListDocumentsSchema.searchQuery params)
     ++ [Evaluate (ListRows limit)])%list in
  accepted env (calls s1) run ->
  listDocuments env args s =
    (Return (text_response
               (JObj [("documents",
                       JArr (InPage.list_rows limit
                               (dom env (calls s1 ++ run))))])),
     after s1 run).
Proof.
  intros Hparse Hsession.
  edestruct ensureBrowser_page as [p Hp]; [exact Hsession|].
  unfold listDocuments. rewrite Hparse. clear Hparse.
  destruct params as [searchQuery limit]. simpl.
  unfold filter_calls.
  destruct searchQuery as [q|]; [destruct (Js.truthy q) eqn:Hq|];
    simpl; intros Haccepted; split_accepted Haccepted;
    unfold lift, bind at 1;
    (erewrite bind_returned by exact Hsession);
    repeat first [step | progress unfold_run | progress rewrite Hq];
    flat; reflexivity.
Qed.

Lemma truthy_number_zero (n : Q) : (n == 0)%Q -> truthy_number n = false.
Proof.
  intros H. unfold truthy_number.
  apply Qeq_bool_iff in H. rewrite H. reflexivity.
Qed.

(** X20.  In [change_font] an empty font family and a font size of zero
    count as absent.  With the editor frame found and the calls accepted, a
    request without a usable family or size only clicks the editor and
    selects all, looks for no font button, and reports success. *)
Theorem changeFont_ignores_empty_values (args : option json)
    (params : ChangeFontSchema.t) (s s1 : Server) (f : Frame) :
  ChangeFontSchema.parse args = Return params ->
  falsy_string (ChangeFontSchema.fontFamily params) ->
  falsy_number (ChangeFontSchema.fontSize params) ->
  ensureBrowser env s = (Return tt, s1) ->
  let address := ChangeFontSchema.documentUrl params in
  let run :=
    (opening address ++ [FrameClick (frame_id f) main_editor]
     ++ select_all)%list in
  find is_editor_frame (frames env (calls s1 ++ opening address)) = Some f ->
  accepted env (calls s1) run ->
  changeFont env args s =
    (Return (text_response
               (JObj ([("success", JBool true)]
                      ++ optional_member "fontFamily"
                           (option_map JStr (ChangeFontSchema.fontFamily params))
                      ++ optional_member "fontSize"
                           (option_map JNum (ChangeFontSchema.fontSize params))))),
     after s1 run).
Proof.
  intros Hparse Hfamily Hsize Hsession.
  edestruct ensureBrowser_page as [p Hp]; [exact Hsession|].
  unfold changeFont. rewrite Hparse. clear Hparse.
  destruct params as [address family size]. simpl in *.
  unfold opening, select_all. simpl.
  intros Hframe Haccepted. flat_in Hframe. split_accepted Haccepted.
  destruct family as [fam|];
    [rewrite (Hfamily fam eq_refl)|];
    (destruct size as [n|];
     [pose proof (truthy_number_zero (Hsize n eq_refl)) as Hzero|]);
    unfold lift, bind at 1;
    (erewrite bind_returned by exact Hsession);
    repeat first [step | progress unfold_run | progress rewrite Hzero];
    flat; reflexivity.
Qed.

End MoreRuns.

Ltac tidy := rewrite ?after_nil, ?after_after; simpl app.

Section Extraction.

Variable env : Env.

Lemma version_entry_shown (el : VersionItem) :
  List.length (InPage.version_entry el) = if shows_date el then 1 else 0.
Proof.
  unfold InPage.version_entry, shows_date.
  destruct (version_date el) as [date|]; [|reflexivity].
  destruct (Js.truthy date); reflexivity.
Qed.

Lemma version_list_shown (items : list VersionItem) :
  List.length (flat_map InPage.version_entry items)
  = List.length (filter shows_date items).
Proof.
  induction items as [|el rest IH]; simpl.
  - reflexivity.
  - rewrite length_app, version_entry_shown, IH.
    destruct (shows_date el); reflexivity.
Qed.

Lemma version_entry_dated (el : VersionItem) :
  Forall dated (InPage.version_entry el).
Proof.
  unfold InPage.version_entry.
  destruct (version_date el) as [date|]; [|constructor].
  destruct (Js.truthy date) eqn:Hdate; [|constructor].
  constructor; [|constructor].
  eexists. eexists. split; [reflexivity|].
  intros E. subst date. discriminate.
Qed.

Lemma version_list_dated (items : list VersionItem) :
  Forall dated (flat_map InPage.version_entry items).
Proof.
  induction items as [|el rest IH]; simpl.
  - constructor.
  - apply Forall_app. split; [apply version_entry_dated | exact IH].
Qed.

(** X21.  Whenever [get_version_history] returns, its payload echoes the
    document address and carries the versions the script reads off the
    panel as it stands after the last call, and its count is the number of
    those versions.  Only the items that show a non-empty date become
    versions: there are as many versions as such items, and every version
    has a non-empty date. *)
Theorem getVersionHistory_payload (args : option json)
    (params : GetVersionHistorySchema.t) (s s' : Server)
    (response : ToolResponse) :
  GetVersionHistorySchema.parse args = Return params ->
  getVersionHistory env args s = (Return response, s') ->
  exists versions,
    versions = InPage.version_list (dom env (calls s')) /\
    response =
      text_response
        (JObj [("documentUrl",
                JStr (GetVersionHistorySchema.documentUrl params));
               ("versions", JArr versions);
               ("count", JNat (List.length versions))]) /\
    List.length versions
      = List.length (filter shows_date (version_items (dom env (calls s')))) /\
    Forall dated versions.
Proof.
  intros Hparse Hrun.
  assert (E : ensures (getVersionHistory env args)
                (fun response s' =>
                   response =
                     (fun versions =>
                        text_response
                          (JObj [("documentUrl",
                                  JStr (GetVersionHistorySchema.documentUrl
                                          params));
                                 ("versions", JArr versions);
                                 ("count", JNat (List.length versions))]))
                       (InPage.version_list (dom env (calls s'))))).
  { unfold getVersionHistory. rewrite Hparse.
    apply ensures_parsed, ensures_bind. intros _.
    apply ensures_try_catch; [|intros e; apply ensures_throw].
    do 5 (apply ensures_bind; intros ?).
    apply ensures_evaluate. }
  apply E in Hrun. clear E.
  exists (InPage.version_list (dom env (calls s'))).
  split; [reflexivity|]. split; [exact Hrun|]. unfold InPage.version_list.
  split; [apply version_list_shown | apply version_list_dated].
Qed.

Lemma or_else_nonempty (a b : string) :
  b <> EmptyString -> Js.or_else a b <> EmptyString.
Proof.
  intros Hb. unfold Js.or_else. destruct a; simpl; [exact Hb | discriminate].
Qed.

Lemma document_entry_entitled (row : Row) :
  Forall entitled (InPage.document_entry row).
Proof.
  unfold InPage.document_entry.
  destruct (titleCell row) as [title|]; [|constructor].
  constructor; [|constructor].
  eexists. eexists. split; [reflexivity|].
  apply or_else_nonempty. discriminate.
Qed.

Lemma rows_from_entitled (rows : list Row) (i : nat) (bound : Q) :
  Forall entitled (InPage.rows_from i rows bound).
Proof.
  revert i. induction rows as [|row rest IH]; intros i; simpl.
  - constructor.
  - destruct (InPage.below i bound); [|constructor].
    apply Forall_app. split; [apply document_entry_entitled | apply IH].
Qed.

(** The rows the loop of the listing takes are leading rows of the table. *)
Lemma rows_from_taken (rows : list Row) (i : nat) (bound : Q) :
  exists n,
    InPage.rows_from i rows bound
    = flat_map InPage.document_entry (firstn n rows).
Proof.
  revert i. induction rows as [|row rest IH]; intros i; simpl.
  - exists 0. reflexivity.
  - destruct (InPage.below i bound).
    + destruct (IH (S i)) as [n Hn]. exists (S n). simpl. rewrite Hn.
      reflexivity.
    + exists 0. reflexivity.
Qed.

Lemma or_else_untitled (trimmed : string) :
  (trimmed = EmptyString -> Js.or_else trimmed "Untitled" = "Untitled") /\
  (trimmed <> EmptyString -> Js.or_else trimmed "Untitled" = trimmed).
Proof.
  destruct trimmed; simpl; split; intros H; try reflexivity.
  - contradiction.
  - discriminate.
Qed.

Lemma document_entry_lists (rows : list Row) :
  Forall2 lists_as (title_cells rows) (flat_map InPage.document_entry rows).
Proof.
  induction rows as [|row rest IH]; simpl; [constructor|].
  unfold InPage.document_entry at 1.
  destruct (titleCell row) as [cell|]; simpl; [|exact IH].
  constructor; [|exact IH].
  exists (Js.or_else (Js.trim cell) "Untitled").
  split; [reflexivity | apply or_else_untitled].
Qed.

(** X22.  Whenever [list_documents] returns, its entries are those of the
    title cells of leading rows of the table, one entry per title cell and
    in row order, so that a row without a title cell gives no entry.  The
    title of an entry is the text of its cell without the white space
    around it, or Untitled when nothing is left; so no entry has an empty
    title. *)
Theorem listDocuments_titles_are_not_empty (args : option json)
    (params : ListDocumentsSchema.t) (s s' : Server)
    (response : ToolResponse) :
  ListDocumentsSchema.parse args = Return params ->
  listDocuments env args s = (Return response, s') ->
  let rows := tbody_rows (dom env (calls s')) in
  exists documents n,
    response = text_response (JObj [("documents", JArr documents)]) /\
    Forall2 lists_as (title_cells (firstn n rows)) documents /\
    Forall entitled documents.
Proof.
  intros Hparse Hrun rows.
  assert (E : ensures (listDocuments env args)
                (fun response s' =>
                   response =
                     (fun documents =>
                        text_response (JObj [("documents", JArr documents)]))
                       (InPage.list_rows (ListDocumentsSchema.limit params)
                          (dom env (calls s'))))).
  { unfold listDocuments. rewrite Hparse.
    apply ensures_parsed, ensures_bind. intros _.
    apply ensures_try_catch; [|intros e; apply ensures_throw].
    do 3 (apply ensures_bind; intros ?).
    apply ensures_evaluate. }
  apply E in Hrun. clear E.
  unfold InPage.list_rows in Hrun. fold rows in Hrun.
  destruct (rows_from_taken rows 0
              (Qmin (inject_Z (Z.of_nat (List.length rows)))
                 (ListDocumentsSchema.limit params))) as [n Hn].
  exists (flat_map InPage.document_entry (firstn n rows)), n.
  split; [rewrite <- Hn; exact Hrun|].
  split; [apply document_entry_lists|].
  rewrite <- Hn. apply rows_from_entitled.
Qed.

End Extraction.

Section Defaults.

Variable env : Env.

Lemma member_absent (key : string) (members : list (string * json)) :
  member key members = None ->
  find (fun kv => String.eqb (fst kv) key) members = None.
Proof.
  unfold member. destruct (find _ members); [discriminate | reflexivity].
Qed.

(** X23.  An optional property that is left out stands for its default:
    a request without it is served exactly as the request that gives the
    default in full, for the limit of 20 of [list_documents], the append
    and permanent flags set to false of [edit_document] and
    [delete_document], the view permission of [share_document] and the docx
    format of [download_document]. *)
Theorem omitted_property_stands_for_default
    (members : list (string * json)) (s : Server) :
  (member "limit" members = None ->
   callTool env (call "list_documents" members) s =
   callTool env (call "list_documents"
                   (("limit", JNum (20 # 1)%Q) :: members)) s) /\
  (member "append" members = None ->
   callTool env (call "edit_document" members) s =
   callTool env (call "edit_document"
                   (("append", JBool false) :: members)) s) /\
  (member "permanent" members = None ->
   callTool env (call "delete_document" members) s =
   callTool env (call "delete_document"
                   (("permanent", JBool false) :: members)) s) /\
  (member "permission" members = None ->
   callTool env (call "share_document" members) s =
   callTool env (call "share_document"
                   (("permission", JStr "view") :: members)) s) /\
  (member "format" members = None ->
   callTool env (call "download_document" members) s =
   callTool env (call "download_document"
                   (("format", JStr "docx") :: members)) s).
Proof.
  repeat split; intros Habsent; apply member_absent in Habsent;
    unfold callTool, call; simpl; unfold_handlers;
    match goal with
    | |- bind (lift ?a) _ _ = bind (lift ?b) _ _ =>
        replace b with a; [reflexivity|]
    end;
    unfold_parsers; unfold Zod.field, member; simpl;
    rewrite Habsent; reflexivity.
Qed.

End Defaults.

Section Links.

Variable env : Env.

(** The loop of [insertLink]: one Shift and ArrowLeft chord per index. *)
Lemma yields_select_back (p : Page) (n : nat) :
  forall (k : nat) (s : Server),
    page s = Some p ->
    accepted env (calls s) (select_back n) ->
    yields
      (for_of (seq k n)
         (fun _ : nat =>
            keyboard_down env "Shift" ;;
            keyboard_press env "ArrowLeft" ;;
            keyboard_up env "Shift"))
      s (select_back n) tt.
Proof.
  induction n as [|n IH]; intros k s Hp Hacc.
  - simpl. apply yields_ret.
  - cbn [seq for_of select_back]. cbn [select_back accepted] in Hacc.
    destruct Hacc as (H1 & H2 & H3 & Hrest).
    change (KeyDown "Shift" :: KeyPress "ArrowLeft" :: KeyUp "Shift"
            :: select_back n)
      with (([KeyDown "Shift"] ++ [KeyPress "ArrowLeft"] ++ [KeyUp "Shift"])
            ++ select_back n)%list.
    eapply yields_bind.
    + eapply yields_bind.
      { unfold keyboard_down. eapply yields_on_page; [exact Hp | exact H1]. }
      eapply yields_bind.
      { unfold keyboard_press. eapply yields_on_page; [exact Hp | exact H2]. }
      unfold keyboard_up. eapply yields_on_page; [exact Hp | exact H3].
    + apply IH; [exact Hp|].
      unfold after. cbn [calls]. repeat rewrite <- app_assoc in Hrest.
      exact Hrest.
Qed.

(** X24.  With the session acquired, the editor frame found and the calls
    accepted, [insert_link] clicks the main editor and types the link text,
    selects it back with one Shift and ArrowLeft chord per UTF-16 code unit
    of the text, its length, opens the link dialog with Control and k, waits
    500 ms, types the address and presses Enter; it reports the text and
    the address. *)
Theorem insertLink_selects_the_text (args : option json)
    (params : InsertLinkSchema.t) (s s1 : Server) (f : Frame) :
  InsertLinkSchema.parse (is_url env) args = Return params ->
  ensureBrowser env s = (Return tt, s1) ->
  let address := InsertLinkSchema.documentUrl params in
  let text := InsertLinkSchema.text params in
  let typed :=
    (opening address
     ++ [FrameClick (frame_id f) main_editor;
         FrameType (frame_id f) main_editor text])%list in
  let run :=
    (typed ++ select_back (Js.length text)
     ++ [KeyDown "Control"; KeyPress "k"; KeyUp "Control";
         WaitForTimeout 500; KeyType (InsertLinkSchema.url params);
         KeyPress "Enter"])%list in
  find is_editor_frame (frames env (calls s1 ++ opening address)) = Some f ->
  accepted env (calls s1) run ->
  insertLink env args s =
    (Return (text_response
               (JObj [("success", JBool true);
                      ("text", JStr text);
                      ("url", JStr (InsertLinkSchema.url params))])),
     after s1 run).
Proof.
  intros Hparse Hsession address text typed run Hframe Haccepted.
  subst run typed text address.
  edestruct ensureBrowser_page as [p Hp]; [exact Hsession|].
  unfold opening in *.
  destruct params as [address text url]. simpl in *.
  destruct Haccepted as (H1 & H2 & H3 & H4 & Hrest).
  apply accepted_app in Hrest. destruct Hrest as [Hselect Hdialog].
  simpl in Hdialog. destruct Hdialog as (H5 & H6 & H7 & H8 & H9 & H10 & _).
  flat_in H2. flat_in H3. flat_in H4. flat_in H5. flat_in H6. flat_in H7.
  flat_in H8. flat_in H9. flat_in H10.
  repeat rewrite <- app_assoc in Hselect. simpl in Hselect.
  unfold insertLink. rewrite Hparse. unfold lift, bind at 1.
  erewrite bind_returned by exact Hsession.
  apply try_catch_yields. eapply yields_eq.
  - eapply yields_bind.
    { unfold goto. eapply yields_on_page; [exact Hp | exact H1]. }
    eapply yields_bind.
    { unfold waitForSelector. eapply yields_bind.
      - eapply yields_on_page; [exact Hp | flat; exact H2].
      - apply yields_ret. }
    eapply yields_bind.
    { eapply yields_find_editor_frame. exact Hp. }
    flat. rewrite Hframe.
    eapply yields_bind; [|apply yields_ret].
    tidy.
    eapply yields_bind.
    { unfold frame_click. apply yields_driver. flat. exact H3. }
    tidy.
    eapply yields_bind.
    { unfold frame_type. apply yields_driver. flat. exact H4. }
    tidy.
    eapply yields_bind.
    { apply (@yields_select_back p (Js.length text) 0); [exact Hp|].
      flat. exact Hselect. }
    tidy.
    eapply yields_bind.
    { unfold keyboard_down. eapply yields_on_page; [exact Hp|].
      flat. exact H5. }
    tidy.
    eapply yields_bind.
    { unfold keyboard_press. eapply yields_on_page; [exact Hp|].
      flat. exact H6. }
    tidy.
    eapply yields_bind.
    { unfold keyboard_up. eapply yields_on_page; [exact Hp|].
      flat. exact H7. }
    tidy.
    eapply yields_bind.
    { unfold waitForTimeout. eapply yields_on_page; [exact Hp|].
      flat. exact H8. }
    tidy.
    eapply yields_bind.
    { unfold keyboard_type. eapply yields_on_page; [exact Hp|].
      flat. exact H9. }
    tidy.
    unfold keyboard_press. eapply yields_on_page; [exact Hp|].
    flat. exact H10.
  - simpl. rewrite app_nil_r. rewrite <- ?app_assoc. reflexivity.
Qed.

(** X25.  When [format_text] finds the toolbar button of the format in the
    editor frame, and the driver accepts the calls, it clicks that button
    and presses no key of the shortcut: after the optional selection, the
    query for the button is followed by the click alone. *)
Theorem formatText_clicks_the_button (args : option json)
    (params : FormatTextSchema.t) (s s1 : Server) (f : Frame) :
  FormatTextSchema.parse args = Return params ->
  ensureBrowser env s = (Return tt, s1) ->
  let format := FormatTextSchema.format params in
  let button := fst (formatMap format) in
  let lookup :=
    (opening (FormatTextSchema.documentUrl params)
     ++ selection_calls f (FormatTextSchema.selection params)
     ++ [FrameQuery (frame_id f) button])%list in
  let run :=
    (lookup ++ [HandleClick (FrameElement (frame_id f) button) 1])%list in
  find is_editor_frame
    (frames env (calls s1 ++ opening (FormatTextSchema.documentUrl params)))
    = Some f ->
  present env (calls s1 ++ lookup) = true ->
  accepted env (calls s1) run ->
  formatText env args s =
    (Return (text_response
               (JObj [("success", JBool true);
                      ("format", JStr (format_name format));
                      ("applied", JBool true)])),
     after s1 run).
Proof.
  intros Hparse Hsession.
  edestruct ensureBrowser_page as [p Hp]; [exact Hsession|].
  unfold formatText. rewrite Hparse. clear Hparse.
  destruct params as [address format selection]. simpl.
  unfold opening.
  destruct selection as [sel|]; [destruct (Js.truthy sel) eqn:Hsel|];
    destruct format; simpl; rewrite ?Hsel;
    intros Hframe Hpresent Haccepted;
    flat_in Hframe; flat_in Hpresent; split_accepted Haccepted;
    unfold lift, bind at 1;
    (erewrite bind_returned by exact Hsession);
    repeat first [step | progress unfold_run | progress rewrite Hsel];
    flat; reflexivity.
Qed.

End Links.

Section Navigation.

Variable env : Env.

Ltac known_member key :=
  match goal with
  | |- context [member key ?o] =>
      destruct (member key o) as [[| | | | |]|]; simpl;
      try (intros; discriminate)
  end.

Ltac parsed :=
  repeat match goal with
         | |- parses (match ?x with _ => _ end) = true -> _ =>
             destruct x; simpl; try (intros; discriminate)
         | |- parses (if ?x then _ else _) = true -> _ =>
             destruct x; simpl; try (intros; discriminate)
         end.

(** X26.  Every handler navigates first and does not retry: for any
    request accepted by its schema, once the session is acquired the first
    call is the navigation to the address of the operation (the recent
    documents for listing and searching, the new-document address for
    creating, the trash for a permanent deletion, the document address
    otherwise), and when the driver rejects it the handler fails at once
    with that error wrapped with the name of the operation, having issued
    no other call. *)
Theorem rejected_navigation_fails_at_once (request : CallToolRequest)
    (s s1 : Server) (what why : string) :
  accepts env request = true ->
  operation (name request) = Some what ->
  ensureBrowser env s = (Return tt, s1) ->
  rejects env (calls s1 ++ [Goto (destination request)]) = Some why ->
  callTool env request s =
    (Throw (McpError InternalError (FailedTo what (DriverError why))),
     after s1 [Goto (destination request)]).
Proof.
  intros Haccepts Hoperation Hsession.
  edestruct ensureBrowser_page as [p Hp]; [exact Hsession|].
  revert Hoperation Haccepts.
  unfold accepts, operation, destination, callTool. cbv zeta.
  destruct request as [tool args]. simpl.
  repeat match goal with
         | |- context [String.eqb tool ?b] =>
             let E := fresh "E" in
             destruct (String.eqb tool b) eqn:E;
             [apply String.eqb_eq in E; subst tool; simpl|]
         end;
    simpl; intros Hoperation; try discriminate;
    inversion Hoperation; subst what; clear Hoperation;
    unfold_handlers; unfold_parsers;
    unfold not_an_object, Zod.field, string_property, flag;
    (destruct args as [[| | | | |o]|]; simpl; try (intros; discriminate));
    try known_member "documentUrl"; try known_member "permanent";
    parsed;
    try match goal with
        | |- context [if ?b then trash_url else _] => destruct b; simpl
        end;
    intros _ Hrejected;
    unfold lift, bind at 1;
    (erewrite bind_returned by exact Hsession);
    unfold try_catch, bind, goto, on_page, driver, failed_to, throw, record,
      after;
    simpl; rewrite Hp; simpl; rewrite Hrejected; reflexivity.
Qed.

End Navigation.

Section Alignment.

Variable env : Env.

(** X27.  With the session acquired, the editor frame found and the calls
    accepted, [set_alignment] clicks the main editor, selects all with
    Control and a, and looks for the toolbar button of the alignment in the
    editor frame; the button is clicked when it is there and skipped when it
    is not, and in both cases the payload reports success and the
    alignment asked for. *)
Theorem setAlignment_selects_all (args : option json)
    (params : SetAlignmentSchema.t) (s s1 : Server) (f : Frame)
    (found : bool) :
  SetAlignmentSchema.parse args = Return params ->
  ensureBrowser env s = (Return tt, s1) ->
  let address := SetAlignmentSchema.documentUrl params in
  let button := alignmentMap (SetAlignmentSchema.alignment params) in
  let lookup :=
    (opening address ++ [FrameClick (frame_id f) main_editor] ++ select_all
     ++ [FrameQuery (frame_id f) button])%list in
  let run :=
    (lookup
     ++ (if found
         then [HandleClick (FrameElement (frame_id f) button) 1]
         else []))%list in
  find is_editor_frame (frames env (calls s1 ++ opening address)) = Some f ->
  present env (calls s1 ++ lookup) = found ->
  accepted env (calls s1) run ->
  setAlignment env args s =
    (Return (text_response
               (JObj [("success", JBool true);
                      ("alignment",
                       JStr (Alignment.name
                               (SetAlignmentSchema.alignment params)))])),
     after s1 run).
Proof.
  intros Hparse Hsession.
  edestruct ensureBrowser_page as [p Hp]; [exact Hsession|].
  unfold setAlignment. rewrite Hparse. clear Hparse.
  destruct params as [address alignment]. simpl.
  unfold opening, select_all.
  destruct found; simpl;
    intros Hframe Hpresent Haccepted;
    flat_in Hframe; flat_in Hpresent; split_accepted Haccepted;
    run_through Hsession; reflexivity.
Qed.

End Alignment.

(** * Further runs on scripted worlds *)

(** The session of a scripted world, acquired a second time. *)
Lemma ensureBrowser_twice_witness :
  ensureBrowser frameless ready = (Return tt, ready).
Proof.
  apply (@ensureBrowser_twice frameless initial ready). reflexivity.
Defined.

(** A launch in a world without a browser. *)
Lemma ensureBrowser_launch_rejected_witness :
  ensureBrowser no_browser initial =
    (Throw (DriverError "Failed to launch the browser process"),
     after initial [Launch]) /\
  browser (after initial [Launch]) = None /\
  launches (calls (snd (ensureBrowser no_browser (after initial [Launch])))) =
    launches (calls initial) + 2.
Proof.
  apply (@ensureBrowser_launch_rejected no_browser initial); reflexivity.
Defined.

(** A page whose viewport cannot be set. *)
Lemma ensureBrowser_viewport_rejected_witness :
  exists s',
    ensureBrowser no_viewport pageless =
      (Throw (DriverError "Protocol error"), s') /\
    calls s' = [Launch; NewPage; SetViewport 1280 800] /\
    page s' <> None /\
    ensureBrowser no_viewport s' = (Return tt, s').
Proof.
  apply (@ensureBrowser_viewport_rejected no_viewport pageless
           (browser_handle 1));
    reflexivity.
Defined.

(** A browser that cannot open a page. *)
Lemma ensureBrowser_page_rejected_witness :
  ensureBrowser no_page pageless =
    (Throw (DriverError "Protocol error"), after pageless [NewPage]) /\
  launches (calls (snd (ensureBrowser no_page (after pageless [NewPage])))) =
    launches (calls pageless).
Proof.
  apply (@ensureBrowser_page_rejected no_page pageless (browser_handle 1));
    reflexivity.
Defined.

(** A read served on a complete session. *)
Lemma complete_session_is_left_alone_witness :
  browser (snd (callTool frameless read_it ready)) = Some (browser_handle 1) /\
  page (snd (callTool frameless read_it ready)) = Some (page_handle 2) /\
  session_calls (calls (snd (callTool frameless read_it ready))) =
    session_calls (calls ready).
Proof.
  apply (@complete_session_is_left_alone frameless read_it ready); reflexivity.
Defined.

(** A request for a tool that is not declared. *)
Lemma refused_request_leaves_server_untouched_witness :
  exists e, callTool frameless unknown_request ready = (Throw e, ready).
Proof.
  apply (@refused_request_leaves_server_untouched frameless unknown_request
           ready).
  reflexivity.
Defined.

(** A read requested without its document address. *)
Lemma missing_required_property_is_refused_witness :
  exists issues,
    In "documentUrl" issues /\
    callTool frameless (call "read_document" []) ready =
      (Throw (ZodError issues), ready).
Proof.
  apply (@missing_required_property_is_refused frameless
           {| tool_name := "read_document"; required := ["documentUrl"] |}
           "documentUrl" [] ready).
  - simpl. tauto.
  - simpl. tauto.
  - reflexivity.
Defined.

(** A listing requested without any arguments. *)
Lemma arguments_must_be_an_object_witness :
  callTool frameless {| name := "list_documents"; arguments := None |} ready =
    (Throw (ZodError ["$"]), ready).
Proof.
  apply (@arguments_must_be_an_object frameless
           {| tool_name := "list_documents"; required := [] |} None ready).
  - simpl. tauto.
  - discriminate.
Defined.

(** A document read once its editor has mounted. *)
Lemma readDocument_reads_editor_witness :
  readDocument mounted_world read_request initial =
    (Return (text_response
               (JObj [("text", JStr "Hello world");
                      ("html", JStr "<p>Hello world</p>")])),
     after ready
       [Goto a_document; WaitForSelector editor_frame_edit (Some 15000%Z);
        Evaluate ReadEditor]).
Proof.
  apply (@readDocument_reads_editor mounted_world read_request
           {| ReadDocumentSchema.documentUrl := a_document |} initial ready
           {| contentDocument := Some (Some an_editor) |} an_editor).
  - reflexivity.
  - reflexivity.
  - simpl. repeat split.
  - reflexivity.
  - reflexivity.
Defined.

(** A replacement of the content of a document. *)
Lemma editDocument_types_content_witness :
  editDocument (with_editor []) edit_request initial =
    (Return (text_response
               (JObj [("success", JBool true);
                      ("documentUrl", JStr a_document);
                      ("action", JStr "replaced")])),
     after ready
       (opening a_document
        ++ [FrameClick 1 main_editor; KeyDown "Control"; KeyPress "a";
            KeyUp "Control"; FrameType 1 main_editor "Hello";
            WaitForTimeout 2000])).
Proof.
  apply (@editDocument_types_content (with_editor []) edit_request
           {| EditDocumentSchema.documentUrl := a_document;
              EditDocumentSchema.content := "Hello";
              EditDocumentSchema.append := false |}
           initial ready editor_frame).
  - reflexivity.
  - reflexivity.
  - reflexivity.
  - simpl. repeat split.
Defined.

(** A document moved to trash where a confirmation is asked. *)
Lemma deleteDocument_moves_to_trash_witness :
  deleteDocument frameless read_request initial =
    (Return (text_response
               (JObj [("success", JBool true);
                      ("action", JStr "moved_to_trash");
                      ("documentUrl", JStr a_document)])),
     after ready
       (menu_calls a_document "dropdown-move-to-trash"
        ++ [Query (has_text "Move to trash");
            HandleClick (PageElement (has_text "Move to trash")) 1;
            WaitForTimeout 2000])).
Proof.
  apply (@deleteDocument_moves_to_trash frameless read_request
           {| DeleteDocumentSchema.documentUrl := a_document;
              DeleteDocumentSchema.permanent := false |}
           initial ready).
  - reflexivity.
  - reflexivity.
  - reflexivity.
  - simpl. repeat split.
Defined.

(** A PDF download where the menu shows no PDF button. *)
Lemma downloadDocument_reports_requested_format_witness :
  downloadDocument (scripted [has_text "PDF"] [] empty_dom a_document)
    pdf_request initial =
    (Return (text_response
               (JObj [("success", JBool true);
                      ("format", JStr "pdf");
                      ("message", JStr "Download initiated")])),
     after ready
       (menu_calls a_document "dropdown-download"
        ++ [WaitForTimeout 500; Query (has_text "PDF");
            WaitForTimeout 3000])).
Proof.
  apply (@downloadDocument_reports_requested_format
           (scripted [has_text "PDF"] [] empty_dom a_document) pdf_request
           {| DownloadDocumentSchema.documentUrl := a_document;
              DownloadDocumentSchema.format := pdf |}
           initial ready false).
  - reflexivity.
  - reflexivity.
  - intros _. reflexivity.
  - simpl. repeat split.
Defined.

(** An edit permission shared where there is no permission dropdown. *)
Lemma shareDocument_sends_invitation_witness :
  shareDocument
    (scripted [testid "permission-dropdown"] [] empty_dom a_document)
    share_request initial =
    (Return (text_response
               (JObj [("success", JBool true);
                      ("documentUrl", JStr a_document);
                      ("sharedWith", JStr "ann@example.org");
                      ("permission", JStr "edit")])),
     after ready
       [Goto a_document; Click (has_text "Share"); WaitForTimeout 1000;
        WaitForSelector email_input None;
        HandleType (PageElement email_input) "ann@example.org";
        Query (testid "permission-dropdown");
        Click (has_text "Send"); WaitForTimeout 2000]).
Proof.
  apply (@shareDocument_sends_invitation
           (scripted [testid "permission-dropdown"] [] empty_dom a_document)
           share_request
           {| ShareDocumentSchema.documentUrl := a_document;
              ShareDocumentSchema.email := "ann@example.org";
              ShareDocumentSchema.permission := edit |}
           initial ready false).
  - reflexivity.
  - reflexivity.
  - intros _. reflexivity.
  - simpl. repeat split.
Defined.

(** A copy where the name input cannot be looked up. *)
Lemma copyDocument_without_input_witness :
  copyDocument (scripted [input_element] [] empty_dom a_document)
    copy_request initial =
    (Throw (McpError InternalError
              (FailedTo "copy document"
                 (TypeError "Cannot read properties of null"))),
     after ready
       (menu_calls a_document "dropdown-make-copy"
        ++ [WaitForSelector input_element None; Query input_element])).
Proof.
  apply (@copyDocument_without_input
           (scripted [input_element] [] empty_dom a_document) copy_request
           {| CopyDocumentSchema.documentUrl := a_document;
              CopyDocumentSchema.newTitle := "Copy of plan" |}
           initial ready).
  - reflexivity.
  - reflexivity.
  - simpl. repeat split.
  - reflexivity.
Defined.

(** A copy given a new title. *)
Lemma copyDocument_names_the_copy_witness :
  copyDocument frameless copy_request initial =
    (Return (text_response
               (JObj [("success", JBool true);
                      ("originalUrl", JStr a_document);
                      ("newTitle", JStr "Copy of plan")])),
     after ready
       (menu_calls a_document "dropdown-make-copy"
        ++ [WaitForSelector input_element None; Query input_element]
        ++ naming_calls "Copy of plan"
        ++ [Click (has_text "Copy"); WaitForTimeout 3000])).
Proof.
  apply (@copyDocument_names_the_copy frameless copy_request
           {| CopyDocumentSchema.documentUrl := a_document;
              CopyDocumentSchema.newTitle := "Copy of plan" |}
           initial ready).
  - reflexivity.
  - reflexivity.
  - simpl. repeat split.
  - reflexivity.
Defined.

(** A new document whose rename dialog opens by itself. *)
Lemma createDocument_renames_witness :
  createDocument frameless create_request initial =
    (Return (text_response
               (JObj [("success", JBool true);
                      ("documentUrl", JStr a_document);
                      ("title", JStr "MCP Test Document")])),
     after ready
       ([Goto new_doc_url; WaitForTimeout 3000; Query input_element]
        ++ rename_calls "MCP Test Document" true ++ [WaitForTimeout 2000])).
Proof.
  apply (@createDocument_renames frameless create_request
           {| CreateDocumentSchema.title := "MCP Test Document";
              CreateDocumentSchema.content := None |}
           initial ready true).
  - reflexivity.
  - intros text H. discriminate.
  - reflexivity.
  - reflexivity.
  - intros H. discriminate.
  - simpl. repeat split.
Defined.

(** A listing filtered by a search query. *)
Lemma listDocuments_filters_when_asked_witness :
  listDocuments (listing_world three_rows) filtered_request initial =
    (Return (text_response
               (JObj [("documents",
                       JArr (InPage.list_rows (20 # 1)%Q (listing three_rows)))])),
     after ready
       [Goto recents_url; WaitForSelector "table" (Some 10000%Z);
        TypeInto search_input "plan"; KeyPress "Enter"; WaitForTimeout 1000;
        Evaluate (ListRows (20 # 1)%Q)]).
Proof.
  apply (@listDocuments_filters_when_asked (listing_world three_rows)
           filtered_request
           {| ListDocumentsSchema.searchQuery := Some "plan";
              ListDocumentsSchema.limit := (20 # 1)%Q |}
           initial ready).
  - reflexivity.
  - reflexivity.
  - simpl. repeat split.
Defined.

(** A font change asking for an empty family and a size of zero. *)
Lemma changeFont_ignores_empty_values_witness :
  changeFont (with_editor []) font_request initial =
    (Return (text_response
               (JObj [("success", JBool true);
                      ("fontFamily", JStr EmptyString);
                      ("fontSize", JNum (0 # 1)%Q)])),
     after ready
       (opening a_document ++ [FrameClick 1 main_editor] ++ select_all)).
Proof.
  apply (@changeFont_ignores_empty_values (with_editor []) font_request
           {| ChangeFontSchema.documentUrl := a_document;
              ChangeFontSchema.fontFamily := Some EmptyString;
              ChangeFontSchema.fontSize := Some (0 # 1)%Q |}
           initial ready editor_frame).
  - reflexivity.
  - intros text H. inversion H. reflexivity.
  - intros n H. inversion H. reflexivity.
  - reflexivity.
  - reflexivity.
  - simpl. repeat split.
Defined.

(** The history of a document with three items, one of them undated. *)
Lemma getVersionHistory_payload_witness :
  exists versions,
    versions = InPage.version_list versioned /\
    text_response
      (JObj [("documentUrl", JStr a_document);
             ("versions",
              JArr [JObj [("date", JStr "2025-07-03"); ("author", JStr "me")];
                    JObj [("date", JStr "2025-07-01")]]);
             ("count", JNat 2)]) =
    text_response
      (JObj [("documentUrl", JStr a_document);
             ("versions", JArr versions);
             ("count", JNat (List.length versions))]) /\
    List.length versions = 2 /\
    Forall dated versions.
Proof.
  apply (@getVersionHistory_payload versioned_world read_request
           {| GetVersionHistorySchema.documentUrl := a_document |}
           initial
           (after ready
              (menu_calls a_document "dropdown-version-history"
               ++ [WaitForTimeout 2000; Evaluate VersionItems]))).
  - reflexivity.
  - reflexivity.
Defined.

(** A listing of three rows, one without a title cell and one whose title
    is a no-break space. *)
Lemma listDocuments_titles_are_not_empty_witness :
  exists documents n,
    text_response
      (JObj [("documents",
              JArr [JObj [("title", JStr "Alpha");
                          ("viewed", JStr "yesterday");
                          ("createdBy", JStr "me");
                          ("location", JStr EmptyString);
                          ("url", JStr "/doc/1")];
                    JObj [("title", JStr "Untitled");
                          ("viewed", JStr "yesterday");
                          ("createdBy", JStr "me");
                          ("location", JStr EmptyString);
                          ("url", JStr "/doc/3")]])]) =
    text_response (JObj [("documents", JArr documents)]) /\
    Forall2 lists_as (title_cells (firstn n mixed_rows)) documents /\
    Forall entitled documents.
Proof.
  apply (@listDocuments_titles_are_not_empty (listing_world mixed_rows)
           (object [])
           {| ListDocumentsSchema.searchQuery := None;
              ListDocumentsSchema.limit := (20 # 1)%Q |}
           initial
           (after ready
              [Goto recents_url; WaitForSelector "table" (Some 10000%Z);
               Evaluate (ListRows (20 # 1)%Q)])).
  - reflexivity.
  - reflexivity.
Defined.

(** A link over a text of two characters, the second one of three bytes. *)
Lemma insertLink_selects_the_text_witness :
  insertLink (with_editor []) link_request initial =
    (Return (text_response
               (JObj [("success", JBool true);
                      ("text", JStr ("a" ++ euro));
                      ("url", JStr "https://proton.me")])),
     after ready
       ((opening a_document
         ++ [FrameClick 1 main_editor; FrameType 1 main_editor ("a" ++ euro)])
        ++ select_back 2
        ++ [KeyDown "Control"; KeyPress "k"; KeyUp "Control";
            WaitForTimeout 500; KeyType "https://proton.me";
            KeyPress "Enter"])).
Proof.
  apply (@insertLink_selects_the_text (with_editor []) link_request
           {| InsertLinkSchema.documentUrl := a_document;
              InsertLinkSchema.text := "a" ++ euro;
              InsertLinkSchema.url := "https://proton.me" |}
           initial ready editor_frame).
  - reflexivity.
  - reflexivity.
  - reflexivity.
  - simpl. repeat split.
Defined.

(** A strikethrough applied where the toolbar shows its button. *)
Lemma formatText_clicks_the_button_witness :
  formatText (with_editor []) strike_request initial =
    (Return (text_response
               (JObj [("success", JBool true);
                      ("format", JStr "strikethrough");
                      ("applied", JBool true)])),
     after ready
       ((opening a_document
         ++ selection_calls editor_frame None
         ++ [FrameQuery 1 (title_contains "Strike")])
        ++ [HandleClick (FrameElement 1 (title_contains "Strike")) 1])).
Proof.
  apply (@formatText_clicks_the_button (with_editor []) strike_request
           {| FormatTextSchema.documentUrl := a_document;
              FormatTextSchema.format := strikethrough;
              FormatTextSchema.selection := None |}
           initial ready editor_frame).
  - reflexivity.
  - reflexivity.
  - reflexivity.
  - reflexivity.
  - simpl. repeat split.
Defined.

(** A read requested while the network is down. *)
Lemma rejected_navigation_fails_at_once_witness :
  callTool offline read_it initial =
    (Throw (McpError InternalError
              (FailedTo "read document" (DriverError "Protocol error"))),
     after ready [Goto a_document]).
Proof.
  apply (@rejected_navigation_fails_at_once offline read_it initial ready
           "read document" "Protocol error");
    reflexivity.
Defined.

(** A centred paragraph where the toolbar shows no alignment button. *)
Lemma setAlignment_selects_all_witness :
  setAlignment (with_editor [title_contains "Align center"]) center_request
    initial =
    (Return (text_response
               (JObj [("success", JBool true);
                      ("alignment", JStr "center")])),
     after ready
       (opening a_document ++ [FrameClick 1 main_editor] ++ select_all
        ++ [FrameQuery 1 (title_contains "Align center")])).
Proof.
  apply (@setAlignment_selects_all
           (with_editor [title_contains "Align center"]) center_request
           {| SetAlignmentSchema.documentUrl := a_document;
              SetAlignmentSchema.alignment := Alignment.center |}
           initial ready editor_frame false).
  - reflexivity.
  - reflexivity.
  - reflexivity.
  - reflexivity.
  - simpl. repeat split.
Defined.

(** The server stopped once its session is complete. *)
Lemma stop_keeps_the_fields_witness :
  calls (snd (stop frameless ready)) = (calls ready ++ [Close])%list /\
  browser (snd (stop frameless ready)) = Some (browser_handle 1) /\
  page (snd (stop frameless ready)) = page ready /\
  forall request,
    launches (calls (snd (callTool frameless request
                            (snd (stop frameless ready))))) =
      launches (calls ready).
Proof.
  apply (proj2 (@stop_keeps_the_fields frameless ready) (browser_handle 1)).
  reflexivity.
Defined.

(** A listing requested without a limit. *)
Lemma omitted_property_stands_for_default_witness :
  callTool (listing_world three_rows) (call "list_documents" []) initial =
  callTool (listing_world three_rows)
    (call "list_documents" [("limit", JNum (20 # 1)%Q)]) initial.
Proof.
  apply (proj1 (@omitted_property_stands_for_default
                  (listing_world three_rows) [] initial)).
  reflexivity.
Defined.
